(** * Shift-roster optimizer: the model builder of
      backend/scripts/optimizer/generate_schedule.py

    The development follows the script top to bottom: the shift codes, the
    helpers of the input normalizer ([to_minutes], [infer_shift_category],
    [clamp_min_off_days]), a small syntax and semantics for the CP-SAT
    models the script assembles, the builder itself ([build_model] up to the
    call of the solver), and the output formatter.  The solving engine is
    external: a solved output is any valuation that satisfies the model the
    builder produced. *)

From Stdlib Require Import ZArith String Ascii Bool Lia Arith List.
Import ListNotations.
Local Open Scope Z_scope.

(** ** Shift codes *)

Inductive shift := EARLY | DAY | LATE | NIGHT | NIGHT_AFTER | OFF.

Definition SHIFT_CODES : list shift := [EARLY; DAY; LATE; NIGHT; NIGHT_AFTER; OFF].
Definition WORK_SHIFT_CODES : list shift := [EARLY; DAY; LATE; NIGHT].

Definition shift_eqb (a b : shift) : bool :=
  match a, b with
  | EARLY, EARLY | DAY, DAY | LATE, LATE | NIGHT, NIGHT
  | NIGHT_AFTER, NIGHT_AFTER | OFF, OFF => true
  | _, _ => false
  end.

Definition shift_name (s : shift) : string :=
  match s with
  | EARLY => "EARLY" | DAY => "DAY" | LATE => "LATE"
  | NIGHT => "NIGHT" | NIGHT_AFTER => "NIGHT_AFTER" | OFF => "OFF"
  end%string.

(** [code in SHIFT_CODES] on a string, returning the code it names. *)
Definition shift_of_string (s : string) : option shift :=
  find (fun c => String.eqb (shift_name c) s) SHIFT_CODES.

Definition mem_shift (s : shift) (l : list shift) : bool := existsb (shift_eqb s) l.

Definition is_work (s : shift) : bool := mem_shift s WORK_SHIFT_CODES.

(** ** Input normalizer *)

(** A JSON value as [int(...)] sees it: absent ([None]), convertible to an
    integer, or one on which [int] raises [TypeError] / [ValueError]. *)
Inductive raw := RNone | RInt (z : Z) | RBad.

Definition clamp_min_off_days (num_days : Z) (raw_value : raw) (fallback : Z) : Z :=
  match raw_value with
  | RNone => fallback
  | RBad => fallback
  | RInt value => Z.max 0 (Z.min value num_days)
  end.

Record min_off_table := {
  base_min_off : Z;
  min_off_full_time : Z;
  min_off_part_time : Z;
  min_off_contract : Z
}.

(** Lines 248-265: the resolution of the per-category minimum days off. *)
Definition resolve_min_off (num_days : Z)
    (general_min_off_raw full_time_raw part_time_raw contract_raw : raw) : min_off_table :=
  let base := clamp_min_off_days num_days general_min_off_raw 0 in
  let full := clamp_min_off_days num_days full_time_raw base in
  let part_time_fallback :=
    match general_min_off_raw with RNone => 10 | _ => base end in
  let part := clamp_min_off_days num_days part_time_raw part_time_fallback in
  let contract := clamp_min_off_days num_days contract_raw part in
  {| base_min_off := base; min_off_full_time := full;
     min_off_part_time := part; min_off_contract := contract |}.

Definition min_off_by_type (t : min_off_table) (employment_type : string) : Z :=
  if String.eqb employment_type "full_time" then min_off_full_time t
  else if String.eqb employment_type "part_time" then min_off_part_time t
  else if String.eqb employment_type "contract" then min_off_contract t
  else base_min_off t.

Definition parse_optional_int (raw_value : raw) : option Z :=
  match raw_value with RInt z => Some z | _ => None end.

(** Lines 295-304. *)
Definition resolve_max_consecutive (num_days : Z) (raw_max_consecutive : raw) : option Z :=
  match raw_max_consecutive with
  | RInt parsed_consecutive =>
      if 0 <? parsed_consecutive then Some (Z.min parsed_consecutive num_days) else None
  | _ => None
  end.

(** *** Shift-category inference *)

Section Inference.

(** Python's built-in [int] on a string: [None] stands for [ValueError]. *)
Variable py_int : string -> option Z.

(** [s.split(":", 1)]: at most one cut, at the first colon. *)
Fixpoint split_colon_once (s : string) : string * option string :=
  match s with
  | EmptyString => (EmptyString, None)
  | String c rest =>
      if Ascii.eqb c ":"%char then (EmptyString, Some rest)
      else let '(h, t) := split_colon_once rest in (String c h, t)
  end.

Definition to_minutes (time_str : option string) : option Z :=
  match time_str with
  | None => None
  | Some EmptyString => None
  | Some s =>
      match split_colon_once s with
      | (h, Some m) =>
          match py_int h, py_int m with
          | Some hours, Some minutes => Some (hours * 60 + minutes)
          | _, _ => None
          end
      | (_, None) => None
      end
  end.

(** The dictionary [direct_map]; the outer [option] is key membership. *)
Definition direct_map (shift_code : string) : option (option shift) :=
  match shift_of_string shift_code with
  | Some EARLY => Some (Some EARLY)
  | Some DAY => Some (Some DAY)
  | Some LATE => Some (Some LATE)
  | Some NIGHT => Some (Some NIGHT)
  | Some NIGHT_AFTER => Some (Some NIGHT)
  | Some OFF => Some None
  | None => None
  end.

Definition by_times (start_minutes end_minutes : Z) : shift :=
  if end_minutes <? start_minutes then NIGHT
  else if 20 * 60 <=? end_minutes then LATE
  else if (7 * 60 <=? start_minutes) && (start_minutes <=? 7 * 60 + 30) then EARLY
  else if (8 * 60 <=? start_minutes) && (end_minutes <=? 18 * 60) then DAY
  else if 15 * 60 <=? start_minutes then NIGHT
  else if (6 * 60 <=? start_minutes) && (start_minutes <? 8 * 60) then EARLY
  else if 18 * 60 <=? end_minutes then LATE
  else DAY.

Definition infer_from_times (start_at end_at : option string) : option shift :=
  match to_minutes start_at, to_minutes end_at with
  | Some start_minutes, Some end_minutes => Some (by_times start_minutes end_minutes)
  | _, _ => None
  end.

Definition infer_shift_category (shift_code start_at end_at : option string)
    : option shift :=
  match shift_code with
  | Some (String _ _ as code) =>
      match direct_map code with
      | Some category => category
      | None => infer_from_times start_at end_at
      end
  | _ => infer_from_times start_at end_at
  end.

(** An explicit code is usable when it is non-empty and a key of [direct_map]. *)
Definition usable_code (shift_code : option string) : bool :=
  match shift_code with
  | Some (String _ _ as code) =>
      match direct_map code with Some _ => true | None => false end
  | _ => false
  end.

End Inference.

(** The precedence of the specification, read as a rule table: the first
    rule whose condition holds decides, and DAY is the default. *)
Definition precedence_table : list ((Z -> Z -> Prop) * shift) :=
  [ (fun s e => e < s, NIGHT);
    (fun s e => 20 * 60 <= e, LATE);
    (fun s e => 7 * 60 <= s <= 7 * 60 + 30, EARLY);
    (fun s e => 8 * 60 <= s /\ e <= 18 * 60, DAY);
    (fun s e => 15 * 60 <= s, NIGHT);
    (fun s e => 6 * 60 <= s < 8 * 60, EARLY);
    (fun s e => 18 * 60 <= e, LATE) ].

(** [decided_by table s e c]: some rule of [table] holds at [(s, e)], every
    rule before it fails, and it yields [c]; or no rule holds and [c] is DAY. *)
Inductive decided_by : list ((Z -> Z -> Prop) * shift) -> Z -> Z -> shift -> Prop :=
| decided_default : forall s e, decided_by [] s e DAY
| decided_here : forall (P : Z -> Z -> Prop) c rest s e,
    P s e -> decided_by ((P, c) :: rest) s e c
| decided_later : forall (P : Z -> Z -> Prop) c rest s e c',
    ~ P s e -> decided_by rest s e c' -> decided_by ((P, c) :: rest) s e c'.

(** A plain decimal reader, used to run [to_minutes] on examples. *)
Definition digit_of (c : ascii) : option Z :=
  let n := Z.of_nat (nat_of_ascii c) in
  if (48 <=? n) && (n <=? 57) then Some (n - 48) else None.

Fixpoint decimal_acc (acc : Z) (s : string) : option Z :=
  match s with
  | EmptyString => Some acc
  | String c rest =>
      match digit_of c with
      | Some d => decimal_acc (acc * 10 + d) rest
      | None => None
      end
  end.

Definition decimal_int (s : string) : option Z :=
  match s with
  | EmptyString => None
  | _ => decimal_acc 0 s
  end.

(** ** Dictionaries and ranges

    Python dictionaries keep insertion order and overwrite in place, which
    fixes the order in which the builder walks [pinned_assignments]. *)

Section Dict.
Context {K V : Type}.
Variable keqb : K -> K -> bool.

Fixpoint dict_get (m : list (K * V)) (k : K) : option V :=
  match m with
  | [] => None
  | (k', v) :: rest => if keqb k k' then Some v else dict_get rest k
  end.

Fixpoint dict_set (m : list (K * V)) (k : K) (v : V) : list (K * V) :=
  match m with
  | [] => [(k, v)]
  | (k', v') :: rest =>
      if keqb k k' then (k', v) :: rest else (k', v') :: dict_set rest k v
  end.
End Dict.

Definition range (n : nat) : list nat := seq 0 n.

(** [range(a, b)] *)
Definition range_from (a b : nat) : list nat := seq a (b - a).

Definition count_if {A : Type} (p : A -> bool) (l : list A) : Z :=
  Z.of_nat (length (filter p l)).

Definition zsum (l : list Z) : Z := fold_left Z.add l 0.

(** [{key: idx for idx, key in enumerate(l)}] *)
Definition index_dict (l : list Z) : list (Z * nat) :=
  fold_left (fun m p => dict_set Z.eqb m (snd p) (fst p))
            (combine (range (length l)) l) [].

(** [str.upper] on the ASCII letters; strings are byte strings here. *)
Definition upper_ascii (c : ascii) : ascii :=
  let n := nat_of_ascii c in
  if (Nat.leb 97 n && Nat.leb n 122)%bool then ascii_of_nat (n - 32) else c.

Fixpoint upper (s : string) : string :=
  match s with
  | EmptyString => EmptyString
  | String c rest => String (upper_ascii c) (upper rest)
  end.

(** [sorted(...)] on shift codes: the order of their names as strings. *)
Definition shift_leb (a b : shift) : bool := String.leb (shift_name a) (shift_name b).

Fixpoint insert_sorted (a : shift) (l : list shift) : list shift :=
  match l with
  | [] => [a]
  | b :: rest => if shift_leb a b then a :: l else b :: insert_sorted a rest
  end.

Definition sorted (l : list shift) : list shift := fold_right insert_sorted [] l.

(** ** CP-SAT models *)

Inductive var :=
| X (u d : nat) (s : shift)
| Shortage (d : nat) (s : shift)
| WorkFlag (u d : nat)
| OffSlack (u : nat)
| WorkCount (u : nat)
| WorkDiff (u : nat)
| AbsWorkDiff (u : nat)
| OffDiff (u : nat)
| AbsOffDiff (u : nat).

Inductive expr :=
| EVar (v : var)
| EConst (z : Z)
| EAdd (a b : expr)
| ESub (a b : expr)
| EMul (k : Z) (e : expr).

(** Python's [sum]: starts from 0 and adds from the left. *)
Definition esum (es : list expr) : expr := fold_left EAdd es (EConst 0).

Inductive constr :=
| CEq (a b : expr)
| CLe (a b : expr)
| CGe (a b : expr)
| CImplication (a b : var)
| CAbsEquality (target : var) (e : expr).

Record cp_model := {
  variables : list (var * (Z * Z));
  constraints : list constr;
  objective_terms : list expr
}.

Definition valuation := var -> Z.

Fixpoint eval (sol : valuation) (e : expr) : Z :=
  match e with
  | EVar v => sol v
  | EConst z => z
  | EAdd a b => eval sol a + eval sol b
  | ESub a b => eval sol a - eval sol b
  | EMul k a => k * eval sol a
  end.

Definition holds (sol : valuation) (c : constr) : bool :=
  match c with
  | CEq a b => eval sol a =? eval sol b
  | CLe a b => eval sol a <=? eval sol b
  | CGe a b => eval sol b <=? eval sol a
  | CImplication a b => implb (sol a =? 1) (sol b =? 1)
  | CAbsEquality target e => sol target =? Z.abs (eval sol e)
  end.

Definition in_domain (sol : valuation) (decl : var * (Z * Z)) : bool :=
  let '(v, (lo, hi)) := decl in (lo <=? sol v) && (sol v <=? hi).

(** A valuation the solver may return with status optimal or feasible. *)
Definition feasibleb (m : cp_model) (sol : valuation) : bool :=
  forallb (in_domain sol) (variables m) && forallb (holds sol) (constraints m).

Definition feasible (m : cp_model) (sol : valuation) : Prop := feasibleb m sol = true.

Definition objective (m : cp_model) : expr := esum (objective_terms m).

(** ** The request *)

Definition isodate := Z.

Inductive weekday :=
  monday | tuesday | wednesday | thursday | friday | saturday | sunday.

Definition WEEKDAY_KEYS : list weekday :=
  [monday; tuesday; wednesday; thursday; friday; saturday; sunday].

(** A calendar date is kept as its proleptic Gregorian ordinal, the number
    [datetime.date] compares by; [date.weekday()] is [(ordinal + 6) % 7]. *)
Definition weekday_of (date : isodate) : weekday :=
  nth (Z.to_nat ((date + 6) mod 7)) WEEKDAY_KEYS monday.

Definition weekday_eqb (a b : weekday) : bool :=
  match a, b with
  | monday, monday | tuesday, tuesday | wednesday, wednesday
  | thursday, thursday | friday, friday | saturday, saturday
  | sunday, sunday => true
  | _, _ => false
  end.

Record preferences := {
  fixed_days_off : weekday -> bool;
  fixed_holiday_off : bool;
  custom_dates_off : list isodate
}.

Definition no_preferences : preferences :=
  {| fixed_days_off := fun _ => false; fixed_holiday_off := false;
     custom_dates_off := [] |}.

Record Member := {
  id : Z;
  employment_type : string;
  can_night_shift : bool;
  allowed_shift_codes : option (list shift);
  schedule_preferences : option preferences
}.

Record Existing := {
  user_id : Z;
  date : isodate;
  shift_code : string
}.

Record Constraints := {
  max_nights_per_member : Z;
  min_off_days : raw;
  min_off_days_full_time : raw;
  min_off_days_part_time : raw;
  min_off_days_contract : raw;
  holiday_dates : list isodate;
  generation_end_date : option isodate;
  desired_day_headcount_raw : raw;
  max_consecutive_workdays_raw : raw;
  enforce_night_after_rest : bool;
  forbid_late_to_early : bool;
  limit_fulltime_repeat : bool;
  balance_workload : bool
}.

Record Request := {
  members : list Member;
  days : list isodate;
  coverage_requirements : shift -> Z;
  coverage_day_desired : raw;
  constraints_of : Constraints;
  existing_assignments : list Existing
}.

(** ** Conflict records, one constructor per value of the [type] field *)

Inductive conflict :=
| allowed_shift_conflict (member_id : Z) (on : isodate) (code : shift)
| existing_assignment_conflict (member_id : Z) (on : isodate) (codes : list shift)
| fixed_day_off_conflict (member_id : Z) (on : isodate) (code : shift)
| max_consecutive_workdays_conflict (member_id : Z) (start_date end_date : isodate) (limit : Z)
| night_after_predecessor_conflict (member_id : Z) (on previous_date : isodate) (locked_shift : shift)
| night_follow_up_conflict (member_id : Z) (on next_date : isodate) (locked_shift : shift)
| night_rest_conflict (member_id : Z) (on rest_date : isodate) (locked_shift : shift)
| night_eligibility_conflict (member_id : Z) (on : isodate)
| late_to_early_conflict (member_id : Z) (on next_date : isodate)
| repeat_limit_conflict (member_id : Z) (start_date : isodate) (code : shift)
| night_quota_conflict (member_id : Z) (nights_locked max_allowed : Z)
| off_requirement_shortfall (member_id : Z) (shortfall required : Z).

(** ** The model builder: [build_model] up to the call of the solver *)

Definition pair_eqb (a b : nat * nat) : bool :=
  Nat.eqb (fst a) (fst b) && Nat.eqb (snd a) (snd b).

Definition day_code_eqb (a b : nat * shift) : bool :=
  Nat.eqb (fst a) (fst b) && shift_eqb (snd a) (snd b).

Definition default_member : Member :=
  {| id := 0; employment_type := "member"; can_night_shift := true;
     allowed_shift_codes := None; schedule_preferences := None |}.

(** What the loop over [existing_assignments] accumulates. *)
Record pin_state := {
  pinned_assignments : list ((nat * nat) * shift);
  fixed_requirements : list ((nat * shift) * Z);
  pin_conflicts : list conflict
}.

(** What one rule contributes: constraints for the model, records for
    [conflicts], both in the order the script appends them. *)
Definition emitted : Type := list constr * list conflict.

Definition nothing : emitted := ([], []).
Definition add (c : constr) : emitted := ([c], []).
Definition conflict_of (k : conflict) : emitted := ([], [k]).
Definition andthen (a b : emitted) : emitted := (fst a ++ fst b, snd a ++ snd b).

Definition for_each {A : Type} (l : list A) (body : A -> emitted) : emitted :=
  fold_right (fun a acc => andthen (body a) acc) nothing l.

Section BuildModel.

Variable data : Request.

Let cs : Constraints := constraints_of data.

Definition num_members : nat := length (members data).
Definition num_days : nat := length (days data).

Definition member_at (u : nat) : Member := nth u (members data) default_member.
Definition day_at (d : nat) : isodate := nth d (days data) 0.

Definition member_index : list (Z * nat) := index_dict (map id (members data)).
Definition day_index : list (Z * nat) := index_dict (days data).
Definition date_to_index : list (Z * nat) := index_dict (days data).

Definition holiday_flags (idx : nat) : bool :=
  existsb (Z.eqb (day_at idx)) (holiday_dates cs).

(** [generation_end_date and day_dates[d] > generation_end_date] *)
Definition after_cutoff (d : nat) : bool :=
  match generation_end_date cs with
  | Some g => g <? day_at d
  | None => false
  end.

Definition max_nights : Z := max_nights_per_member cs.

Definition min_off : min_off_table :=
  resolve_min_off (Z.of_nat num_days) (min_off_days cs) (min_off_days_full_time cs)
                  (min_off_days_part_time cs) (min_off_days_contract cs).

Definition required_per_shift (s : shift) : Z := coverage_requirements data s.
Definition base_day_required : Z := required_per_shift DAY.

Definition desired_day_headcount : Z :=
  let raw_value :=
    match desired_day_headcount_raw cs with
    | RNone => coverage_day_desired data
    | given => given
    end in
  let desired :=
    match parse_optional_int raw_value with
    | Some z => z
    | None => base_day_required
    end in
  Z.max base_day_required (Z.min desired (Z.of_nat num_members)).

Definition max_consecutive_workdays : option Z :=
  resolve_max_consecutive (Z.of_nat num_days) (max_consecutive_workdays_raw cs).

(** *** Decision variables and the single-assignment rule (lines 314-325) *)

Definition x_variables : list (var * (Z * Z)) :=
  flat_map (fun u =>
    flat_map (fun d => map (fun s => (X u d s, (0, 1))) SHIFT_CODES) (range num_days))
    (range num_members).

Definition x_over_codes (u d : nat) (codes : list shift) : expr :=
  esum (map (fun s => EVar (X u d s)) codes).

Definition single_assignment : list constr :=
  flat_map (fun u =>
    map (fun d =>
           if after_cutoff d
           then CLe (x_over_codes u d SHIFT_CODES) (EConst 1)
           else CEq (x_over_codes u d SHIFT_CODES) (EConst 1))
        (range num_days))
    (range num_members).

(** *** Pinned assignments (lines 327-372) *)

Definition pin_step (st : pin_state) (assignment : Existing) : pin_state :=
  match dict_get Z.eqb member_index (user_id assignment),
        dict_get Z.eqb day_index (date assignment) with
  | Some u, Some d =>
      match shift_of_string (upper (shift_code assignment)) with
      | None => st
      | Some code =>
          let conflicts :=
            match allowed_shift_codes (member_at u) with
            | Some allowed_codes =>
                if mem_shift code allowed_codes then pin_conflicts st
                else pin_conflicts st
                     ++ [allowed_shift_conflict (id (member_at u)) (day_at d) code]
            | None => pin_conflicts st
            end in
          match dict_get pair_eqb (pinned_assignments st) (u, d) with
          | Some pinned_code =>
              {| pinned_assignments := pinned_assignments st;
                 fixed_requirements := fixed_requirements st;
                 pin_conflicts :=
                   if shift_eqb pinned_code code then conflicts
                   else conflicts
                        ++ [existing_assignment_conflict (id (member_at u)) (day_at d)
                              (sorted [pinned_code; code])] |}
          | None =>
              {| pinned_assignments := dict_set pair_eqb (pinned_assignments st) (u, d) code;
                 fixed_requirements :=
                   if is_work code
                   then dict_set day_code_eqb (fixed_requirements st) (d, code)
                          (match dict_get day_code_eqb (fixed_requirements st) (d, code) with
                           | Some n => n
                           | None => 0
                           end + 1)
                   else fixed_requirements st;
                 pin_conflicts := conflicts |}
          end
      end
  | _, _ => st
  end.

Definition pin_existing : pin_state :=
  fold_left pin_step (existing_assignments data)
    {| pinned_assignments := []; fixed_requirements := []; pin_conflicts := [] |}.

(** [pinned_assignments.get((u, d))] *)
Definition pinned (u d : nat) : option shift :=
  dict_get pair_eqb (pinned_assignments pin_existing) (u, d).

Definition pinned_is (u d : nat) (s : shift) : bool :=
  match pinned u d with Some c => shift_eqb c s | None => false end.

(** [fixed_requirements.get((d, s), 0)] *)
Definition fixed (d : nat) (s : shift) : Z :=
  match dict_get day_code_eqb (fixed_requirements pin_existing) (d, s) with
  | Some n => n
  | None => 0
  end.

(** *** Allowed sets and forced days off (lines 374-405) *)

Definition default_allowed_codes : list shift := WORK_SHIFT_CODES ++ [OFF; NIGHT_AFTER].

Definition allowed_shift_sets (u : nat) : list shift :=
  match allowed_shift_codes (member_at u) with
  | None => default_allowed_codes
  | Some codes => filter (fun code => mem_shift code SHIFT_CODES) codes ++ [OFF; NIGHT_AFTER]
  end.

Definition is_forced_off (u idx : nat) : bool :=
  let prefs :=
    match schedule_preferences (member_at u) with
    | Some p => p
    | None => no_preferences
    end in
  fixed_days_off prefs (weekday_of (day_at idx))
  || (holiday_flags idx && fixed_holiday_off prefs)
  || existsb (fun raw_date =>
                match dict_get Z.eqb date_to_index raw_date with
                | Some i => Nat.eqb i idx
                | None => false
                end)
             (custom_dates_off prefs).

(** The set [forced_indices], listed in increasing order. *)
Definition forced_off_days_by_member (u : nat) : list nat :=
  filter (is_forced_off u) (range num_days).

(** *** Requirements per day (lines 410-452)

    [day_requirements] is appended to [per_day_requirements] and then
    updated under the key DAY: the list holds the same dictionary, so on a
    generation day its DAY entry is the day target. *)

Definition day_requirements (d : nat) (s : shift) : Z :=
  if after_cutoff d then Z.max (fixed d s) 0
  else Z.max (required_per_shift s) (fixed d s).

Definition required_other (d : nat) : Z :=
  zsum (map (day_requirements d)
            (filter (fun code => negb (shift_eqb code DAY)) WORK_SHIFT_CODES)).

Definition remaining_capacity (d : nat) : Z :=
  let capacity := Z.of_nat num_members - required_other d in
  if capacity <? day_requirements d DAY then day_requirements d DAY
  else Z.min capacity (Z.of_nat num_members).

Definition fixed_day_assignments (d : nat) : Z :=
  count_if (fun u => pinned_is u d DAY) (range num_members).

Definition flexible_day_capacity (d : nat) : Z :=
  count_if (fun u =>
              match pinned u d with
              | None => mem_shift DAY (allowed_shift_sets u)
              | Some _ => false
              end)
           (range num_members).

Definition max_day_capacity (d : nat) : Z :=
  Z.max (day_requirements d DAY) (fixed_day_assignments d + flexible_day_capacity d).

Definition day_target (d : nat) : Z :=
  Z.min (Z.min (Z.max desired_day_headcount (day_requirements d DAY))
               (remaining_capacity d))
        (max_day_capacity d).

Definition per_day_requirements (d : nat) (s : shift) : Z :=
  if shift_eqb s DAY && negb (after_cutoff d) then day_target d
  else day_requirements d s.

Definition desired_day_per_day (d : nat) : Z :=
  if after_cutoff d then day_requirements d DAY else day_target d.

(** *** Coverage with shortage slack (lines 454-469) *)

Definition day_code_pairs : list (nat * shift) :=
  flat_map (fun d => map (fun s => (d, s)) WORK_SHIFT_CODES) (range num_days).

Definition sum_expr (d : nat) (s : shift) : expr :=
  esum (map (fun u => EVar (X u d s)) (range num_members)).

Definition shortage_vars : list ((nat * shift) * var) :=
  flat_map (fun ds =>
              if 0 <? per_day_requirements (fst ds) (snd ds)
              then [(ds, Shortage (fst ds) (snd ds))] else [])
           day_code_pairs.

Definition shortage_variables : list (var * (Z * Z)) :=
  map (fun entry =>
         (snd entry, (0, per_day_requirements (fst (fst entry)) (snd (fst entry)))))
      shortage_vars.

(** [day_shortfall_vars[d]]: the DAY shortage variable, or the constant 0. *)
Definition day_shortfall_vars (d : nat) : expr :=
  if 0 <? per_day_requirements d DAY then EVar (Shortage d DAY) else EConst 0.

Definition coverage : list constr :=
  map (fun ds =>
         let required := per_day_requirements (fst ds) (snd ds) in
         if 0 <? required
         then CEq (EAdd (sum_expr (fst ds) (snd ds)) (EVar (Shortage (fst ds) (snd ds))))
                  (EConst required)
         else CEq (sum_expr (fst ds) (snd ds)) (EConst 0))
      day_code_pairs.

(** *** Pinned assignments as equalities (lines 471-473) *)

Definition pinned_equalities : list constr :=
  map (fun entry => CEq (EVar (X (fst (fst entry)) (snd (fst entry)) (snd entry))) (EConst 1))
      (pinned_assignments pin_existing).

(** *** The rules of one member (lines 475-691) *)

(** The set [disallowed_codes], listed in the order of WORK_SHIFT_CODES. *)
Definition disallowed_codes (u : nat) : list shift :=
  filter (fun code => negb (mem_shift code (allowed_shift_sets u))) WORK_SHIFT_CODES.

Definition eligibility_rule (u : nat) : emitted :=
  for_each (range num_days) (fun d =>
    for_each (disallowed_codes u) (fun code =>
      if pinned_is u d code
      then conflict_of (allowed_shift_conflict (id (member_at u)) (day_at d) code)
      else add (CEq (EVar (X u d code)) (EConst 0)))).

Definition fixed_day_off_rule (u : nat) : emitted :=
  for_each (forced_off_days_by_member u) (fun d =>
    match pinned u d with
    | Some pinned_code =>
        if negb (shift_eqb pinned_code OFF)
        then conflict_of (fixed_day_off_conflict (id (member_at u)) (day_at d) pinned_code)
        else (CEq (EVar (X u d OFF)) (EConst 1)
              :: map (fun code => CEq (EVar (X u d code)) (EConst 0))
                     (filter (fun code => negb (shift_eqb code OFF)) SHIFT_CODES), [])
    | None =>
        (CEq (EVar (X u d OFF)) (EConst 1)
         :: map (fun code => CEq (EVar (X u d code)) (EConst 0))
                (filter (fun code => negb (shift_eqb code OFF)) SHIFT_CODES), [])
    end).

Definition work_day_flags (u : nat) : list var := map (WorkFlag u) (range num_days).

Definition work_flag_definitions (u : nat) : list constr :=
  map (fun d => CEq (EVar (WorkFlag u d)) (x_over_codes u d WORK_SHIFT_CODES))
      (range num_days).

Definition window_constraints (u : nat) (cap : Z) : list constr :=
  let window := Z.to_nat (cap + 1) in
  if Nat.leb window num_days
  then map (fun start =>
              CLe (esum (map EVar (firstn window (skipn start (work_day_flags u)))))
                  (EConst cap))
           (range (Z.to_nat (Z.of_nat num_days - cap)))
  else [].

(** The scan of pinned runs, which stops at the first run longer than the cap. *)
Fixpoint scan_pinned_run (u : nat) (cap : Z) (ds : list nat) (pinned_run : nat)
    : list conflict :=
  match ds with
  | [] => []
  | d :: rest =>
      let run :=
        match pinned u d with
        | Some pinned_code => if is_work pinned_code then S pinned_run else O
        | None => O
        end in
      if cap <? Z.of_nat run
      then [max_consecutive_workdays_conflict (id (member_at u))
              (day_at (d + 1 - run)) (day_at d) cap]
      else scan_pinned_run u cap rest run
  end.

Definition consecutive_rule (u : nat) : emitted :=
  match max_consecutive_workdays with
  | Some cap =>
      (work_flag_definitions u ++ window_constraints u cap,
       scan_pinned_run u cap (range num_days) O)
  | None => nothing
  end.

Definition night_after_rule (u : nat) : emitted :=
  for_each (range_from 1 num_days) (fun d =>
    match pinned u d, pinned u (d - 1) with
    | Some NIGHT_AFTER, Some prev_locked =>
        if negb (shift_eqb prev_locked NIGHT)
        then conflict_of (night_after_predecessor_conflict (id (member_at u))
                            (day_at d) (day_at (d - 1)) prev_locked)
        else add (CLe (EVar (X u d NIGHT_AFTER)) (EVar (X u (d - 1) NIGHT)))
    | _, _ => add (CLe (EVar (X u d NIGHT_AFTER)) (EVar (X u (d - 1) NIGHT)))
    end).

Definition night_follow_up (u d : nat) : emitted :=
  let current_locked := pinned u d in
  let next_locked := pinned u (d + 1) in
  match current_locked, next_locked with
  | Some NIGHT, Some next_code =>
      if negb (shift_eqb next_code NIGHT_AFTER)
      then conflict_of (night_follow_up_conflict (id (member_at u))
                          (day_at d) (day_at (d + 1)) next_code)
      else add (CImplication (X u d NIGHT) (X u (d + 1) NIGHT_AFTER))
  | Some current_code, Some NIGHT_AFTER =>
      if negb (shift_eqb current_code NIGHT)
      then conflict_of (night_follow_up_conflict (id (member_at u))
                          (day_at d) (day_at (d + 1)) current_code)
      else add (CImplication (X u d NIGHT) (X u (d + 1) NIGHT_AFTER))
  | _, _ => add (CImplication (X u d NIGHT) (X u (d + 1) NIGHT_AFTER))
  end.

Definition night_rest (u d : nat) : emitted :=
  match pinned u d, pinned u (d + 2) with
  | Some NIGHT, Some rest_locked =>
      if negb (shift_eqb rest_locked OFF)
      then conflict_of (night_rest_conflict (id (member_at u))
                          (day_at d) (day_at (d + 2)) rest_locked)
      else add (CImplication (X u d NIGHT) (X u (d + 2) OFF))
  | _, _ => add (CImplication (X u d NIGHT) (X u (d + 2) OFF))
  end.

Definition night_rest_rule (u : nat) : emitted :=
  if enforce_night_after_rest cs
  then andthen (for_each (range (num_days - 1)) (night_follow_up u))
               (for_each (range (num_days - 2)) (night_rest u))
  else nothing.

Definition night_eligibility_rule (u : nat) : emitted :=
  if can_night_shift (member_at u) then nothing
  else for_each (range num_days) (fun d =>
         if pinned_is u d NIGHT
         then conflict_of (night_eligibility_conflict (id (member_at u)) (day_at d))
         else ([CEq (EVar (X u d NIGHT)) (EConst 0);
                CEq (EVar (X u d NIGHT_AFTER)) (EConst 0)], [])).

Definition late_to_early_rule (u : nat) : emitted :=
  if forbid_late_to_early cs
  then for_each (range (num_days - 1)) (fun d =>
         if pinned_is u d LATE && pinned_is u (d + 1) EARLY
         then conflict_of (late_to_early_conflict (id (member_at u))
                             (day_at d) (day_at (d + 1)))
         else add (CLe (EAdd (EVar (X u d LATE)) (EVar (X u (d + 1) EARLY))) (EConst 1)))
  else nothing.

Definition repeat_rule (u : nat) : emitted :=
  if limit_fulltime_repeat cs && String.eqb (employment_type (member_at u)) "full_time"
  then for_each WORK_SHIFT_CODES (fun s =>
         for_each (range (num_days - 2)) (fun d =>
           if pinned_is u d s && pinned_is u (d + 1) s && pinned_is u (d + 2) s
           then conflict_of (repeat_limit_conflict (id (member_at u)) (day_at d) s)
           else add (CLe (EAdd (EAdd (EVar (X u d s)) (EVar (X u (d + 1) s)))
                               (EVar (X u (d + 2) s)))
                         (EConst 2))))
  else nothing.

Definition pinned_night_count (u : nat) : Z :=
  count_if (fun d => pinned_is u d NIGHT) (range num_days).

Definition night_quota_rule (u : nat) : emitted :=
  if max_nights <? pinned_night_count u
  then conflict_of (night_quota_conflict (id (member_at u)) (pinned_night_count u) max_nights)
  else add (CLe (esum (map (fun d => EVar (X u d NIGHT)) (range num_days)))
                (EConst max_nights)).

Definition member_rules (u : nat) : emitted :=
  andthen (eligibility_rule u)
 (andthen (fixed_day_off_rule u)
 (andthen (consecutive_rule u)
 (andthen (night_after_rule u)
 (andthen (night_rest_rule u)
 (andthen (night_eligibility_rule u)
 (andthen (late_to_early_rule u)
 (andthen (repeat_rule u)
          (night_quota_rule u)))))))).

Definition all_member_rules : emitted := for_each (range num_members) member_rules.

Definition work_flag_variables : list (var * (Z * Z)) :=
  match max_consecutive_workdays with
  | Some _ =>
      flat_map (fun u => map (fun v => (v, (0, 1))) (work_day_flags u)) (range num_members)
  | None => []
  end.

(** *** Workload targets and per-member counters (lines 693-740) *)

Definition total_assignments : Z :=
  zsum (map (fun d =>
               zsum (map (per_day_requirements d)
                         (filter (fun code => negb (shift_eqb code DAY)) WORK_SHIFT_CODES))
               + desired_day_per_day d)
            (range num_days)).

Definition target_work : Z :=
  match num_members with
  | O => 0
  | _ => total_assignments / Z.of_nat num_members
  end.

Definition total_off_available : Z :=
  Z.of_nat num_days * Z.of_nat num_members - total_assignments.

Definition target_off : Z :=
  match num_members with
  | O => 0
  | _ => total_off_available / Z.of_nat num_members
  end.

Definition off_count_expr (u : nat) : expr :=
  esum (map (fun d => EVar (X u d OFF)) (range num_days)).

Definition member_off_requirements (u : nat) : Z :=
  min_off_by_type min_off (employment_type (member_at u)).

(** [off_slack_vars[u]]: an integer variable, or the constant 0. *)
Definition off_slack_vars (u : nat) : expr :=
  if 0 <? member_off_requirements u then EVar (OffSlack u) else EConst 0.

Definition counter_variables (u : nat) : list (var * (Z * Z)) :=
  let n := Z.of_nat num_days in
  (if 0 <? member_off_requirements u then [(OffSlack u, (0, n))] else [])
  ++ [(WorkCount u, (0, n)); (WorkDiff u, (- n, n)); (AbsWorkDiff u, (0, n));
      (OffDiff u, (- n, n)); (AbsOffDiff u, (0, n))].

Definition counter_constraints (u : nat) : list constr :=
  (if 0 <? member_off_requirements u
   then [CGe (EAdd (off_count_expr u) (EVar (OffSlack u)))
             (EConst (member_off_requirements u))]
   else [])
  ++ [CEq (EVar (WorkCount u)) (ESub (EConst (Z.of_nat num_days)) (off_count_expr u));
      CEq (EVar (WorkDiff u)) (ESub (EVar (WorkCount u)) (EConst target_work));
      CAbsEquality (AbsWorkDiff u) (EVar (WorkDiff u));
      CEq (EVar (OffDiff u)) (ESub (off_count_expr u) (EConst target_off));
      CAbsEquality (AbsOffDiff u) (EVar (OffDiff u))].

(** *** Objective (lines 742-754) *)

Definition coverage_penalty : Z := 100000.
Definition off_requirement_penalty : Z := 1000.
Definition day_target_penalty : Z := 5000.

Definition abs_work_diffs : list expr := map (fun u => EVar (AbsWorkDiff u)) (range num_members).
Definition abs_off_diffs : list expr := map (fun u => EVar (AbsOffDiff u)) (range num_members).

Definition composed_objective : list expr :=
  [EMul coverage_penalty (esum (map (fun entry => EVar (snd entry)) shortage_vars))]
  ++ (match range num_members with
      | [] => []
      | us => [EMul off_requirement_penalty (esum (map off_slack_vars us))]
      end)
  ++ (match range num_days with
      | [] => []
      | ds => [EMul day_target_penalty (esum (map day_shortfall_vars ds))]
      end)
  ++ (if balance_workload cs
      then [EAdd (EMul 10 (esum abs_work_diffs)) (EMul 5 (esum abs_off_diffs))]
      else []).

(** The conflicts recorded before the solver runs. *)
Definition conflicts_before_solve : list conflict :=
  pin_conflicts pin_existing ++ snd all_member_rules.

(** The model handed to [solver.Solve]. *)
Definition model : cp_model :=
  {| variables :=
       x_variables ++ shortage_variables ++ work_flag_variables
       ++ flat_map counter_variables (range num_members);
     constraints :=
       single_assignment ++ coverage ++ pinned_equalities
       ++ fst all_member_rules
       ++ flat_map counter_constraints (range num_members);
     objective_terms := composed_objective |}.

End BuildModel.

(** ** The solver's answer and the output formatter (lines 756-897) *)

Inductive solver_status := OPTIMAL | FEASIBLE | INFEASIBLE | MODEL_INVALID | UNKNOWN.

Definition status_map (status : solver_status) : string :=
  match status with
  | OPTIMAL => "optimal"
  | FEASIBLE => "feasible"
  | INFEASIBLE => "infeasible"
  | MODEL_INVALID => "invalid"
  | UNKNOWN => "unknown"
  end%string.

(** [status in (cp_model.OPTIMAL, cp_model.FEASIBLE)] *)
Definition usable (status : solver_status) : bool :=
  match status with
  | OPTIMAL | FEASIBLE => true
  | _ => false
  end.

(** A shift slot: one record when a single member holds it, a list otherwise. *)
Inductive slot := One (user : Z) | Many (users : list Z).

Record day_entry := {
  entry_date : isodate;
  shifts : list (shift * slot)
}.

Record shortage_record := {
  shortage_date : isodate;
  shortage_code : shift;
  missing : Z
}.

Record day_capacity_shortfall := {
  shortfall_date : isodate;
  shortfall_code : shift;
  shortfall : Z;
  unused_capacity : Z;
  desired : Z
}.

Record Summary := {
  status_label : string;
  work_days : list (Z * Z);
  off_days : list (Z * Z);
  nights : list (Z * Z);
  shift_breakdown : list (shift * Z);
  shortages : list shortage_record;
  day_capacity_shortfalls : list day_capacity_shortfall;
  constraint_conflicts : list conflict
}.

Record Output := {
  assignments : list day_entry;
  summary : Summary
}.

(** How a run of [build_model] ends: [SystemExit] with an error message, a
    dictionary handed back to the caller, or a dictionary printed. *)
Inductive outcome :=
| SystemExit (message : string)
| Returned (output : Output)
| Printed (output : Output).

Section Formatter.

Variable data : Request.
Variable sol : valuation.

(** [solver.Value(x[(u, d, s)]) == 1], for the members in order. *)
Definition assigned_users (d : nat) (s : shift) : list Z :=
  map (fun u => id (member_at data u))
      (filter (fun u => sol (X u d s) =? 1) (range (num_members data))).

Definition night_users_by_day (d : nat) : list Z := assigned_users d NIGHT.

Definition in_ids (user : Z) (ids : list Z) : bool := existsb (Z.eqb user) ids.

(** The members listed under code [s] on day [d], after the pruning of
    carry-over days. *)
Definition listed_users (d : nat) (s : shift) : list Z :=
  let assigned := assigned_users d s in
  if after_cutoff data d then
    match s with
    | NIGHT_AFTER =>
        filter (fun user => Nat.ltb 0 d && in_ids user (night_users_by_day (d - 1))) assigned
    | OFF =>
        filter (fun user => Nat.ltb 1 d && in_ids user (night_users_by_day (d - 2))) assigned
    | _ => []
    end
  else assigned.

Definition output_shift_codes : list shift := WORK_SHIFT_CODES ++ [NIGHT_AFTER; OFF].

Definition day_shifts (d : nat) : list (shift * slot) :=
  flat_map (fun s =>
              match listed_users d s with
              | [] => []
              | [user] => [(s, One user)]
              | users => [(s, Many users)]
              end)
           output_shift_codes.

Definition schedule : list day_entry :=
  map (fun d => {| entry_date := day_at data d; shifts := day_shifts d |})
      (range (num_days data)).

Definition unique_shift_users (s : shift) : list Z :=
  nodup Z.eq_dec (flat_map (fun d => listed_users d s) (range (num_days data))).

Definition reported_shortages : list shortage_record :=
  flat_map (fun entry =>
              let amount := sol (snd entry) in
              if 0 <? amount
              then [{| shortage_date := day_at data (fst (fst entry));
                       shortage_code := snd (fst entry);
                       missing := amount |}]
              else [])
           (shortage_vars data).

Definition reported_day_shortfalls : list day_capacity_shortfall :=
  flat_map (fun d =>
              let amount := eval sol (day_shortfall_vars data d) in
              if 0 <? amount
              then [{| shortfall_date := day_at data d; shortfall_code := DAY;
                       shortfall := amount; unused_capacity := amount;
                       desired := desired_day_per_day data d |}]
              else [])
           (range (num_days data)).

Definition off_shortfall_conflicts : list conflict :=
  flat_map (fun u =>
              let required_off := member_off_requirements data u in
              if required_off <=? 0 then []
              else
                let amount := eval sol (off_slack_vars data u) in
                if 0 <? amount
                then [off_requirement_shortfall (id (member_at data u)) amount required_off]
                else [])
           (range (num_members data)).

(** [{members[u].id: value(u) for u in range(num_members)}] *)
Definition per_member (value : nat -> Z) : list (Z * Z) :=
  fold_left (fun m u => dict_set Z.eqb m (id (member_at data u)) (value u))
            (range (num_members data)) [].

Definition solved_output (status : solver_status) : Output :=
  {| assignments := schedule;
     summary :=
       {| status_label := status_map status;
          work_days := per_member (fun u => sol (WorkCount u));
          off_days := per_member (fun u => eval sol (off_count_expr data u));
          nights :=
            per_member (fun u =>
              zsum (map (fun d => sol (X u d NIGHT)) (range (num_days data))));
          shift_breakdown :=
            map (fun code => (code, Z.of_nat (length (unique_shift_users code))))
                WORK_SHIFT_CODES;
          shortages := reported_shortages;
          day_capacity_shortfalls := reported_day_shortfalls;
          constraint_conflicts := conflicts_before_solve data ++ off_shortfall_conflicts |} |}.

End Formatter.

(** The branch taken when the status is neither optimal nor feasible. *)
Definition unsolved_output (data : Request) (status : solver_status) : Output :=
  {| assignments := [];
     summary :=
       {| status_label := status_map status;
          work_days := [];
          off_days := [];
          nights := [];
          shift_breakdown := map (fun code => (code, 0)) WORK_SHIFT_CODES;
          shortages := [];
          day_capacity_shortfalls := [];
          constraint_conflicts := conflicts_before_solve data |} |}.

(** [build_model], with the solving engine as a parameter. *)
Definition build_model (solve : cp_model -> solver_status * valuation) (data : Request)
    : outcome :=
  if Nat.eqb (num_members data) 0 || Nat.eqb (num_days data) 0
  then SystemExit "Members or days are empty"
  else
    let '(status, sol) := solve (model data) in
    if usable status then Printed (solved_output data sol status)
    else Returned (unsolved_output data status).

(** A solved output: what [build_model] prints when the engine answers
    optimal or feasible with a valuation that satisfies the model. *)
Definition solved_by (data : Request) (sol : valuation) : Prop :=
  feasible (model data) sol.

(** ** Statements of the specification, on the model *)

(** NIGHT_AFTER on day [d] is backed by a NIGHT on the day before, which has
    to exist, or by a recorded predecessor conflict for that member and date. *)
Definition night_after_backed (data : Request) (sol : valuation)
    (conflicts : list conflict) (u d : nat) : Prop :=
  sol (X u d NIGHT_AFTER) = 1 ->
  (exists p, d = S p /\ sol (X u p NIGHT) = 1)
  \/ exists previous locked,
       In (night_after_predecessor_conflict (id (member_at data u)) (day_at data d)
             previous locked) conflicts.

(** The existing_assignment_conflict records of one member and date. *)
Definition existing_conflict_for (member_id : Z) (on : isodate) (k : conflict) : bool :=
  match k with
  | existing_assignment_conflict member_id' on' _ =>
      Z.eqb member_id' member_id && Z.eqb on' on
  | _ => false
  end.

(** The entries of [existing_assignments] for one member and date. *)
Definition entry_for (member_id : Z) (on : isodate) (assignment : Existing) : bool :=
  Z.eqb (user_id assignment) member_id && Z.eqb (date assignment) on.

(** A summary that carries only the status label, next to an empty schedule. *)
Definition status_only (output : Output) (status : solver_status) : Prop :=
  assignments output = []
  /\ status_label (summary output) = status_map status
  /\ shortages (summary output) = []
  /\ day_capacity_shortfalls (summary output) = []
  /\ constraint_conflicts (summary output) = [].

(** ** Reading a solution *)

Section SolutionReading.

Variable data : Request.
Variable sol : valuation.

(** The number of members whose indicator for code [s] on day [d] solved to 1. *)
Definition assigned_count (d : nat) (s : shift) : Z :=
  count_if (fun u => sol (X u d s) =? 1) (range (num_members data)).

(** [int(solver.Value(var))] for the shortage variable of [(d, s)], the amount
    the formatter reports when it is positive; 0 when there is no variable. *)
Definition recorded_shortage (d : nat) (s : shift) : Z :=
  match dict_get day_code_eqb (shortage_vars data) (d, s) with
  | Some v => sol v
  | None => 0
  end.

End SolutionReading.

(** The number of pinned assignments of code [s] on day [d]. *)
Definition pinned_count (data : Request) (d : nat) (s : shift) : Z :=
  count_if (fun u => pinned_is data u d s) (range (num_members data)).

(** The invariant of the loop over existing assignments that ties
    [fixed_requirements] to [pinned_assignments]. *)
Definition holds_code (held : option shift) (s : shift) : bool :=
  match held with
  | Some c => shift_eqb c s
  | None => false
  end.

Definition counts_agree (data : Request) (st : pin_state) : Prop :=
  forall d s,
    is_work s = true ->
    match dict_get day_code_eqb (fixed_requirements st) (d, s) with
    | Some n => n
    | None => 0
    end
    = count_if (fun u => holds_code (dict_get pair_eqb (pinned_assignments st) (u, d)) s)
               (range (num_members data)).

(** ** Reading the objective *)

Section ObjectiveReading.

Variable data : Request.
Variable sol : valuation.

Definition total_shortage : Z :=
  zsum (map (fun entry => sol (snd entry)) (shortage_vars data)).

Definition total_day_shortfall : Z :=
  zsum (map (fun d => eval sol (day_shortfall_vars data d)) (range (num_days data))).

Definition total_off_shortfall : Z :=
  zsum (map (fun u => eval sol (off_slack_vars data u)) (range (num_members data))).

(** A member's work-day count and off-day count in the solution. *)
Definition off_day_count (u : nat) : Z := eval sol (off_count_expr data u).
Definition work_day_count (u : nat) : Z := Z.of_nat (num_days data) - off_day_count u.

Definition total_work_deviation : Z :=
  zsum (map (fun u => Z.abs (work_day_count u - target_work data))
            (range (num_members data))).

Definition total_off_deviation : Z :=
  zsum (map (fun u => Z.abs (off_day_count u - target_off data))
            (range (num_members data))).

End ObjectiveReading.

(** ** Sample requests and valuations *)

Definition var_eqb (a b : var) : bool :=
  match a, b with
  | X u d s, X u' d' s' => Nat.eqb u u' && Nat.eqb d d' && shift_eqb s s'
  | Shortage d s, Shortage d' s' => Nat.eqb d d' && shift_eqb s s'
  | WorkFlag u d, WorkFlag u' d' => Nat.eqb u u' && Nat.eqb d d'
  | OffSlack u, OffSlack u' | WorkCount u, WorkCount u'
  | WorkDiff u, WorkDiff u' | AbsWorkDiff u, AbsWorkDiff u'
  | OffDiff u, OffDiff u' | AbsOffDiff u, AbsOffDiff u' => Nat.eqb u u'
  | _, _ => false
  end.

(** The valuation that gives the listed variables their values and every
    other variable 0. *)
Definition valuation_of (values : list (var * Z)) : valuation :=
  fun v => match dict_get var_eqb values v with Some z => z | None => 0 end.

Definition plain_constraints : Constraints :=
  {| max_nights_per_member := 7;
     min_off_days := RNone; min_off_days_full_time := RNone;
     min_off_days_part_time := RNone; min_off_days_contract := RNone;
     holiday_dates := []; generation_end_date := None;
     desired_day_headcount_raw := RNone; max_consecutive_workdays_raw := RNone;
     enforce_night_after_rest := true; forbid_late_to_early := true;
     limit_fulltime_repeat := true; balance_workload := true |}.

Definition full_timer (member_id : Z) : Member :=
  {| id := member_id; employment_type := "full_time"; can_night_shift := true;
     allowed_shift_codes := None; schedule_preferences := None |}.

Definition no_coverage : shift -> Z := fun _ => 0.

(** 2025-09-01 and the days after it, as ordinals. *)
Definition sep01 : isodate := 739495.
Definition sep02 : isodate := 739496.
Definition sep03 : isodate := 739497.

(** One member, two days, NIGHT_AFTER pinned on the first day of the horizon. *)
Definition request_night_after_first_day : Request :=
  {| members := [full_timer 10];
     days := [sep01; sep02];
     coverage_requirements := no_coverage;
     coverage_day_desired := RNone;
     constraints_of := plain_constraints;
     existing_assignments :=
       [{| user_id := 10; date := sep01; shift_code := "NIGHT_AFTER" |}] |}.

Definition answer_night_after_first_day : valuation :=
  valuation_of
    [(X 0 0 NIGHT_AFTER, 1); (X 0 1 OFF, 1);
     (WorkCount 0, 1); (WorkDiff 0, 1); (AbsWorkDiff 0, 1);
     (OffDiff 0, -1); (AbsOffDiff 0, 1)].

(** One member, three days, NIGHT then NIGHT_AFTER then OFF. *)
Definition request_night_cycle : Request :=
  {| members := [full_timer 10];
     days := [sep01; sep02; sep03];
     coverage_requirements := fun s => match s with NIGHT => 1 | _ => 0 end;
     coverage_day_desired := RNone;
     constraints_of := plain_constraints;
     existing_assignments := [] |}.

Definition answer_night_cycle : valuation :=
  valuation_of
    [(X 0 0 NIGHT, 1); (X 0 1 NIGHT_AFTER, 1); (X 0 2 OFF, 1);
     (Shortage 1 NIGHT, 1); (Shortage 2 NIGHT, 1);
     (WorkCount 0, 2); (WorkDiff 0, -1); (AbsWorkDiff 0, 1);
     (OffDiff 0, 1); (AbsOffDiff 0, 1)].

Definition day_member (member_id : Z) : Member :=
  {| id := member_id; employment_type := "full_time"; can_night_shift := false;
     allowed_shift_codes := None; schedule_preferences := None |}.

(** Scenario B on a one-day horizon: a member without night eligibility whose
    NIGHT on that day is pinned. *)
Definition request_pinned_night_ineligible : Request :=
  {| members := [day_member 10];
     days := [sep01];
     coverage_requirements := no_coverage;
     coverage_day_desired := RNone;
     constraints_of := plain_constraints;
     existing_assignments :=
       [{| user_id := 10; date := sep01; shift_code := "NIGHT" |}] |}.

Definition answer_pinned_night_ineligible : valuation :=
  valuation_of [(X 0 0 NIGHT, 1); (WorkCount 0, 1)].

(** The same member with the pinned NIGHT on the first of two days. *)
Definition request_pinned_night_then_free : Request :=
  {| members := [day_member 10];
     days := [sep01; sep02];
     coverage_requirements := no_coverage;
     coverage_day_desired := RNone;
     constraints_of := plain_constraints;
     existing_assignments :=
       [{| user_id := 10; date := sep01; shift_code := "NIGHT" |}] |}.

(** The same member with a pinned NIGHT_AFTER. *)
Definition request_pinned_night_after_ineligible : Request :=
  {| members := [day_member 10];
     days := [sep01];
     coverage_requirements := no_coverage;
     coverage_day_desired := RNone;
     constraints_of := plain_constraints;
     existing_assignments :=
       [{| user_id := 10; date := sep01; shift_code := "NIGHT_AFTER" |}] |}.

(** An engine that gives up: it answers infeasible whatever the model. *)
Definition gives_up : cp_model -> solver_status * valuation :=
  fun _ => (INFEASIBLE, fun _ => 0).

(** An engine that answers optimal with a prepared valuation. *)
Definition answers (sol : valuation) : cp_model -> solver_status * valuation :=
  fun _ => (OPTIMAL, sol).

Definition part_timer (member_id : Z) : Member :=
  {| id := member_id; employment_type := "part_time"; can_night_shift := true;
     allowed_shift_codes := None; schedule_preferences := None |}.

(** A part-time member on a one-day horizon, no minimum days off configured. *)
Definition request_short_horizon_part_time : Request :=
  {| members := [part_timer 10];
     days := [sep01];
     coverage_requirements := no_coverage;
     coverage_day_desired := RNone;
     constraints_of := plain_constraints;
     existing_assignments := [] |}.

(** A member whose allow-list is [["DAY"]], with a pinned OFF. *)
Definition day_only (member_id : Z) : Member :=
  {| id := member_id; employment_type := "full_time"; can_night_shift := true;
     allowed_shift_codes := Some [DAY]; schedule_preferences := None |}.

Definition request_pinned_off_outside_allow_list : Request :=
  {| members := [day_only 10];
     days := [sep01];
     coverage_requirements := no_coverage;
     coverage_day_desired := RNone;
     constraints_of := plain_constraints;
     existing_assignments :=
       [{| user_id := 10; date := sep01; shift_code := "OFF" |}] |}.

Definition answer_pinned_off_outside_allow_list : valuation :=
  valuation_of [(X 0 0 OFF, 1)].

(** max_consecutive_workdays = 1 and DAY pinned on two consecutive days. *)
Definition capped_constraints (cap : Z) : Constraints :=
  {| max_nights_per_member := 7;
     min_off_days := RNone; min_off_days_full_time := RNone;
     min_off_days_part_time := RNone; min_off_days_contract := RNone;
     holiday_dates := []; generation_end_date := None;
     desired_day_headcount_raw := RNone; max_consecutive_workdays_raw := RInt cap;
     enforce_night_after_rest := true; forbid_late_to_early := true;
     limit_fulltime_repeat := true; balance_workload := true |}.

Definition request_pinned_run_over_cap : Request :=
  {| members := [full_timer 10];
     days := [sep01; sep02];
     coverage_requirements := no_coverage;
     coverage_day_desired := RNone;
     constraints_of := capped_constraints 1;
     existing_assignments :=
       [{| user_id := 10; date := sep01; shift_code := "DAY" |};
        {| user_id := 10; date := sep02; shift_code := "DAY" |}] |}.

(** Scenario D: two entries for the same member and date, OFF then DAY. *)
Definition entry_off : Existing := {| user_id := 10; date := sep01; shift_code := "OFF" |}.
Definition entry_day : Existing := {| user_id := 10; date := sep01; shift_code := "day" |}.

Definition request_double_pin : Request :=
  {| members := [full_timer 10];
     days := [sep01; sep02];
     coverage_requirements := no_coverage;
     coverage_day_desired := RNone;
     constraints_of := plain_constraints;
     existing_assignments := [entry_off; entry_day] |}.

Definition answer_double_pin : valuation :=
  valuation_of
    [(X 0 0 OFF, 1); (X 0 1 OFF, 1); (OffDiff 0, 0); (WorkDiff 0, 0)].

(** Scenario A: one member, one day, coverage [{day: 1}]. *)
Definition request_single_day : Request :=
  {| members := [full_timer 10];
     days := [sep01];
     coverage_requirements := fun s => match s with DAY => 1 | _ => 0 end;
     coverage_day_desired := RNone;
     constraints_of := plain_constraints;
     existing_assignments := [] |}.

Definition answer_single_day : valuation :=
  valuation_of [(X 0 0 DAY, 1); (WorkCount 0, 1)].

(** Two members over three days, the last two past the generation cutoff:
    member 10 works the NIGHT of the first day and rests on the carry-over
    days, member 11 is off and then unassigned. *)
Definition cutoff_constraints : Constraints :=
  {| max_nights_per_member := 7;
     min_off_days := RNone; min_off_days_full_time := RNone;
     min_off_days_part_time := RNone; min_off_days_contract := RNone;
     holiday_dates := []; generation_end_date := Some sep01;
     desired_day_headcount_raw := RNone; max_consecutive_workdays_raw := RNone;
     enforce_night_after_rest := true; forbid_late_to_early := true;
     limit_fulltime_repeat := true; balance_workload := true |}.

Definition request_carry_over : Request :=
  {| members := [full_timer 10; full_timer 11];
     days := [sep01; sep02; sep03];
     coverage_requirements := fun s => match s with NIGHT => 1 | _ => 0 end;
     coverage_day_desired := RNone;
     constraints_of := cutoff_constraints;
     existing_assignments := [] |}.

Definition answer_carry_over : valuation :=
  valuation_of
    [(X 0 0 NIGHT, 1); (X 0 1 NIGHT_AFTER, 1); (X 0 2 OFF, 1);
     (X 1 0 OFF, 1); (X 1 1 OFF, 1);
     (WorkCount 0, 2); (WorkDiff 0, 2); (AbsWorkDiff 0, 2);
     (OffDiff 0, -1); (AbsOffDiff 0, 1);
     (WorkCount 1, 1); (WorkDiff 1, 1); (AbsWorkDiff 1, 1);
     (OffDiff 1, 0); (AbsOffDiff 1, 0)].

(** ** Further readings of the request and of a solution *)

(** The code with which one entry of [existing_assignments] pins member [u]
    on day [d]: the entry has to name that member and that day and carry a
    valid code. *)
Definition pins (data : Request) (u d : nat) (assignment : Existing) : option shift :=
  match dict_get Z.eqb (member_index data) (user_id assignment),
        dict_get Z.eqb (day_index data) (date assignment) with
  | Some u', Some d' =>
      if Nat.eqb u' u && Nat.eqb d' d
      then shift_of_string (upper (shift_code assignment))
      else None
  | _, _ => None
  end.

(** The first entry of a list that pins member [u] on day [d]. *)
Fixpoint first_pin (data : Request) (u d : nat) (l : list Existing) : option shift :=
  match l with
  | [] => None
  | assignment :: rest =>
      match pins data u d assignment with
      | Some code => Some code
      | None => first_pin data u d rest
      end
  end.

(** 1 when member [u] holds a work code on day [d], 0 otherwise. *)
Definition works (sol : valuation) (u d : nat) : Z :=
  sol (X u d EARLY) + sol (X u d DAY) + sol (X u d LATE) + sol (X u d NIGHT).

(** The [member_id] field of a conflict record. *)
Definition conflict_member (k : conflict) : Z :=
  match k with
  | allowed_shift_conflict member_id _ _
  | existing_assignment_conflict member_id _ _
  | fixed_day_off_conflict member_id _ _
  | max_consecutive_workdays_conflict member_id _ _ _
  | night_after_predecessor_conflict member_id _ _ _
  | night_follow_up_conflict member_id _ _ _
  | night_rest_conflict member_id _ _ _
  | night_eligibility_conflict member_id _
  | late_to_early_conflict member_id _ _
  | repeat_limit_conflict member_id _ _
  | night_quota_conflict member_id _ _
  | off_requirement_shortfall member_id _ _ => member_id
  end.

Definition slot_users (s : slot) : list Z :=
  match s with
  | One user => [user]
  | Many users => users
  end.

(** A member who is off every Monday, on a Monday and a Tuesday. *)
Definition monday_off (member_id : Z) : Member :=
  {| id := member_id; employment_type := "full_time"; can_night_shift := true;
     allowed_shift_codes := None;
     schedule_preferences :=
       Some {| fixed_days_off := fun w => weekday_eqb w monday;
               fixed_holiday_off := false;
               custom_dates_off := [] |} |}.

Definition request_monday_off : Request :=
  {| members := [monday_off 10];
     days := [sep01; sep02];
     coverage_requirements := fun s => match s with DAY => 1 | _ => 0 end;
     coverage_day_desired := RNone;
     constraints_of := plain_constraints;
     existing_assignments := [] |}.

Definition answer_monday_off : valuation :=
  valuation_of
    [(X 0 0 OFF, 1); (X 0 1 DAY, 1); (Shortage 0 DAY, 1);
     (WorkCount 0, 1); (WorkDiff 0, -1); (AbsWorkDiff 0, 1);
     (OffDiff 0, 1); (AbsOffDiff 0, 1)].

(** One member, two days, DAY wanted on both, and at most one workday in a row. *)
Definition request_capped : Request :=
  {| members := [full_timer 10];
     days := [sep01; sep02];
     coverage_requirements := fun s => match s with DAY => 1 | _ => 0 end;
     coverage_day_desired := RNone;
     constraints_of := capped_constraints 1;
     existing_assignments := [] |}.

Definition answer_capped : valuation :=
  valuation_of
    [(X 0 0 DAY, 1); (X 0 1 OFF, 1); (Shortage 1 DAY, 1);
     (WorkFlag 0 0, 1); (WorkFlag 0 1, 0);
     (WorkCount 0, 1); (WorkDiff 0, -1); (AbsWorkDiff 0, 1);
     (OffDiff 0, 1); (AbsOffDiff 0, 1)].

(** The same request without the cap and with two days off asked for
    full-time members. *)
Definition min_off_constraints (days_off : Z) : Constraints :=
  {| max_nights_per_member := 7;
     min_off_days := RNone; min_off_days_full_time := RInt days_off;
     min_off_days_part_time := RNone; min_off_days_contract := RNone;
     holiday_dates := []; generation_end_date := None;
     desired_day_headcount_raw := RNone; max_consecutive_workdays_raw := RNone;
     enforce_night_after_rest := true; forbid_late_to_early := true;
     limit_fulltime_repeat := true; balance_workload := true |}.

Definition request_min_off : Request :=
  {| members := [full_timer 10];
     days := [sep01; sep02];
     coverage_requirements := fun s => match s with DAY => 1 | _ => 0 end;
     coverage_day_desired := RNone;
     constraints_of := min_off_constraints 2;
     existing_assignments := [] |}.

Definition answer_min_off : valuation :=
  valuation_of
    [(X 0 0 DAY, 1); (X 0 1 OFF, 1); (Shortage 1 DAY, 1); (OffSlack 0, 1);
     (WorkCount 0, 1); (WorkDiff 0, -1); (AbsWorkDiff 0, 1);
     (OffDiff 0, 1); (AbsOffDiff 0, 1)].

(** ** More of the input normalizer *)

(** An element of the JSON list given as allowed_shift_codes: a string or
    anything else. *)
Inductive item := IStr (s : string) | INotStr.

(** [str.isspace] on ASCII characters: 9 to 13, 28 to 31 and the space. *)
Definition is_space (c : ascii) : bool :=
  let n := nat_of_ascii c in
  (Nat.leb 9 n && Nat.leb n 13) || (Nat.leb 28 n && Nat.leb n 31) || Nat.eqb n 32.

Fixpoint lstrip (s : string) : string :=
  match s with
  | EmptyString => EmptyString
  | String c rest => if is_space c then lstrip rest else s
  end.

Fixpoint rstrip (s : string) : string :=
  match s with
  | EmptyString => EmptyString
  | String c rest =>
      match rstrip rest with
      | EmptyString => if is_space c then EmptyString else String c EmptyString
      | kept => String c kept
      end
  end.

(** [s.strip()] *)
Definition strip (s : string) : string := rstrip (lstrip s).

(** The loop of [normalize_allowed_codes] over the items, with the list
    [normalized] built so far. *)
Fixpoint normalize_items (items : list item) (normalized : list shift) : list shift :=
  match items with
  | [] => normalized
  | INotStr :: rest => normalize_items rest normalized
  | IStr s :: rest =>
      match shift_of_string (upper (strip s)) with
      | Some code =>
          if mem_shift code normalized then normalize_items rest normalized
          else normalize_items rest (normalized ++ [code])
      | None => normalize_items rest normalized
      end
  end.

(** [normalize_allowed_codes]: [None] stands for a raw value that is [None]
    or not a list. *)
Definition normalize_allowed_codes (raw : option (list item)) : option (list shift) :=
  match raw with
  | None => None
  | Some items => Some (normalize_items items [])
  end.

(** A JSON value as [to_bool] sees it: null, a boolean, a string, or any
    other value, of which only the truthiness matters. *)
Inductive json := JNull | JBool (b : bool) | JString (s : string) | JOther (truthy : bool).

Definition lower_ascii (c : ascii) : ascii :=
  let n := nat_of_ascii c in
  if (Nat.leb 65 n && Nat.leb n 90)%bool then ascii_of_nat (n + 32) else c.

Fixpoint lower (s : string) : string :=
  match s with
  | EmptyString => EmptyString
  | String c rest => String (lower_ascii c) (lower rest)
  end.

Definition in_strings (s : string) (l : list string) : bool := existsb (String.eqb s) l.

Definition to_bool (value : json) (default : bool) : bool :=
  match value with
  | JNull => default
  | JBool b => b
  | JString s =>
      let lowered := lower s in
      if in_strings lowered ["1"; "true"; "yes"]%string then true
      else if in_strings lowered ["0"; "false"; "no"]%string then false
      else match s with EmptyString => false | _ => true end
  | JOther truthy => truthy
  end.

(** [parse_input] after [json.load]: the left case is the text of a
    JSONDecodeError, the right case the decoded JSON object with its keys. *)
Definition required_keys : list string :=
  ["unit"; "month"; "days"; "members"; "coverage_requirements"]%string.

Inductive parse_result (V : Type) :=
| Parsed (payload : list (string * V))
| Exit (error : string).

Arguments Parsed {V} payload.
Arguments Exit {V} error.

Definition has_key {V : Type} (payload : list (string * V)) (key : string) : bool :=
  existsb (fun entry => String.eqb key (fst entry)) payload.

Definition parse_input {V : Type} (loaded : string + list (string * V)) : parse_result V :=
  match loaded with
  | inl exc => Exit ("Invalid JSON input: " ++ exc)
  | inr payload =>
      match find (fun key => negb (has_key payload key)) required_keys with
      | Some key => Exit ("Missing key: " ++ key)
      | None => Parsed payload
      end
  end.

(** A three-day request with the general min_off_days set to 5. *)
Definition general_min_off_constraints : Constraints :=
  {| max_nights_per_member := 7;
     min_off_days := RInt 5; min_off_days_full_time := RNone;
     min_off_days_part_time := RNone; min_off_days_contract := RNone;
     holiday_dates := []; generation_end_date := None;
     desired_day_headcount_raw := RNone; max_consecutive_workdays_raw := RNone;
     enforce_night_after_rest := true; forbid_late_to_early := true;
     limit_fulltime_repeat := true; balance_workload := true |}.

Definition request_general_min_off : Request :=
  {| members := [part_timer 10];
     days := [sep01; sep02; sep03];
     coverage_requirements := no_coverage;
     coverage_day_desired := RNone;
     constraints_of := general_min_off_constraints;
     existing_assignments := [] |}.

(** ** The raised DAY requirement, read from the request *)

(** What the work codes other than DAY require on day [d]: for each the
    larger of its base target and its pinned count. *)
Definition other_codes_required (data : Request) (d : nat) : Z :=
  Z.max (required_per_shift data EARLY) (pinned_count data d EARLY)
  + Z.max (required_per_shift data LATE) (pinned_count data d LATE)
  + Z.max (required_per_shift data NIGHT) (pinned_count data d NIGHT).

(** The members who can still be put on DAY on day [d]: nothing is pinned
    for them that day and their allow-list is absent or names DAY. *)
Definition free_for_day (data : Request) (d : nat) : Z :=
  count_if (fun u =>
              match pinned data u d with
              | Some _ => false
              | None =>
                  match allowed_shift_codes (member_at data u) with
                  | None => true
                  | Some codes => mem_shift DAY codes
                  end
              end)
           (range (num_members data)).

(** Two members, one day, one DAY required and two desired. *)
Definition desired_constraints (headcount : Z) : Constraints :=
  {| max_nights_per_member := 7;
     min_off_days := RNone; min_off_days_full_time := RNone;
     min_off_days_part_time := RNone; min_off_days_contract := RNone;
     holiday_dates := []; generation_end_date := None;
     desired_day_headcount_raw := RInt headcount; max_consecutive_workdays_raw := RNone;
     enforce_night_after_rest := true; forbid_late_to_early := true;
     limit_fulltime_repeat := true; balance_workload := true |}.

Definition request_desired_headcount : Request :=
  {| members := [full_timer 10; full_timer 11];
     days := [sep01];
     coverage_requirements := fun s => match s with DAY => 1 | _ => 0 end;
     coverage_day_desired := RNone;
     constraints_of := desired_constraints 2;
     existing_assignments := [] |}.

(** Member 10 on DAY, member 11 off: one DAY short of the raised requirement. *)
Definition answer_desired_headcount : valuation :=
  valuation_of
    [(X 0 0 DAY, 1); (X 1 0 OFF, 1); (Shortage 0 DAY, 1);
     (WorkCount 0, 1); (WorkDiff 0, 0); (AbsWorkDiff 0, 0);
     (OffDiff 0, 0); (AbsOffDiff 0, 0);
     (WorkCount 1, 0); (WorkDiff 1, -1); (AbsWorkDiff 1, 1);
     (OffDiff 1, 1); (AbsOffDiff 1, 1)].

(** ** The cost of one unit in the objective *)







(** ** Theorems on the normalizer *)

Lemma decided_by_functional :
  forall table s e c1 c2,
    decided_by table s e c1 -> decided_by table s e c2 -> c1 = c2.
Proof.
  intros table s e c1 c2 H1; revert c2.
  induction H1; intros c2 H2; inversion H2; subst; auto; contradiction.
Qed.

Lemma by_times_decided :
  forall s e, decided_by precedence_table s e (by_times s e).
Proof.
  intros s e. unfold by_times, precedence_table.
  destruct (e <? s) eqn:H1.
  { apply decided_here. lia. }
  apply decided_later; [lia|].
  destruct (20 * 60 <=? e) eqn:H2.
  { apply decided_here. lia. }
  apply decided_later; [lia|].
  destruct ((7 * 60 <=? s) && (s <=? 7 * 60 + 30)) eqn:H3.
  { apply decided_here. apply andb_true_iff in H3. lia. }
  apply decided_later; [apply andb_false_iff in H3; lia|].
  destruct ((8 * 60 <=? s) && (e <=? 18 * 60)) eqn:H4.
  { apply decided_here. apply andb_true_iff in H4. lia. }
  apply decided_later; [apply andb_false_iff in H4; lia|].
  destruct (15 * 60 <=? s) eqn:H5.
  { apply decided_here. lia. }
  apply decided_later; [lia|].
  destruct ((6 * 60 <=? s) && (s <? 8 * 60)) eqn:H6.
  { apply decided_here. apply andb_true_iff in H6. lia. }
  apply decided_later; [apply andb_false_iff in H6; lia|].
  destruct (18 * 60 <=? e) eqn:H7.
  { apply decided_here. lia. }
  apply decided_later; [lia|].
  apply decided_default.
Qed.

Lemma infer_without_code :
  forall py_int shift_code start_at end_at,
    usable_code shift_code = false ->
    infer_shift_category py_int shift_code start_at end_at
    = infer_from_times py_int start_at end_at.
Proof.
  intros py_int shift_code start_at end_at H.
  unfold infer_shift_category, usable_code in *.
  destruct shift_code as [[|c rest]|]; auto.
  destruct (direct_map (String c rest)); [discriminate | reflexivity].
Qed.

(** C7. Without a usable explicit code, and for times that both read as
    minutes, [infer_shift_category] returns exactly the category the
    precedence table of the specification decides: end before start NIGHT,
    end at or after 20:00 LATE, start in [7:00, 7:30] EARLY, start at or after
    8:00 with end at or before 18:00 DAY, start at or after 15:00 NIGHT, start
    in [6:00, 8:00) EARLY, end at or after 18:00 LATE, otherwise DAY. *)
Theorem infer_shift_category_precedence :
  forall py_int shift_code start_at end_at start_minutes end_minutes,
    usable_code shift_code = false ->
    to_minutes py_int start_at = Some start_minutes ->
    to_minutes py_int end_at = Some end_minutes ->
    exists c,
      infer_shift_category py_int shift_code start_at end_at = Some c /\
      decided_by precedence_table start_minutes end_minutes c /\
      forall c', decided_by precedence_table start_minutes end_minutes c' -> c' = c.
Proof.
  intros py_int shift_code start_at end_at sm em Hcode Hs He.
  exists (by_times sm em). split; [|split].
  - rewrite infer_without_code by assumption.
    unfold infer_from_times. rewrite Hs, He. reflexivity.
  - apply by_times_decided.
  - intros c' Hc'. eapply decided_by_functional; [exact Hc' | apply by_times_decided].
Qed.

Lemma infer_shift_category_precedence_witness :
  exists c,
    infer_shift_category decimal_int None (Some "16:30"%string) (Some "09:00"%string)
    = Some c /\
    decided_by precedence_table 990 540 c /\
    forall c', decided_by precedence_table 990 540 c' -> c' = c.
Proof.
  apply (infer_shift_category_precedence decimal_int None
           (Some "16:30"%string) (Some "09:00"%string) 990 540);
    reflexivity.
Defined.

(** ** Lists, dictionaries and emitted rules *)

Lemma in_range : forall n i, In i (range n) <-> (i < n)%nat.
Proof. intros n i. unfold range. rewrite in_seq. lia. Qed.

Lemma in_range_from : forall a b i, In i (range_from a b) <-> (a <= i < b)%nat.
Proof. intros a b i. unfold range_from. rewrite in_seq. lia. Qed.

Lemma shift_eqb_eq : forall a b, shift_eqb a b = true <-> a = b.
Proof. intros a b; destruct a, b; simpl; split; intro H; try reflexivity; discriminate. Qed.

Lemma shift_eqb_refl : forall a, shift_eqb a a = true.
Proof. destruct a; reflexivity. Qed.

Lemma shift_eqb_neq : forall a b, shift_eqb a b = false <-> a <> b.
Proof.
  intros a b. split.
  - intros H E. apply shift_eqb_eq in E. congruence.
  - intros H. destruct (shift_eqb a b) eqn:E; [apply shift_eqb_eq in E; contradiction | reflexivity].
Qed.

Lemma fst_andthen : forall a b, fst (andthen a b) = fst a ++ fst b.
Proof. reflexivity. Qed.

Lemma snd_andthen : forall a b, snd (andthen a b) = snd a ++ snd b.
Proof. reflexivity. Qed.

Lemma fst_for_each :
  forall (A : Type) (l : list A) (body : A -> emitted),
    fst (for_each l body) = flat_map (fun a => fst (body a)) l.
Proof.
  intros A l body. induction l as [|a l IH]; simpl; [reflexivity|].
  rewrite IH. reflexivity.
Qed.

Lemma snd_for_each :
  forall (A : Type) (l : list A) (body : A -> emitted),
    snd (for_each l body) = flat_map (fun a => snd (body a)) l.
Proof.
  intros A l body. induction l as [|a l IH]; simpl; [reflexivity|].
  rewrite IH. reflexivity.
Qed.

Lemma in_fst_for_each :
  forall (A : Type) (l : list A) (body : A -> emitted) c,
    In c (fst (for_each l body)) <-> exists a, In a l /\ In c (fst (body a)).
Proof. intros. rewrite fst_for_each. apply in_flat_map. Qed.

Lemma in_snd_for_each :
  forall (A : Type) (l : list A) (body : A -> emitted) k,
    In k (snd (for_each l body)) <-> exists a, In a l /\ In k (snd (body a)).
Proof. intros. rewrite snd_for_each. apply in_flat_map. Qed.

(** ** Feasible valuations *)

Lemma feasible_holds :
  forall m sol c, feasible m sol -> In c (constraints m) -> holds sol c = true.
Proof.
  intros m sol c H Hin. unfold feasible, feasibleb in H.
  apply andb_true_iff in H. destruct H as [_ H].
  rewrite forallb_forall in H. auto.
Qed.

Lemma feasible_domain :
  forall m sol v lo hi,
    feasible m sol -> In (v, (lo, hi)) (variables m) -> lo <= sol v <= hi.
Proof.
  intros m sol v lo hi H Hin. unfold feasible, feasibleb in H.
  apply andb_true_iff in H. destruct H as [H _].
  rewrite forallb_forall in H. specialize (H _ Hin). simpl in H.
  apply andb_true_iff in H. lia.
Qed.

Lemma x_declared :
  forall data u d s,
    (u < num_members data)%nat -> (d < num_days data)%nat ->
    In (X u d s, (0, 1)) (variables (model data)).
Proof.
  intros data u d s Hu Hd. simpl. apply in_or_app. left.
  unfold x_variables. apply in_flat_map. exists u. split; [apply in_range; exact Hu|].
  apply in_flat_map. exists d. split; [apply in_range; exact Hd|].
  destruct s; simpl; auto 10.
Qed.

Lemma x_is_bool :
  forall data sol u d s,
    solved_by data sol ->
    (u < num_members data)%nat -> (d < num_days data)%nat ->
    sol (X u d s) = 0 \/ sol (X u d s) = 1.
Proof.
  intros data sol u d s H Hu Hd.
  pose proof (feasible_domain _ _ _ _ _ H (x_declared data u d s Hu Hd)). lia.
Qed.

Lemma fst_member_rules :
  forall data u,
    fst (member_rules data u)
    = fst (eligibility_rule data u) ++ fst (fixed_day_off_rule data u)
      ++ fst (consecutive_rule data u) ++ fst (night_after_rule data u)
      ++ fst (night_rest_rule data u) ++ fst (night_eligibility_rule data u)
      ++ fst (late_to_early_rule data u) ++ fst (repeat_rule data u)
      ++ fst (night_quota_rule data u).
Proof. reflexivity. Qed.

Lemma snd_member_rules :
  forall data u,
    snd (member_rules data u)
    = snd (eligibility_rule data u) ++ snd (fixed_day_off_rule data u)
      ++ snd (consecutive_rule data u) ++ snd (night_after_rule data u)
      ++ snd (night_rest_rule data u) ++ snd (night_eligibility_rule data u)
      ++ snd (late_to_early_rule data u) ++ snd (repeat_rule data u)
      ++ snd (night_quota_rule data u).
Proof. reflexivity. Qed.

Lemma member_constraint_in_model :
  forall data u c,
    (u < num_members data)%nat ->
    In c (fst (member_rules data u)) -> In c (constraints (model data)).
Proof.
  intros data u c Hu Hc. simpl. rewrite !in_app_iff. right. right. right. left.
  unfold all_member_rules. apply in_fst_for_each. exists u.
  split; [apply in_range; exact Hu | exact Hc].
Qed.

Lemma member_conflict_recorded :
  forall data u k,
    (u < num_members data)%nat ->
    In k (snd (member_rules data u)) -> In k (conflicts_before_solve data).
Proof.
  intros data u k Hu Hk. unfold conflicts_before_solve. apply in_or_app. right.
  unfold all_member_rules. apply in_snd_for_each. exists u.
  split; [apply in_range; exact Hu | exact Hk].
Qed.

Lemma recorded_in_solved_output :
  forall data sol status k,
    In k (conflicts_before_solve data) ->
    In k (constraint_conflicts (summary (solved_output data sol status))).
Proof. intros. simpl. apply in_or_app. left. assumption. Qed.

(** ** NIGHT_AFTER and its predecessor *)

Lemma night_after_rule_at :
  forall data u d,
    (1 <= d < num_days data)%nat ->
    In (CLe (EVar (X u d NIGHT_AFTER)) (EVar (X u (d - 1) NIGHT)))
       (fst (night_after_rule data u))
    \/ exists locked,
         In (night_after_predecessor_conflict (id (member_at data u))
               (day_at data d) (day_at data (d - 1)) locked)
            (snd (night_after_rule data u)).
Proof.
  intros data u d Hd. unfold night_after_rule.
  set (body := fun d0 : nat => _).
  assert (Hin : In d (range_from 1 (num_days data))) by (apply in_range_from; lia).
  assert (Hcase :
            body d = add (CLe (EVar (X u d NIGHT_AFTER)) (EVar (X u (d - 1) NIGHT)))
            \/ exists locked,
                 body d = conflict_of (night_after_predecessor_conflict
                                         (id (member_at data u)) (day_at data d)
                                         (day_at data (d - 1)) locked)).
  { unfold body.
    destruct (pinned data u d) as [[]|]; auto;
      destruct (pinned data u (d - 1)) as [prev|]; auto.
    destruct (negb (shift_eqb prev NIGHT)); eauto. }
  destruct Hcase as [E | [locked E]].
  - left. apply in_fst_for_each. exists d. split; [exact Hin|]. rewrite E. simpl. auto.
  - right. exists locked. apply in_snd_for_each. exists d. split; [exact Hin|].
    rewrite E. simpl. auto.
Qed.

(** C5 (as amended). In every solved output, for every member and every day
    [d] of the horizon after the first, the NIGHT_AFTER indicator on day [d]
    is 1 only if the NIGHT indicator on day [d - 1] is 1, or a
    night_after_predecessor_conflict was recorded for that member and date.
    The first day of the horizon carries no such constraint. *)
Theorem night_after_needs_previous_night :
  forall data sol status u d,
    solved_by data sol ->
    (u < num_members data)%nat ->
    (1 <= d < num_days data)%nat ->
    sol (X u d NIGHT_AFTER) = 1 ->
    sol (X u (d - 1) NIGHT) = 1
    \/ exists locked,
         In (night_after_predecessor_conflict (id (member_at data u))
               (day_at data d) (day_at data (d - 1)) locked)
            (constraint_conflicts (summary (solved_output data sol status))).
Proof.
  intros data sol status u d Hsol Hu Hd Hna.
  destruct (night_after_rule_at data u d Hd) as [Hc | [locked Hk]].
  - left.
    assert (Hin : In (CLe (EVar (X u d NIGHT_AFTER)) (EVar (X u (d - 1) NIGHT)))
                     (constraints (model data))).
    { apply (member_constraint_in_model data u); [exact Hu|].
      rewrite fst_member_rules, !in_app_iff. tauto. }
    pose proof (feasible_holds _ _ _ Hsol Hin) as Hle. simpl in Hle.
    apply Z.leb_le in Hle.
    assert (Hprev : (d - 1 < num_days data)%nat) by lia.
    destruct (x_is_bool data sol u (d - 1) NIGHT Hsol Hu Hprev); lia.
  - right. exists locked. apply recorded_in_solved_output.
    apply (member_conflict_recorded data u); [exact Hu|].
    rewrite snd_member_rules, !in_app_iff. tauto.
Qed.

Lemma night_after_needs_previous_night_witness :
  answer_night_cycle (X 0 (1 - 1) NIGHT) = 1
  \/ exists locked,
       In (night_after_predecessor_conflict (id (member_at request_night_cycle 0))
             (day_at request_night_cycle 1) (day_at request_night_cycle (1 - 1)) locked)
          (constraint_conflicts
             (summary (solved_output request_night_cycle answer_night_cycle OPTIMAL))).
Proof.
  apply (night_after_needs_previous_night request_night_cycle answer_night_cycle
           OPTIMAL 0%nat 1%nat).
  - vm_compute. reflexivity.
  - vm_compute. lia.
  - vm_compute. lia.
  - reflexivity.
Defined.

(** C5 as stated fails on the first day: with NIGHT_AFTER pinned on the first
    day of the horizon the answer below is a solved output, the member is on
    NIGHT_AFTER that day, there is no earlier day, and no conflict is recorded. *)
Lemma night_after_first_day_unbacked :
  solved_by request_night_after_first_day answer_night_after_first_day
  /\ (0 < num_members request_night_after_first_day)%nat
  /\ (0 < num_days request_night_after_first_day)%nat
  /\ ~ night_after_backed request_night_after_first_day answer_night_after_first_day
         (constraint_conflicts
            (summary (solved_output request_night_after_first_day
                        answer_night_after_first_day OPTIMAL)))
         0 0.
Proof.
  split; [vm_compute; reflexivity|].
  split; [vm_compute; lia|].
  split; [vm_compute; lia|].
  intros H. destruct (H eq_refl) as [[p [Hp _]] | [previous [locked Hin]]].
  - discriminate.
  - vm_compute in Hin. exact Hin.
Qed.

(** ** Pinned assignments are enforced *)

Lemma pair_eqb_eq : forall a b, pair_eqb a b = true <-> a = b.
Proof.
  intros [a1 a2] [b1 b2]. unfold pair_eqb. simpl.
  rewrite andb_true_iff, !Nat.eqb_eq. split.
  - intros [-> ->]. reflexivity.
  - intros E. inversion E. auto.
Qed.

Lemma dict_get_in :
  forall (K V : Type) (keqb : K -> K -> bool) (m : list (K * V)) k v,
    dict_get keqb m k = Some v -> exists k', keqb k k' = true /\ In (k', v) m.
Proof.
  intros K V keqb m k v. induction m as [|[k' v'] m IH]; simpl; [discriminate|].
  destruct (keqb k k') eqn:E.
  - intros H. inversion H; subst. exists k'. auto.
  - intros H. destruct (IH H) as [k'' [H1 H2]]. exists k''. auto.
Qed.

Lemma pinned_in_list :
  forall data u d s,
    pinned data u d = Some s -> In ((u, d), s) (pinned_assignments (pin_existing data)).
Proof.
  intros data u d s H. unfold pinned in H.
  apply dict_get_in in H. destruct H as [k' [E Hin]].
  apply pair_eqb_eq in E. subst k'. exact Hin.
Qed.

Lemma pinned_equality_in_model :
  forall data u d s,
    pinned data u d = Some s ->
    In (CEq (EVar (X u d s)) (EConst 1)) (constraints (model data)).
Proof.
  intros data u d s H. simpl. rewrite !in_app_iff. right. right. left.
  unfold pinned_equalities. apply in_map_iff.
  exists ((u, d), s). split; [reflexivity | apply pinned_in_list; exact H].
Qed.

Lemma pinned_enforced :
  forall data sol u d s,
    solved_by data sol -> pinned data u d = Some s -> sol (X u d s) = 1.
Proof.
  intros data sol u d s Hsol H.
  pose proof (feasible_holds _ _ _ Hsol (pinned_equality_in_model data u d s H)) as E.
  simpl in E. apply Z.eqb_eq in E. exact E.
Qed.

Lemma pinned_is_true : forall data u d s, pinned_is data u d s = true <-> pinned data u d = Some s.
Proof.
  intros data u d s. unfold pinned_is. destruct (pinned data u d) as [c|].
  - rewrite shift_eqb_eq. split; [intros ->; reflexivity | intros E; inversion E; reflexivity].
  - split; discriminate.
Qed.

(** ** Night eligibility *)

Lemma night_eligibility_rule_at :
  forall data u d,
    can_night_shift (member_at data u) = false ->
    (d < num_days data)%nat ->
    if pinned_is data u d NIGHT
    then In (night_eligibility_conflict (id (member_at data u)) (day_at data d))
            (snd (night_eligibility_rule data u))
    else In (CEq (EVar (X u d NIGHT)) (EConst 0)) (fst (night_eligibility_rule data u))
         /\ In (CEq (EVar (X u d NIGHT_AFTER)) (EConst 0)) (fst (night_eligibility_rule data u)).
Proof.
  intros data u d Hcan Hd. unfold night_eligibility_rule. rewrite Hcan.
  assert (Hin : In d (range (num_days data))) by (apply in_range; exact Hd).
  destruct (pinned_is data u d NIGHT) eqn:E.
  - apply in_snd_for_each. exists d. split; [exact Hin|]. rewrite E. simpl. auto.
  - split; apply in_fst_for_each; exists d; (split; [exact Hin|]); rewrite E; simpl; auto.
Qed.

Lemma night_eligibility_rule_skips :
  forall data u d s,
    pinned data u d = Some NIGHT ->
    ~ In (CEq (EVar (X u d s)) (EConst 0)) (fst (night_eligibility_rule data u)).
Proof.
  intros data u d s Hpin Hin. unfold night_eligibility_rule in Hin.
  destruct (can_night_shift (member_at data u)); [exact Hin|].
  apply in_fst_for_each in Hin. destruct Hin as [d' [_ Hin]].
  destruct (pinned_is data u d' NIGHT) eqn:E; [exact Hin|].
  assert (d' = d).
  { simpl in Hin. destruct Hin as [H | [H | []]]; inversion H; reflexivity. }
  subst d'. apply pinned_is_true in Hpin. congruence.
Qed.

(** What the rule of lines 624-637 gives in a solved output, for a member
    with can_night_shift=false: the NIGHT and NIGHT_AFTER indicators are 0 on
    every day on which no NIGHT is pinned for that member; on a day with a
    pinned NIGHT a night_eligibility_conflict is recorded for that member and
    date, the rule emits no constraint that forces one of that member's
    indicators to zero on that date, and the member is on NIGHT.  Whether a
    solved output exists at all is the matter of the lemmas that follow. *)
Theorem night_eligibility_enforced_unless_pinned :
  forall data sol status u d,
    solved_by data sol ->
    (u < num_members data)%nat ->
    (d < num_days data)%nat ->
    can_night_shift (member_at data u) = false ->
    (pinned data u d <> Some NIGHT ->
       sol (X u d NIGHT) = 0 /\ sol (X u d NIGHT_AFTER) = 0)
    /\ (pinned data u d = Some NIGHT ->
          In (night_eligibility_conflict (id (member_at data u)) (day_at data d))
             (constraint_conflicts (summary (solved_output data sol status)))
          /\ (forall s, ~ In (CEq (EVar (X u d s)) (EConst 0))
                             (fst (night_eligibility_rule data u)))
          /\ sol (X u d NIGHT) = 1).
Proof.
  intros data sol status u d Hsol Hu Hd Hcan.
  pose proof (night_eligibility_rule_at data u d Hcan Hd) as Hrule.
  split.
  - intros Hnot.
    destruct (pinned_is data u d NIGHT) eqn:E.
    { apply pinned_is_true in E. contradiction. }
    destruct Hrule as [Hn Hna].
    assert (Hlift : forall c, In c (fst (night_eligibility_rule data u)) ->
                              holds sol c = true).
    { intros c Hc. apply (feasible_holds _ _ _ Hsol).
      apply (member_constraint_in_model data u); [exact Hu|].
      rewrite fst_member_rules, !in_app_iff. tauto. }
    apply Hlift in Hn. apply Hlift in Hna. simpl in Hn, Hna.
    apply Z.eqb_eq in Hn. apply Z.eqb_eq in Hna. auto.
  - intros Hpin.
    assert (E : pinned_is data u d NIGHT = true) by (apply pinned_is_true; exact Hpin).
    rewrite E in Hrule.
    split; [|split].
    + apply recorded_in_solved_output.
      apply (member_conflict_recorded data u); [exact Hu|].
      rewrite snd_member_rules, !in_app_iff. tauto.
    + intros s. apply night_eligibility_rule_skips. exact Hpin.
    + apply (pinned_enforced data sol u d NIGHT Hsol Hpin).
Qed.

Ltac listed := vm_compute; repeat (first [left; reflexivity | right]).

Lemma night_eligibility_enforced_unless_pinned_witness :
  (pinned request_pinned_night_ineligible 0 0 <> Some NIGHT ->
     answer_pinned_night_ineligible (X 0 0 NIGHT) = 0
     /\ answer_pinned_night_ineligible (X 0 0 NIGHT_AFTER) = 0)
  /\ (pinned request_pinned_night_ineligible 0 0 = Some NIGHT ->
        In (night_eligibility_conflict (id (member_at request_pinned_night_ineligible 0))
              (day_at request_pinned_night_ineligible 0))
           (constraint_conflicts
              (summary (solved_output request_pinned_night_ineligible
                          answer_pinned_night_ineligible OPTIMAL)))
        /\ (forall s, ~ In (CEq (EVar (X 0 0 s)) (EConst 0))
                           (fst (night_eligibility_rule request_pinned_night_ineligible 0)))
        /\ answer_pinned_night_ineligible (X 0 0 NIGHT) = 1).
Proof.
  apply (night_eligibility_enforced_unless_pinned request_pinned_night_ineligible
           answer_pinned_night_ineligible OPTIMAL 0%nat 0%nat).
  - vm_compute. reflexivity.
  - vm_compute. lia.
  - vm_compute. lia.
  - reflexivity.
Defined.

(** A pinned NIGHT on the only day: the member below has
    can_night_shift=false, the conflict is recorded, the answer is a solved
    output, and the schedule printed for it keeps the pinned NIGHT. *)
Lemma ineligible_member_on_pinned_night :
  solved_by request_pinned_night_ineligible answer_pinned_night_ineligible
  /\ can_night_shift (member_at request_pinned_night_ineligible 0) = false
  /\ answer_pinned_night_ineligible (X 0 0 NIGHT) = 1
  /\ assignments (solved_output request_pinned_night_ineligible
                    answer_pinned_night_ineligible OPTIMAL)
     = [{| entry_date := sep01; shifts := [(NIGHT, One 10)] |}].
Proof. repeat split; vm_compute; reflexivity. Qed.

(** A pinned NIGHT_AFTER of a member without night eligibility is not
    reported, and the rule still forces the indicator to zero, so no valuation
    satisfies the model. *)
Lemma pinned_night_after_ineligible_unsolvable :
  conflicts_before_solve request_pinned_night_after_ineligible = []
  /\ forall sol, feasibleb (model request_pinned_night_after_ineligible) sol = false.
Proof.
  split; [reflexivity|].
  intros sol.
  destruct (feasibleb (model request_pinned_night_after_ineligible) sol) eqn:E;
    [exfalso | reflexivity].
  assert (H1 : holds sol (CEq (EVar (X 0 0 NIGHT_AFTER)) (EConst 1)) = true)
    by (apply (feasible_holds _ _ _ E); listed).
  assert (H0 : holds sol (CEq (EVar (X 0 0 NIGHT_AFTER)) (EConst 0)) = true)
    by (apply (feasible_holds _ _ _ E); listed).
  simpl in H1, H0. apply Z.eqb_eq in H1. apply Z.eqb_eq in H0. lia.
Qed.

(** With the night-rest rule on, a pinned NIGHT before the last day asks for
    NIGHT_AFTER on the next day, which the eligibility rule forces to zero. *)
Lemma pinned_night_before_last_day_unsolvable :
  forall sol, feasibleb (model request_pinned_night_then_free) sol = false.
Proof.
  intros sol.
  destruct (feasibleb (model request_pinned_night_then_free) sol) eqn:E;
    [exfalso | reflexivity].
  assert (H1 : holds sol (CEq (EVar (X 0 0 NIGHT)) (EConst 1)) = true)
    by (apply (feasible_holds _ _ _ E); listed).
  assert (H2 : holds sol (CImplication (X 0 0 NIGHT) (X 0 1 NIGHT_AFTER)) = true)
    by (apply (feasible_holds _ _ _ E); listed).
  assert (H0 : holds sol (CEq (EVar (X 0 1 NIGHT_AFTER)) (EConst 0)) = true)
    by (apply (feasible_holds _ _ _ E); listed).
  simpl in H1, H2, H0. apply Z.eqb_eq in H1. apply Z.eqb_eq in H0.
  rewrite H1, H0 in H2. discriminate.
Qed.

(** The same for every request.  For a member without night eligibility, a
    pinned NIGHT_AFTER on any day, or, with the night-rest rule on, a pinned
    NIGHT followed by a day with nothing pinned, leaves the model without a
    solution: the guard of line 626 tests NIGHT only, and the zero-forcing of
    lines 636-637 on the next day meets the implication of lines 601-604. *)
Lemma ineligible_pinned_night_never_solved :
  forall data sol u d,
    (u < num_members data)%nat ->
    (d < num_days data)%nat ->
    can_night_shift (member_at data u) = false ->
    pinned data u d = Some NIGHT_AFTER
    \/ (enforce_night_after_rest (constraints_of data) = true
        /\ pinned data u d = Some NIGHT
        /\ (d + 1 < num_days data)%nat
        /\ pinned data u (d + 1) = None) ->
    ~ solved_by data sol.
Proof.
  intros data sol u d Hu Hd Hcan Hpin Hsol.
  assert (Hlift : forall c, In c (fst (night_eligibility_rule data u)) ->
                            holds sol c = true).
  { intros c Hc. apply (feasible_holds _ _ _ Hsol).
    apply (member_constraint_in_model data u); [exact Hu|].
    rewrite fst_member_rules, !in_app_iff. tauto. }
  destruct Hpin as [Hafter | [Hrest [Hnight [Hnext Hfree]]]].
  - pose proof (night_eligibility_rule_at data u d Hcan Hd) as Hrule.
    destruct (pinned_is data u d NIGHT) eqn:E.
    { apply pinned_is_true in E. congruence. }
    destruct Hrule as [_ Hzero]. apply Hlift in Hzero.
    pose proof (pinned_enforced data sol u d NIGHT_AFTER Hsol Hafter) as Hone.
    simpl in Hzero. apply Z.eqb_eq in Hzero. lia.
  - pose proof (night_eligibility_rule_at data u (d + 1) Hcan Hnext) as Hrule.
    destruct (pinned_is data u (d + 1) NIGHT) eqn:E.
    { apply pinned_is_true in E. congruence. }
    destruct Hrule as [_ Hzero]. apply Hlift in Hzero.
    pose proof (pinned_enforced data sol u d NIGHT Hsol Hnight) as Hone.
    assert (Himp : holds sol (CImplication (X u d NIGHT) (X u (d + 1) NIGHT_AFTER)) = true).
    { apply (feasible_holds _ _ _ Hsol).
      apply (member_constraint_in_model data u); [exact Hu|].
      rewrite fst_member_rules, !in_app_iff. right. right. right. right. left.
      unfold night_rest_rule. rewrite Hrest, fst_andthen. apply in_or_app. left.
      apply in_fst_for_each. exists d. split; [apply in_range; lia|].
      unfold night_follow_up. rewrite Hnight, Hfree. simpl. auto. }
    simpl in Hzero, Himp. apply Z.eqb_eq in Hzero.
    rewrite Hone, Hzero in Himp. discriminate.
Qed.

(** C2. The claim's second clause fails on two requests for a member with
    can_night_shift=false.  With NIGHT_AFTER pinned on the only day, no
    conflict is recorded, the rule forces the NIGHT_AFTER indicator of that
    date to zero next to the pinned equality, and no valuation satisfies the
    model.  With NIGHT pinned on the first of two days and the night-rest rule
    on, the night_eligibility_conflict is recorded and the indicators of that
    date are not forced, but the implication to NIGHT_AFTER on the next day is
    emitted together with the zero-forcing of that next day, and again no
    valuation satisfies the model: neither request has a solved output. *)
Theorem ineligible_pinned_night_model_unsolvable :
  (can_night_shift (member_at request_pinned_night_after_ineligible 0) = false
   /\ pinned request_pinned_night_after_ineligible 0 0 = Some NIGHT_AFTER
   /\ conflicts_before_solve request_pinned_night_after_ineligible = []
   /\ In (CEq (EVar (X 0 0 NIGHT_AFTER)) (EConst 1))
         (constraints (model request_pinned_night_after_ineligible))
   /\ In (CEq (EVar (X 0 0 NIGHT_AFTER)) (EConst 0))
         (constraints (model request_pinned_night_after_ineligible))
   /\ forall sol, feasibleb (model request_pinned_night_after_ineligible) sol = false)
  /\ (can_night_shift (member_at request_pinned_night_then_free 0) = false
      /\ pinned request_pinned_night_then_free 0 0 = Some NIGHT
      /\ conflicts_before_solve request_pinned_night_then_free
         = [night_eligibility_conflict 10 sep01]
      /\ (forall s, ~ In (CEq (EVar (X 0 0 s)) (EConst 0))
                         (fst (night_eligibility_rule request_pinned_night_then_free 0)))
      /\ In (CEq (EVar (X 0 0 NIGHT)) (EConst 1))
            (constraints (model request_pinned_night_then_free))
      /\ In (CImplication (X 0 0 NIGHT) (X 0 1 NIGHT_AFTER))
            (constraints (model request_pinned_night_then_free))
      /\ In (CEq (EVar (X 0 1 NIGHT_AFTER)) (EConst 0))
            (constraints (model request_pinned_night_then_free))
      /\ forall sol, feasibleb (model request_pinned_night_then_free) sol = false).
Proof.
  split.
  - split; [reflexivity|]. split; [reflexivity|]. split; [reflexivity|].
    split; [listed|]. split; [listed|].
    apply pinned_night_after_ineligible_unsolvable.
  - split; [reflexivity|]. split; [reflexivity|]. split; [reflexivity|].
    split; [intros s; apply night_eligibility_rule_skips; reflexivity|].
    split; [listed|]. split; [listed|]. split; [listed|].
    apply pinned_night_before_last_day_unsolvable.
Qed.

(** The engine can only give up on such a model: with the answer infeasible
    the output is the empty schedule. *)
Example ineligible_pinned_night_after_output :
  build_model gives_up request_pinned_night_after_ineligible
  = Returned (unsolved_output request_pinned_night_after_ineligible INFEASIBLE)
  /\ assignments (unsolved_output request_pinned_night_after_ineligible INFEASIBLE) = [].
Proof. split; reflexivity. Qed.

(** ** Unusable solver statuses *)

(** C4 (as amended). Whenever the solver returns a status other than optimal
    or feasible, [build_model] ends without a fatal error and hands back an
    empty assignments list with a summary that carries the status label, an
    empty shortage list, an empty day-capacity-shortfall list, and as its
    constraint-conflict list the conflicts recorded while the model was built. *)
Theorem unusable_status_yields_empty_schedule :
  forall solve data status sol,
    members data <> [] ->
    days data <> [] ->
    solve (model data) = (status, sol) ->
    usable status = false ->
    exists output,
      build_model solve data = Returned output
      /\ assignments output = []
      /\ status_label (summary output) = status_map status
      /\ work_days (summary output) = []
      /\ off_days (summary output) = []
      /\ nights (summary output) = []
      /\ shortages (summary output) = []
      /\ day_capacity_shortfalls (summary output) = []
      /\ constraint_conflicts (summary output) = conflicts_before_solve data.
Proof.
  intros solve data status sol Hm Hd Hsolve Hstatus.
  exists (unsolved_output data status).
  unfold build_model, num_members, num_days.
  destruct (members data) as [|m ms]; [contradiction|].
  destruct (days data) as [|d ds]; [contradiction|].
  simpl. rewrite Hsolve, Hstatus. repeat split; reflexivity.
Qed.

Lemma unusable_status_yields_empty_schedule_witness :
  exists output,
    build_model gives_up request_pinned_night_then_free = Returned output
    /\ assignments output = []
    /\ status_label (summary output) = status_map INFEASIBLE
    /\ work_days (summary output) = []
    /\ off_days (summary output) = []
    /\ nights (summary output) = []
    /\ shortages (summary output) = []
    /\ day_capacity_shortfalls (summary output) = []
    /\ constraint_conflicts (summary output)
       = conflicts_before_solve request_pinned_night_then_free.
Proof.
  apply (unusable_status_yields_empty_schedule gives_up request_pinned_night_then_free
           INFEASIBLE (fun _ => 0)).
  - discriminate.
  - discriminate.
  - reflexivity.
  - reflexivity.
Defined.

(** C4 as stated fails: the model of the request below has no solution, the
    status is infeasible, and the summary handed back lists the
    night_eligibility_conflict recorded before the solve. *)
Lemma unusable_status_keeps_conflicts :
  usable INFEASIBLE = false
  /\ exists output,
       build_model gives_up request_pinned_night_then_free = Returned output
       /\ constraint_conflicts (summary output) = [night_eligibility_conflict 10 sep01]
       /\ ~ status_only output INFEASIBLE.
Proof.
  split; [reflexivity|].
  exists (unsolved_output request_pinned_night_then_free INFEASIBLE).
  split; [reflexivity|]. split; [reflexivity|].
  intros (_ & _ & _ & _ & Hc). vm_compute in Hc. discriminate Hc.
Qed.

(** ** The objective *)

Lemma eval_fold_add :
  forall sol es acc,
    eval sol (fold_left EAdd es acc) = fold_left Z.add (map (eval sol) es) (eval sol acc).
Proof.
  intros sol es. induction es as [|e es IH]; intros acc; simpl; [reflexivity|].
  rewrite IH. reflexivity.
Qed.

Lemma eval_esum : forall sol es, eval sol (esum es) = zsum (map (eval sol) es).
Proof. intros. unfold esum, zsum. apply eval_fold_add. Qed.

Lemma fold_add_shift :
  forall l a, fold_left Z.add l a = a + fold_left Z.add l 0.
Proof.
  induction l as [|x l IH]; intros a; simpl; [lia|].
  rewrite (IH (a + x)), (IH x). lia.
Qed.

Lemma zsum_cons : forall x l, zsum (x :: l) = x + zsum l.
Proof. intros. unfold zsum. simpl. rewrite fold_add_shift. lia. Qed.

Lemma zsum_nil : zsum [] = 0.
Proof. reflexivity. Qed.

Lemma zsum_map_ext :
  forall (A : Type) (f g : A -> Z) l,
    (forall a, In a l -> f a = g a) -> zsum (map f l) = zsum (map g l).
Proof.
  intros A f g l H. f_equal. apply map_ext_in. exact H.
Qed.

Lemma counter_constraint_in_model :
  forall data u c,
    (u < num_members data)%nat ->
    In c (counter_constraints data u) -> In c (constraints (model data)).
Proof.
  intros data u c Hu Hc. simpl. rewrite !in_app_iff. right. right. right. right.
  apply in_flat_map. exists u. split; [apply in_range; exact Hu | exact Hc].
Qed.

Lemma counters_solved :
  forall data sol u,
    solved_by data sol -> (u < num_members data)%nat ->
    sol (WorkCount u) = work_day_count data sol u
    /\ sol (AbsWorkDiff u) = Z.abs (work_day_count data sol u - target_work data)
    /\ sol (AbsOffDiff u) = Z.abs (off_day_count data sol u - target_off data).
Proof.
  intros data sol u Hsol Hu.
  assert (H : forall c, In c (counter_constraints data u) -> holds sol c = true).
  { intros c Hc. apply (feasible_holds _ _ _ Hsol).
    apply (counter_constraint_in_model data u); assumption. }
  unfold counter_constraints in H.
  assert (H1 := H (CEq (EVar (WorkCount u))
                       (ESub (EConst (Z.of_nat (num_days data))) (off_count_expr data u)))).
  assert (H2 := H (CEq (EVar (WorkDiff u)) (ESub (EVar (WorkCount u)) (EConst (target_work data))))).
  assert (H3 := H (CAbsEquality (AbsWorkDiff u) (EVar (WorkDiff u)))).
  assert (H4 := H (CEq (EVar (OffDiff u)) (ESub (off_count_expr data u) (EConst (target_off data))))).
  assert (H5 := H (CAbsEquality (AbsOffDiff u) (EVar (OffDiff u)))).
  rewrite in_app_iff in H1, H2, H3, H4, H5. simpl in H1, H2, H3, H4, H5.
  assert (E1 := H1 ltac:(tauto)). assert (E2 := H2 ltac:(tauto)).
  assert (E3 := H3 ltac:(tauto)). assert (E4 := H4 ltac:(tauto)).
  assert (E5 := H5 ltac:(tauto)).
  apply Z.eqb_eq in E1, E2, E3, E4, E5.
  unfold work_day_count, off_day_count. rewrite E3, E5, E2, E4, E1. auto.
Qed.

Lemma eval_optional_term :
  forall (A : Type) sol k (f : A -> expr) (l : list A),
    zsum (map (eval sol)
              match l with
              | [] => []
              | a :: rest => [EMul k (esum (map f (a :: rest)))]
              end)
    = k * zsum (map (fun a => eval sol (f a)) l).
Proof.
  intros A sol k f l. destruct l as [|a l].
  - change (0 = k * 0). lia.
  - set (us := a :: l).
    change (zsum [k * eval sol (esum (map f us))]
            = k * zsum (map (fun a => eval sol (f a)) us)).
    rewrite eval_esum, map_map, zsum_cons, zsum_nil. lia.
Qed.

Lemma zsum_app : forall l1 l2, zsum (l1 ++ l2) = zsum l1 + zsum l2.
Proof.
  induction l1 as [|x l1 IH]; intros l2; cbn [app].
  - rewrite zsum_nil. lia.
  - rewrite !zsum_cons, IH. lia.
Qed.

(** The value of the objective in a solved output, read over the builder's
    own registries of shortage, day-shortfall and off-slack variables: each
    sum times its multiplier, the balance sums only when balance_workload is
    enabled.  The DAY shortage of a day is listed in the first two sums. *)
Lemma objective_of_solved_output :
  forall data sol,
    solved_by data sol ->
    eval sol (objective (model data))
    = coverage_penalty * total_shortage data sol
      + day_target_penalty * total_day_shortfall data sol
      + off_requirement_penalty * total_off_shortfall data sol
      + (if balance_workload (constraints_of data)
         then 10 * total_work_deviation data sol + 5 * total_off_deviation data sol
         else 0).
Proof.
  intros data sol Hsol.
  unfold objective. rewrite eval_esum. simpl objective_terms. unfold composed_objective.
  assert (Hbal :
            zsum (map (eval sol)
                      (if balance_workload (constraints_of data)
                       then [EAdd (EMul 10 (esum (abs_work_diffs data)))
                                  (EMul 5 (esum (abs_off_diffs data)))]
                       else []))
            = if balance_workload (constraints_of data)
              then 10 * total_work_deviation data sol + 5 * total_off_deviation data sol
              else 0).
  { destruct (balance_workload (constraints_of data)); [|reflexivity].
    cbn [map]. rewrite zsum_cons, zsum_nil. cbn [eval]. rewrite !eval_esum.
    unfold abs_work_diffs, abs_off_diffs, total_work_deviation, total_off_deviation.
    rewrite !map_map. cbn [eval].
    rewrite (zsum_map_ext _ (fun u => sol (AbsWorkDiff u))
               (fun u => Z.abs (work_day_count data sol u - target_work data))).
    2:{ intros u Hu. apply in_range in Hu. apply (counters_solved data sol u Hsol Hu). }
    rewrite (zsum_map_ext _ (fun u => sol (AbsOffDiff u))
               (fun u => Z.abs (off_day_count data sol u - target_off data))).
    2:{ intros u Hu. apply in_range in Hu. apply (counters_solved data sol u Hsol Hu). }
    lia. }
  rewrite !map_app, !zsum_app, !eval_optional_term, Hbal.
  cbn [map]. rewrite zsum_cons, zsum_nil. cbn [eval]. rewrite eval_esum, map_map.
  unfold total_shortage, total_off_shortfall, total_day_shortfall. cbn [eval]. lia.
Qed.

(** ** Minimum days off *)

Lemma clamp_configured :
  forall num_days value fallback,
    0 <= num_days ->
    0 <= clamp_min_off_days num_days (RInt value) fallback <= num_days.
Proof. intros. unfold clamp_min_off_days. lia. Qed.

(** The fallback chain: each category takes its configured value, clamped,
    or else falls back as the script says. *)
Lemma resolve_min_off_chain :
  forall n general full part contract,
    let t := resolve_min_off n general full part contract in
    base_min_off t = clamp_min_off_days n general 0
    /\ min_off_full_time t = clamp_min_off_days n full (base_min_off t)
    /\ min_off_part_time t
       = clamp_min_off_days n part
           (match general with RNone => 10 | _ => base_min_off t end)
    /\ min_off_contract t = clamp_min_off_days n contract (min_off_part_time t).
Proof. intros. repeat split. Qed.

(** Every resolved value lies in the horizon as soon as the horizon has at
    least ten days. *)
Lemma resolve_min_off_bounds :
  forall n general full part contract,
    10 <= n ->
    let t := resolve_min_off n general full part contract in
    0 <= base_min_off t <= n /\ 0 <= min_off_full_time t <= n
    /\ 0 <= min_off_part_time t <= n /\ 0 <= min_off_contract t <= n.
Proof.
  intros n general full part contract Hn. simpl.
  unfold clamp_min_off_days.
  destruct general, full, part, contract; lia.
Qed.

(** C6. On a horizon shorter than ten days with no minimum configured, the
    part-time value (and with it the contract value) resolves to the fallback
    10, which is outside [0, number_of_days]: the fallback is not clamped.  On
    the one-day request below the model then has no solution, because the
    off-day count and its slack are both at most the number of days. *)
Theorem part_time_fallback_not_clamped :
  min_off_part_time (resolve_min_off 4 RNone RNone RNone RNone) = 10
  /\ min_off_contract (resolve_min_off 4 RNone RNone RNone RNone) = 10
  /\ ~ (0 <= min_off_part_time (resolve_min_off 4 RNone RNone RNone RNone) <= 4)
  /\ member_off_requirements request_short_horizon_part_time 0 = 10
  /\ forall sol, feasibleb (model request_short_horizon_part_time) sol = false.
Proof.
  split; [reflexivity|]. split; [reflexivity|].
  split; [simpl; lia|]. split; [reflexivity|].
  intros sol.
  destruct (feasibleb (model request_short_horizon_part_time) sol) eqn:E;
    [exfalso | reflexivity].
  assert (H1 : holds sol (CGe (EAdd (EAdd (EConst 0) (EVar (X 0 0 OFF))) (EVar (OffSlack 0)))
                              (EConst 10)) = true)
    by (apply (feasible_holds _ _ _ E); listed).
  assert (H2 : 0 <= sol (X 0 0 OFF) <= 1)
    by (apply (feasible_domain _ _ _ _ _ E); listed).
  assert (H3 : 0 <= sol (OffSlack 0) <= 1)
    by (apply (feasible_domain _ _ _ _ _ E); listed).
  simpl in H1. apply Z.leb_le in H1. lia.
Qed.

(** ** The eligibility filter *)

Lemma off_and_night_after_always_allowed :
  forall data u,
    mem_shift OFF (allowed_shift_sets data u) = true
    /\ mem_shift NIGHT_AFTER (allowed_shift_sets data u) = true.
Proof.
  intros data u. unfold allowed_shift_sets, mem_shift.
  destruct (allowed_shift_codes (member_at data u)) as [codes|].
  - rewrite !existsb_app. simpl. rewrite !orb_true_r. auto.
  - auto.
Qed.

Lemma disallowed_codes_are_work :
  forall data u code,
    In code (disallowed_codes data u) ->
    is_work code = true /\ mem_shift code (allowed_shift_sets data u) = false.
Proof.
  intros data u code H. unfold disallowed_codes in H. apply filter_In in H.
  destruct H as [Hin Hneg]. split.
  - destruct Hin as [<- | [<- | [<- | [<- | []]]]]; reflexivity.
  - apply negb_true_iff in Hneg. exact Hneg.
Qed.

(** The filter itself restricts work codes only: what it emits is either a
    zero-forcing equality on a work code outside the allowed set or a
    conflict on such a code. *)
Lemma eligibility_rule_on_work_codes :
  forall data u,
    (forall c, In c (fst (eligibility_rule data u)) ->
       exists d code, c = CEq (EVar (X u d code)) (EConst 0) /\ is_work code = true
                      /\ mem_shift code (allowed_shift_sets data u) = false)
    /\ (forall k, In k (snd (eligibility_rule data u)) ->
          exists d code, k = allowed_shift_conflict (id (member_at data u)) (day_at data d) code
                         /\ is_work code = true).
Proof.
  intros data u. unfold eligibility_rule. split.
  - intros c H. apply in_fst_for_each in H. destruct H as [d [_ H]].
    apply in_fst_for_each in H. destruct H as [code [Hcode H]].
    apply disallowed_codes_are_work in Hcode.
    destruct (pinned_is data u d code); simpl in H; [contradiction|].
    destruct H as [<- | []]. exists d, code. tauto.
  - intros k H. apply in_snd_for_each in H. destruct H as [d [_ H]].
    apply in_snd_for_each in H. destruct H as [code [Hcode H]].
    apply disallowed_codes_are_work in Hcode.
    destruct (pinned_is data u d code); simpl in H; [|contradiction].
    destruct H as [<- | []]. exists d, code. tauto.
Qed.

(** C10. OFF is in the allowed set of the member below, whose allow-list is
    [["DAY"]], and the printed schedule keeps the pinned OFF; yet the loop
    over existing_assignments, which tests the raw allow-list, records an
    allowed_shift_conflict for OFF. *)
Theorem pinned_off_reported_as_disallowed :
  allowed_shift_codes (member_at request_pinned_off_outside_allow_list 0) = Some [DAY]
  /\ mem_shift OFF (allowed_shift_sets request_pinned_off_outside_allow_list 0) = true
  /\ solved_by request_pinned_off_outside_allow_list answer_pinned_off_outside_allow_list
  /\ answer_pinned_off_outside_allow_list (X 0 0 OFF) = 1
  /\ constraint_conflicts
       (summary (solved_output request_pinned_off_outside_allow_list
                   answer_pinned_off_outside_allow_list OPTIMAL))
     = [allowed_shift_conflict 10 sep01 OFF].
Proof. repeat split; vm_compute; reflexivity. Qed.

(** ** The cap on consecutive workdays *)

(** C1. With cap 1 and DAY pinned on two consecutive days the builder records
    the max_consecutive_workdays_conflict naming both dates and the limit, but
    it still emits the window constraint over those two days, and no valuation
    satisfies the model handed to the solver. *)
Theorem pinned_run_over_cap_unsolvable :
  max_consecutive_workdays request_pinned_run_over_cap = Some 1
  /\ conflicts_before_solve request_pinned_run_over_cap
     = [max_consecutive_workdays_conflict 10 sep01 sep02 1]
  /\ In (CLe (esum [EVar (WorkFlag 0 0); EVar (WorkFlag 0 1)]) (EConst 1))
        (constraints (model request_pinned_run_over_cap))
  /\ forall sol, feasibleb (model request_pinned_run_over_cap) sol = false.
Proof.
  split; [reflexivity|]. split; [reflexivity|]. split; [listed|].
  intros sol.
  destruct (feasibleb (model request_pinned_run_over_cap) sol) eqn:E;
    [exfalso | reflexivity].
  assert (Hw : holds sol (CLe (esum [EVar (WorkFlag 0 0); EVar (WorkFlag 0 1)]) (EConst 1))
               = true)
    by (apply (feasible_holds _ _ _ E); listed).
  assert (Hf0 : holds sol (CEq (EVar (WorkFlag 0 0)) (x_over_codes 0 0 WORK_SHIFT_CODES))
                = true)
    by (apply (feasible_holds _ _ _ E); listed).
  assert (Hf1 : holds sol (CEq (EVar (WorkFlag 0 1)) (x_over_codes 0 1 WORK_SHIFT_CODES))
                = true)
    by (apply (feasible_holds _ _ _ E); listed).
  assert (Hp0 : holds sol (CEq (EVar (X 0 0 DAY)) (EConst 1)) = true)
    by (apply (feasible_holds _ _ _ E); listed).
  assert (Hp1 : holds sol (CEq (EVar (X 0 1 DAY)) (EConst 1)) = true)
    by (apply (feasible_holds _ _ _ E); listed).
  assert (Hx : forall d s, (d < 2)%nat -> 0 <= sol (X 0 d s) <= 1).
  { intros d s Hd. apply (feasible_domain _ _ _ _ _ E).
    apply (x_declared request_pinned_run_over_cap 0 d s); [vm_compute; lia | exact Hd]. }
  pose proof (Hx 0%nat EARLY ltac:(lia)). pose proof (Hx 0%nat LATE ltac:(lia)).
  pose proof (Hx 0%nat NIGHT ltac:(lia)). pose proof (Hx 1%nat EARLY ltac:(lia)).
  pose proof (Hx 1%nat LATE ltac:(lia)). pose proof (Hx 1%nat NIGHT ltac:(lia)).
  cbn in Hw, Hf0, Hf1, Hp0, Hp1.
  apply Z.leb_le in Hw. apply Z.eqb_eq in Hf0, Hf1, Hp0, Hp1. lia.
Qed.

(** ** Dictionaries built from lists *)

Lemma dict_get_set :
  forall (K V : Type) (keqb : K -> K -> bool),
    (forall a b, keqb a b = true <-> a = b) ->
    forall (m : list (K * V)) k v k',
      dict_get keqb (dict_set keqb m k v) k'
      = if keqb k' k then Some v else dict_get keqb m k'.
Proof.
  intros K V keqb Heq m k v k'.
  induction m as [|[k0 v0] m IH]; simpl; [reflexivity|].
  destruct (keqb k k0) eqn:E; simpl.
  - apply Heq in E. subst k0. destruct (keqb k' k); reflexivity.
  - rewrite IH. destruct (keqb k' k0) eqn:E0; [|reflexivity].
    apply Heq in E0. subst k0.
    destruct (keqb k' k) eqn:E1; [|reflexivity].
    apply Heq in E1. subst k'.
    assert (keqb k k = true) by (apply Heq; reflexivity). congruence.
Qed.

Lemma dict_set_in :
  forall (K V : Type) (keqb : K -> K -> bool) (m : list (K * V)) k v k' v',
    dict_get keqb m k = None ->
    In (k', v') (dict_set keqb m k v) -> In (k', v') m \/ (k', v') = (k, v).
Proof.
  intros K V keqb m k v k' v'. induction m as [|[k0 v0] m IH]; simpl.
  - intros _ [H | []]. right. symmetry. exact H.
  - destruct (keqb k k0); [discriminate|]. intros Hget [H | H].
    + left. left. exact H.
    + destruct (IH Hget H); auto.
Qed.

Lemma combine_seq_nth :
  forall (l : list Z) a i k,
    In (i, k) (combine (seq a (length l)) l) ->
    (a <= i)%nat /\ nth_error l (i - a) = Some k.
Proof.
  induction l as [|x l IH]; intros a i k H; simpl in H; [contradiction|].
  destruct H as [H | H].
  - inversion H; subst. split; [lia|]. rewrite Nat.sub_diag. reflexivity.
  - apply IH in H. destruct H as [Hle Hnth]. split; [lia|].
    replace (i - a)%nat with (S (i - S a)) by lia. exact Hnth.
Qed.

Lemma index_dict_sound :
  forall l k i, dict_get Z.eqb (index_dict l) k = Some i -> nth_error l i = Some k.
Proof.
  intros l. unfold index_dict, range.
  assert (Hps : forall i k, In (i, k) (combine (seq 0 (length l)) l) ->
                            nth_error l i = Some k).
  { intros i k H. apply combine_seq_nth in H. rewrite Nat.sub_0_r in H. tauto. }
  revert Hps. generalize (combine (seq 0 (length l)) l) as ps.
  assert (Hgen : forall (ps : list (nat * Z)) (m : list (Z * nat)),
             (forall i k, In (i, k) ps -> nth_error l i = Some k) ->
             (forall k i, dict_get Z.eqb m k = Some i -> nth_error l i = Some k) ->
             forall k i,
               dict_get Z.eqb
                 (fold_left (fun m p => dict_set Z.eqb m (snd p) (fst p)) ps m) k = Some i ->
               nth_error l i = Some k).
  { induction ps as [|[i0 k0] ps IH]; intros m Hps Hm k i; simpl; [apply Hm|].
    apply IH.
    - intros i' k' H. apply Hps. right. exact H.
    - intros k' i'. rewrite (dict_get_set _ _ Z.eqb Z.eqb_eq).
      destruct (Z.eqb k' k0) eqn:E.
      + intros H. inversion H; subst. apply Z.eqb_eq in E. subst.
        apply Hps. left. reflexivity.
      + apply Hm. }
  intros ps Hps k i. apply Hgen; [exact Hps|]. intros k' i' H. discriminate H.
Qed.

Lemma member_index_sound :
  forall data m u,
    dict_get Z.eqb (member_index data) m = Some u ->
    (u < num_members data)%nat /\ id (member_at data u) = m.
Proof.
  intros data m u H. unfold member_index in H. apply index_dict_sound in H.
  assert (Hlt : (u < length (map id (members data)))%nat).
  { apply nth_error_Some. rewrite H. discriminate. }
  rewrite length_map in Hlt. split; [exact Hlt|].
  unfold member_at.
  apply (nth_error_nth _ _ (id default_member)) in H.
  rewrite <- H. symmetry. apply (map_nth id).
Qed.

Lemma day_index_sound :
  forall data dt d,
    dict_get Z.eqb (day_index data) dt = Some d ->
    (d < num_days data)%nat /\ day_at data d = dt.
Proof.
  intros data dt d H. unfold day_index in H. apply index_dict_sound in H.
  split.
  { unfold num_days. apply nth_error_Some. unfold isodate in *. rewrite H. discriminate. }
  unfold day_at. apply nth_error_nth. exact H.
Qed.

(** ** The loop over existing assignments *)

Lemma filter_snoc_false :
  forall (A : Type) (p : A -> bool) l a,
    p a = false -> filter p (l ++ [a]) = filter p l.
Proof.
  intros A p l a H. rewrite filter_app. simpl. rewrite H. apply app_nil_r.
Qed.

Lemma filter_none :
  forall (A : Type) (p : A -> bool) l,
    (forall a, In a l -> p a = false) -> filter p l = [].
Proof.
  intros A p l H. induction l as [|a l IH]; simpl; [reflexivity|].
  rewrite (H a) by (left; reflexivity). apply IH. intros b Hb. apply H. right. exact Hb.
Qed.

Section OneMemberOneDate.

Variable data : Request.
Variables (m : Z) (dt : isodate) (u d : nat).
Hypothesis Hu : dict_get Z.eqb (member_index data) m = Some u.
Hypothesis Hd : dict_get Z.eqb (day_index data) dt = Some d.

Let about := existing_conflict_for m dt.

Lemma other_entry_other_key :
  forall a u' d',
    entry_for m dt a = false ->
    dict_get Z.eqb (member_index data) (user_id a) = Some u' ->
    dict_get Z.eqb (day_index data) (date a) = Some d' ->
    pair_eqb (u, d) (u', d') = false
    /\ (Z.eqb (id (member_at data u')) m && Z.eqb (day_at data d') dt = false).
Proof.
  intros a u' d' Hother Hu' Hd'.
  destruct (member_index_sound data _ _ Hu') as [_ Eu'].
  destruct (day_index_sound data _ _ Hd') as [_ Ed'].
  destruct (member_index_sound data _ _ Hu) as [_ Eu].
  destruct (day_index_sound data _ _ Hd) as [_ Ed].
  unfold entry_for in Hother. rewrite Eu', Ed'. split; [|exact Hother].
  destruct (pair_eqb (u, d) (u', d')) eqn:E; [|reflexivity].
  apply pair_eqb_eq in E. inversion E; subst u' d'.
  rewrite <- Eu', <- Ed', Eu, Ed, !Z.eqb_refl in Hother. discriminate.
Qed.

Lemma pin_step_other :
  forall st a,
    entry_for m dt a = false ->
    dict_get pair_eqb (pinned_assignments (pin_step data st a)) (u, d)
    = dict_get pair_eqb (pinned_assignments st) (u, d)
    /\ filter about (pin_conflicts (pin_step data st a)) = filter about (pin_conflicts st).
Proof.
  intros st a Hother. unfold pin_step.
  destruct (dict_get Z.eqb (member_index data) (user_id a)) as [u'|] eqn:Eu'; [|auto].
  destruct (dict_get Z.eqb (day_index data) (date a)) as [d'|] eqn:Ed'; [|auto].
  destruct (other_entry_other_key a u' d' Hother Eu' Ed') as [Hkey Hrec].
  destruct (shift_of_string (upper (shift_code a))) as [code|]; [|auto].
  set (conflicts := match allowed_shift_codes (member_at data u') with
                    | Some _ => _
                    | None => _
                    end).
  assert (Hc : filter about conflicts = filter about (pin_conflicts st)).
  { unfold conflicts. destruct (allowed_shift_codes (member_at data u')) as [allowed|];
      [|reflexivity].
    destruct (mem_shift code allowed); [reflexivity|].
    apply filter_snoc_false. reflexivity. }
  destruct (dict_get pair_eqb (pinned_assignments st) (u', d')) as [pinned_code|]; simpl.
  - split; [reflexivity|].
    destruct (shift_eqb pinned_code code); [exact Hc|].
    rewrite filter_snoc_false; [exact Hc|].
    unfold about, existing_conflict_for. exact Hrec.
  - split; [|exact Hc].
    rewrite (dict_get_set _ _ pair_eqb pair_eqb_eq), Hkey. reflexivity.
Qed.

Lemma pin_fold_other :
  forall l st,
    (forall a, In a l -> entry_for m dt a = false) ->
    dict_get pair_eqb (pinned_assignments (fold_left (pin_step data) l st)) (u, d)
    = dict_get pair_eqb (pinned_assignments st) (u, d)
    /\ filter about (pin_conflicts (fold_left (pin_step data) l st))
       = filter about (pin_conflicts st).
Proof.
  induction l as [|a l IH]; intros st Hl; simpl; [auto|].
  destruct (IH (pin_step data st a)) as [E1 E2].
  { intros b Hb. apply Hl. right. exact Hb. }
  destruct (pin_step_other st a) as [E3 E4].
  { apply Hl. left. reflexivity. }
  rewrite E1, E2. auto.
Qed.

Lemma pin_step_first :
  forall st a code,
    user_id a = m -> date a = dt ->
    shift_of_string (upper (shift_code a)) = Some code ->
    dict_get pair_eqb (pinned_assignments st) (u, d) = None ->
    dict_get pair_eqb (pinned_assignments (pin_step data st a)) (u, d) = Some code
    /\ filter about (pin_conflicts (pin_step data st a)) = filter about (pin_conflicts st).
Proof.
  intros st a code Hm Hdt Hcode Hfree. unfold pin_step.
  rewrite Hm, Hdt, Hu, Hd, Hcode, Hfree. simpl. split.
  - rewrite (dict_get_set _ _ pair_eqb pair_eqb_eq).
    assert (E : pair_eqb (u, d) (u, d) = true) by (apply pair_eqb_eq; reflexivity).
    rewrite E. reflexivity.
  - destruct (allowed_shift_codes (member_at data u)) as [allowed|]; [|reflexivity].
    destruct (mem_shift code allowed); [reflexivity|].
    apply filter_snoc_false. reflexivity.
Qed.

Lemma pin_step_second :
  forall st a first code,
    user_id a = m -> date a = dt ->
    shift_of_string (upper (shift_code a)) = Some code ->
    dict_get pair_eqb (pinned_assignments st) (u, d) = Some first ->
    first <> code ->
    dict_get pair_eqb (pinned_assignments (pin_step data st a)) (u, d) = Some first
    /\ filter about (pin_conflicts (pin_step data st a))
       = filter about (pin_conflicts st)
         ++ [existing_assignment_conflict m dt (sorted [first; code])].
Proof.
  intros st a first code Hm Hdt Hcode Hheld Hneq. unfold pin_step.
  rewrite Hm, Hdt, Hu, Hd, Hcode, Hheld. simpl. split; [exact Hheld|].
  apply shift_eqb_neq in Hneq. rewrite Hneq.
  destruct (member_index_sound data _ _ Hu) as [_ Eu].
  destruct (day_index_sound data _ _ Hd) as [_ Ed].
  rewrite Eu, Ed.
  assert (Hc : filter about
                 match allowed_shift_codes (member_at data u) with
                 | Some allowed_codes =>
                     if mem_shift code allowed_codes then pin_conflicts st
                     else pin_conflicts st ++ [allowed_shift_conflict m dt code]
                 | None => pin_conflicts st
                 end
               = filter about (pin_conflicts st)).
  { destruct (allowed_shift_codes (member_at data u)) as [allowed|]; [|reflexivity].
    destruct (mem_shift code allowed); [reflexivity|].
    apply filter_snoc_false. reflexivity. }
  rewrite filter_app, Hc. simpl.
  unfold about at 2. unfold existing_conflict_for. rewrite !Z.eqb_refl. reflexivity.
Qed.

End OneMemberOneDate.

(** ** The records the member rules can add *)

Lemma scan_pinned_run_shape :
  forall data u cap ds run k,
    In k (scan_pinned_run data u cap ds run) ->
    exists start_date end_date,
      k = max_consecutive_workdays_conflict (id (member_at data u)) start_date end_date cap.
Proof.
  intros data u cap ds. induction ds as [|d ds IH]; intros run k H; simpl in H;
    [contradiction|].
  match type of H with
  | In _ (if ?b then _ else _) => destruct b
  end.
  - destruct H as [<- | []]. eauto.
  - eapply IH. exact H.
Qed.

Ltac open_rule H :=
  repeat match type of H with
         | In _ (snd (for_each _ _)) =>
             apply in_snd_for_each in H; destruct H as [? [_ H]]
         | In _ (snd (andthen _ _)) =>
             rewrite snd_andthen in H; apply in_app_or in H; destruct H as [H | H]
         | In _ (snd (if ?b then _ else _)) => destruct b
         | In _ (snd (match ?x with _ => _ end)) => destruct x
         | In _ (snd nothing) => destruct H
         | In _ (snd (add _)) => destruct H
         | In _ (snd (conflict_of _)) => destruct H as [<- | []]
         | In _ (snd (_, [])) => destruct H
         end.

Lemma member_rules_never_existing_conflict :
  forall data u k,
    In k (snd (member_rules data u)) ->
    forall m dt, existing_conflict_for m dt k = false.
Proof.
  intros data u k H m dt. rewrite snd_member_rules, !in_app_iff in H.
  destruct H as [H | [H | [H | [H | [H | [H | [H | [H | H]]]]]]]].
  - unfold eligibility_rule in H. open_rule H. reflexivity.
  - unfold fixed_day_off_rule in H. open_rule H; reflexivity.
  - unfold consecutive_rule in H.
    destruct (max_consecutive_workdays data) as [cap|]; [|destruct H].
    simpl in H. apply scan_pinned_run_shape in H. destruct H as [s [e ->]]. reflexivity.
  - unfold night_after_rule in H. open_rule H; reflexivity.
  - unfold night_rest_rule, night_follow_up, night_rest in H. open_rule H; reflexivity.
  - unfold night_eligibility_rule in H. open_rule H. reflexivity.
  - unfold late_to_early_rule in H. open_rule H. reflexivity.
  - unfold repeat_rule in H. open_rule H. reflexivity.
  - unfold night_quota_rule in H. open_rule H. reflexivity.
Qed.

Lemma existing_conflicts_come_from_pinning :
  forall data m dt,
    filter (existing_conflict_for m dt) (conflicts_before_solve data)
    = filter (existing_conflict_for m dt) (pin_conflicts (pin_existing data)).
Proof.
  intros data m dt. unfold conflicts_before_solve. rewrite filter_app.
  rewrite (filter_none _ _ (snd (all_member_rules data))); [apply app_nil_r|].
  intros k H. unfold all_member_rules in H. apply in_snd_for_each in H.
  destruct H as [u [_ H]]. eapply member_rules_never_existing_conflict. exact H.
Qed.

(** Every entry of [pinned_assignments] is the one [get] finds for its key. *)
Lemma pin_step_functional :
  forall data st a,
    (forall key code, In (key, code) (pinned_assignments st) ->
                      dict_get pair_eqb (pinned_assignments st) key = Some code) ->
    forall key code,
      In (key, code) (pinned_assignments (pin_step data st a)) ->
      dict_get pair_eqb (pinned_assignments (pin_step data st a)) key = Some code.
Proof.
  intros data st a Hst key code. unfold pin_step.
  destruct (dict_get Z.eqb (member_index data) (user_id a)) as [u'|]; [|apply Hst].
  destruct (dict_get Z.eqb (day_index data) (date a)) as [d'|]; [|apply Hst].
  destruct (shift_of_string (upper (shift_code a))) as [c|]; [|apply Hst].
  destruct (dict_get pair_eqb (pinned_assignments st) (u', d')) as [held|] eqn:E;
    simpl; [apply Hst|].
  intros Hin. rewrite (dict_get_set _ _ pair_eqb pair_eqb_eq).
  apply dict_set_in in Hin; [|exact E].
  destruct Hin as [Hin | Hin].
  - destruct (pair_eqb key (u', d')) eqn:Ek.
    + apply pair_eqb_eq in Ek. subst key. apply Hst in Hin. congruence.
    + apply Hst. exact Hin.
  - inversion Hin; subst.
    assert (Ek : pair_eqb (u', d') (u', d') = true) by (apply pair_eqb_eq; reflexivity).
    rewrite Ek. reflexivity.
Qed.

Lemma pinned_functional :
  forall data u d code,
    In ((u, d), code) (pinned_assignments (pin_existing data)) ->
    pinned data u d = Some code.
Proof.
  intros data u d code. unfold pinned, pin_existing.
  set (init := {| pinned_assignments := []; fixed_requirements := []; pin_conflicts := [] |}).
  assert (Hgen : forall l st,
             (forall key c, In (key, c) (pinned_assignments st) ->
                            dict_get pair_eqb (pinned_assignments st) key = Some c) ->
             forall key c,
               In (key, c) (pinned_assignments (fold_left (pin_step data) l st)) ->
               dict_get pair_eqb (pinned_assignments (fold_left (pin_step data) l st)) key
               = Some c).
  { induction l as [|a l IH]; intros st Hst; simpl; [exact Hst|].
    apply IH. apply pin_step_functional. exact Hst. }
  apply Hgen. intros key c H. destruct H.
Qed.

Lemma sorted_pair :
  forall c1 c2,
    c1 <> c2 ->
    exists x y,
      sorted [c1; c2] = [x; y]
      /\ String.ltb (shift_name x) (shift_name y) = true
      /\ ((x = c1 /\ y = c2) \/ (x = c2 /\ y = c1)).
Proof.
  intros c1 c2 H.
  destruct c1, c2; try contradiction;
    (eexists; eexists; split; [vm_compute; reflexivity | split; [reflexivity | tauto]]).
Qed.

(** C9. When existing_assignments holds two entries for the same member and
    date that carry two different valid shift codes (and no other entry for
    that member and date), exactly one existing_assignment_conflict is
    recorded for that member and date, its codes field lists the two codes in
    increasing order, the second code is ignored (the pinned code stays the
    first one), and the first code is the one enforced: the model holds the
    equality for it and none for the second, so every solved output has the
    member on the first code. *)
Theorem duplicate_pin_recorded_once :
  forall data before a1 between a2 after u d c1 c2,
    existing_assignments data = before ++ a1 :: between ++ a2 :: after ->
    user_id a2 = user_id a1 ->
    date a2 = date a1 ->
    dict_get Z.eqb (member_index data) (user_id a1) = Some u ->
    dict_get Z.eqb (day_index data) (date a1) = Some d ->
    shift_of_string (upper (shift_code a1)) = Some c1 ->
    shift_of_string (upper (shift_code a2)) = Some c2 ->
    c1 <> c2 ->
    (forall a, In a (before ++ between ++ after) ->
               entry_for (user_id a1) (date a1) a = false) ->
    (exists x y,
        filter (existing_conflict_for (user_id a1) (date a1)) (conflicts_before_solve data)
        = [existing_assignment_conflict (user_id a1) (date a1) [x; y]]
        /\ String.ltb (shift_name x) (shift_name y) = true
        /\ ((x = c1 /\ y = c2) \/ (x = c2 /\ y = c1)))
    /\ pinned data u d = Some c1
    /\ In (CEq (EVar (X u d c1)) (EConst 1)) (pinned_equalities data)
    /\ ~ In (CEq (EVar (X u d c2)) (EConst 1)) (pinned_equalities data)
    /\ forall sol, solved_by data sol -> sol (X u d c1) = 1.
Proof.
  intros data before a1 between a2 after u d c1 c2
         Hlist Hm2 Hd2 Hu Hd Hc1 Hc2 Hneq Hothers.
  set (m := user_id a1) in *. set (dt := date a1) in *.
  set (init := {| pinned_assignments := []; fixed_requirements := []; pin_conflicts := [] |}).
  set (st1 := fold_left (pin_step data) before init).
  set (st2 := pin_step data st1 a1).
  set (st3 := fold_left (pin_step data) between st2).
  set (st4 := pin_step data st3 a2).
  assert (Efold : pin_existing data = fold_left (pin_step data) after st4).
  { unfold pin_existing. rewrite Hlist, fold_left_app. simpl. rewrite fold_left_app.
    reflexivity. }
  destruct (pin_fold_other data m dt u d Hu Hd before init) as [P1 K1].
  { intros a Ha. apply Hothers. rewrite in_app_iff. auto. }
  destruct (pin_step_first data m dt u d Hu Hd st1 a1 c1 eq_refl eq_refl Hc1 P1)
    as [P2 K2].
  destruct (pin_fold_other data m dt u d Hu Hd between st2) as [P3 K3].
  { intros a Ha. apply Hothers. rewrite !in_app_iff. auto. }
  assert (P3' : dict_get pair_eqb (pinned_assignments st3) (u, d) = Some c1).
  { unfold st3. rewrite P3. exact P2. }
  destruct (pin_step_second data m dt u d Hu Hd st3 a2 c1 c2 Hm2 Hd2 Hc2 P3' Hneq)
    as [P4 K4].
  destruct (pin_fold_other data m dt u d Hu Hd after st4) as [P5 K5].
  { intros a Ha. apply Hothers. rewrite !in_app_iff. auto. }
  assert (Hpinned : pinned data u d = Some c1).
  { unfold pinned. rewrite Efold, P5. exact P4. }
  assert (Hrecorded :
            filter (existing_conflict_for m dt) (conflicts_before_solve data)
            = [existing_assignment_conflict m dt (sorted [c1; c2])]).
  { rewrite existing_conflicts_come_from_pinning, Efold, K5.
    fold st4. unfold st4. rewrite K4. fold st3. unfold st3. rewrite K3.
    fold st2. unfold st2. rewrite K2. fold st1. unfold st1. rewrite K1. reflexivity. }
  split; [|split; [exact Hpinned | split; [|split]]].
  - destruct (sorted_pair c1 c2 Hneq) as [x [y [Es [Hlt Hxy]]]].
    exists x, y. rewrite Hrecorded, Es. auto.
  - unfold pinned_equalities. apply in_map_iff.
    exists ((u, d), c1). split; [reflexivity | apply pinned_in_list; exact Hpinned].
  - intros Hin. unfold pinned_equalities in Hin. apply in_map_iff in Hin.
    destruct Hin as [[[u' d'] c'] [E Hin]]. simpl in E. inversion E; subst u' d' c'.
    apply pinned_functional in Hin. congruence.
  - intros sol Hsol. apply (pinned_enforced data sol u d c1 Hsol Hpinned).
Qed.

Lemma duplicate_pin_recorded_once_witness :
  (exists x y,
      filter (existing_conflict_for (user_id entry_off) (date entry_off))
             (conflicts_before_solve request_double_pin)
      = [existing_assignment_conflict (user_id entry_off) (date entry_off) [x; y]]
      /\ String.ltb (shift_name x) (shift_name y) = true
      /\ ((x = OFF /\ y = DAY) \/ (x = DAY /\ y = OFF)))
  /\ pinned request_double_pin 0 0 = Some OFF
  /\ In (CEq (EVar (X 0 0 OFF)) (EConst 1)) (pinned_equalities request_double_pin)
  /\ ~ In (CEq (EVar (X 0 0 DAY)) (EConst 1)) (pinned_equalities request_double_pin)
  /\ forall sol, solved_by request_double_pin sol -> sol (X 0 0 OFF) = 1.
Proof.
  apply (duplicate_pin_recorded_once request_double_pin [] entry_off [] entry_day []
           0%nat 0%nat OFF DAY).
  - reflexivity.
  - reflexivity.
  - reflexivity.
  - reflexivity.
  - reflexivity.
  - reflexivity.
  - reflexivity.
  - discriminate.
  - intros a H. destruct H.
Defined.

Lemma request_double_pin_solved :
  solved_by request_double_pin answer_double_pin.
Proof. vm_compute. reflexivity. Qed.

(** ** Counting pinned assignments *)

Lemma day_code_eqb_eq : forall a b, day_code_eqb a b = true <-> a = b.
Proof.
  intros [a1 a2] [b1 b2]. unfold day_code_eqb. simpl.
  rewrite andb_true_iff, Nat.eqb_eq, shift_eqb_eq. split.
  - intros [-> ->]. reflexivity.
  - intros E. inversion E. auto.
Qed.

Lemma count_if_ext :
  forall (A : Type) (p q : A -> bool) l,
    (forall a, In a l -> p a = q a) -> count_if p l = count_if q l.
Proof.
  intros A p q l H. unfold count_if. f_equal. f_equal. apply filter_ext_in. exact H.
Qed.

Lemma count_if_one_more :
  forall (p q : nat -> bool) l u0,
    NoDup l -> In u0 l ->
    p u0 = false -> q u0 = true ->
    (forall u, u <> u0 -> q u = p u) ->
    count_if q l = count_if p l + 1.
Proof.
  intros p q l u0 Hnd. induction Hnd as [|a l Hnotin Hnd IH]; intros Hin Hp Hq Hrest.
  - destruct Hin.
  - unfold count_if in *. simpl. destruct (Nat.eq_dec a u0) as [-> | Hne].
    + rewrite Hp, Hq. simpl length.
      rewrite (filter_ext_in q p l).
      * lia.
      * intros u Hu. apply Hrest. intros ->. contradiction.
    + rewrite (Hrest a Hne). destruct Hin as [E | Hin]; [contradiction|].
      specialize (IH Hin Hp Hq Hrest). destruct (p a); simpl length; lia.
Qed.

Lemma pin_step_counts :
  forall data st a, counts_agree data st -> counts_agree data (pin_step data st a).
Proof.
  intros data st a Hst. unfold pin_step.
  destruct (dict_get Z.eqb (member_index data) (user_id a)) as [u0|] eqn:Eu; [|exact Hst].
  destruct (dict_get Z.eqb (day_index data) (date a)) as [d0|]; [|exact Hst].
  destruct (shift_of_string (upper (shift_code a))) as [c|]; [|exact Hst].
  destruct (dict_get pair_eqb (pinned_assignments st) (u0, d0)) as [held|] eqn:Efree;
    [exact Hst|].
  destruct (member_index_sound data _ _ Eu) as [Hu0 _].
  intros d s Hs. simpl.
  assert (Hget : forall u,
             dict_get pair_eqb (dict_set pair_eqb (pinned_assignments st) (u0, d0) c) (u, d)
             = if pair_eqb (u, d) (u0, d0) then Some c
               else dict_get pair_eqb (pinned_assignments st) (u, d)).
  { intros u. apply (dict_get_set _ _ pair_eqb pair_eqb_eq). }
  destruct (day_code_eqb (d, s) (d0, c)) eqn:Eds.
  - apply day_code_eqb_eq in Eds. inversion Eds; subst d0 c. rewrite Hs.
    rewrite (dict_get_set _ _ day_code_eqb day_code_eqb_eq).
    assert (Er : day_code_eqb (d, s) (d, s) = true) by (apply day_code_eqb_eq; reflexivity).
    rewrite Er, (Hst d s Hs). symmetry.
    apply (count_if_one_more _ _ _ u0).
    + apply seq_NoDup.
    + apply in_range. exact Hu0.
    + rewrite Efree. reflexivity.
    + rewrite Hget.
      assert (Ek : pair_eqb (u0, d) (u0, d) = true) by (apply pair_eqb_eq; reflexivity).
      rewrite Ek. simpl. apply shift_eqb_refl.
    + intros u Hne. rewrite Hget.
      destruct (pair_eqb (u, d) (u0, d)) eqn:Ek; [|reflexivity].
      apply pair_eqb_eq in Ek. inversion Ek. contradiction.
  - assert (Hfixed :
              match dict_get day_code_eqb
                      (if is_work c
                       then dict_set day_code_eqb (fixed_requirements st) (d0, c)
                              (match dict_get day_code_eqb (fixed_requirements st) (d0, c) with
                               | Some n => n
                               | None => 0
                               end + 1)
                       else fixed_requirements st) (d, s) with
              | Some n => n
              | None => 0
              end
              = match dict_get day_code_eqb (fixed_requirements st) (d, s) with
                | Some n => n
                | None => 0
                end).
    { destruct (is_work c); [|reflexivity].
      rewrite (dict_get_set _ _ day_code_eqb day_code_eqb_eq), Eds. reflexivity. }
    rewrite Hfixed, (Hst d s Hs). apply count_if_ext. intros u _. rewrite Hget.
    destruct (pair_eqb (u, d) (u0, d0)) eqn:Ek; [|reflexivity].
    apply pair_eqb_eq in Ek. inversion Ek; subst u d. rewrite Efree. simpl.
    destruct (shift_eqb c s) eqn:Ecs; [|reflexivity].
    apply shift_eqb_eq in Ecs. subst c.
    assert (day_code_eqb (d0, s) (d0, s) = true) by (apply day_code_eqb_eq; reflexivity).
    congruence.
Qed.

(** [fixed_requirements] counts, for every day and work code, the members
    pinned to that code on that day. *)
Lemma fixed_is_pinned_count :
  forall data d s, is_work s = true -> fixed data d s = pinned_count data d s.
Proof.
  intros data d s Hs. unfold fixed, pinned_count, pinned_is, pinned, pin_existing.
  set (init := {| pinned_assignments := []; fixed_requirements := []; pin_conflicts := [] |}).
  assert (Hgen : forall l st, counts_agree data st ->
                              counts_agree data (fold_left (pin_step data) l st)).
  { induction l as [|a l IH]; intros st Hst; simpl; [exact Hst|].
    apply IH. apply pin_step_counts. exact Hst. }
  assert (Hinit : counts_agree data init).
  { intros d' s' _. simpl. unfold count_if. rewrite (filter_none _ _ _); [reflexivity|].
    intros; reflexivity. }
  exact (Hgen (existing_assignments data) init Hinit d s Hs).
Qed.

(** ** Coverage *)

Lemma is_work_in : forall s, is_work s = true <-> In s WORK_SHIFT_CODES.
Proof.
  intros s. unfold WORK_SHIFT_CODES. simpl. destruct s; simpl; split; intro H;
    try reflexivity; try discriminate; try tauto;
    repeat (destruct H as [H | H]; try discriminate H); try contradiction.
Qed.

Lemma in_day_code_pairs :
  forall data d s,
    In (d, s) (day_code_pairs data) <-> (d < num_days data)%nat /\ is_work s = true.
Proof.
  intros data d s. unfold day_code_pairs. rewrite in_flat_map. split.
  - intros [d' [Hd' Hin]]. apply in_map_iff in Hin. destruct Hin as [s' [E Hs']].
    inversion E; subst. split; [apply in_range; exact Hd' | apply is_work_in; exact Hs'].
  - intros [Hd Hs]. exists d. split; [apply in_range; exact Hd|].
    apply in_map_iff. exists s. split; [reflexivity | apply is_work_in; exact Hs].
Qed.

Lemma coverage_in_model :
  forall data d s,
    (d < num_days data)%nat -> is_work s = true ->
    In (if 0 <? per_day_requirements data d s
        then CEq (EAdd (sum_expr data d s) (EVar (Shortage d s)))
                 (EConst (per_day_requirements data d s))
        else CEq (sum_expr data d s) (EConst 0))
       (constraints (model data)).
Proof.
  intros data d s Hd Hs. simpl. rewrite !in_app_iff. right. left.
  unfold coverage. apply in_map_iff. exists (d, s). split; [reflexivity|].
  apply in_day_code_pairs. auto.
Qed.

Lemma shortage_vars_get :
  forall data d s,
    dict_get day_code_eqb (shortage_vars data) (d, s)
    = if existsb (day_code_eqb (d, s)) (day_code_pairs data)
         && (0 <? per_day_requirements data d s)
      then Some (Shortage d s) else None.
Proof.
  intros data d s. unfold shortage_vars.
  induction (day_code_pairs data) as [|ds l IH]; simpl; [reflexivity|].
  destruct (day_code_eqb (d, s) ds) eqn:E.
  - apply day_code_eqb_eq in E. subst ds. simpl.
    destruct (0 <? per_day_requirements data d s) eqn:Er; simpl.
    + assert (Ek : day_code_eqb (d, s) (d, s) = true) by (apply day_code_eqb_eq; reflexivity).
      rewrite Ek. reflexivity.
    + rewrite IH. rewrite andb_false_r. reflexivity.
  - simpl. destruct (0 <? per_day_requirements data (fst ds) (snd ds)); simpl.
    + rewrite E. exact IH.
    + exact IH.
Qed.

Lemma recorded_shortage_value :
  forall data sol d s,
    (d < num_days data)%nat -> is_work s = true ->
    recorded_shortage data sol d s
    = if 0 <? per_day_requirements data d s then sol (Shortage d s) else 0.
Proof.
  intros data sol d s Hd Hs. unfold recorded_shortage. rewrite shortage_vars_get.
  assert (E : existsb (day_code_eqb (d, s)) (day_code_pairs data) = true).
  { apply existsb_exists. exists (d, s). split.
    - apply in_day_code_pairs. auto.
    - apply day_code_eqb_eq. reflexivity. }
  rewrite E. simpl. destruct (0 <? per_day_requirements data d s); reflexivity.
Qed.

Lemma shortage_declared :
  forall data d s,
    (d < num_days data)%nat -> is_work s = true ->
    0 < per_day_requirements data d s ->
    In ((d, s), Shortage d s) (shortage_vars data)
    /\ In (Shortage d s, (0, per_day_requirements data d s)) (variables (model data)).
Proof.
  intros data d s Hd Hs Hpos.
  assert (Hin : In ((d, s), Shortage d s) (shortage_vars data)).
  { unfold shortage_vars. apply in_flat_map. exists (d, s).
    split; [apply in_day_code_pairs; auto|]. simpl.
    apply Z.ltb_lt in Hpos. rewrite Hpos. left. reflexivity. }
  split; [exact Hin|].
  simpl. rewrite !in_app_iff. right. left.
  unfold shortage_variables. apply in_map_iff. exists ((d, s), Shortage d s).
  split; [reflexivity | exact Hin].
Qed.

Lemma sum_of_indicators :
  forall (f : nat -> Z) l,
    (forall u, In u l -> f u = 0 \/ f u = 1) ->
    zsum (map f l) = count_if (fun u => f u =? 1) l.
Proof.
  intros f l. induction l as [|u l IH]; intros H.
  - reflexivity.
  - cbn [map]. rewrite zsum_cons. unfold count_if in *. cbn [filter].
    rewrite IH by (intros v Hv; apply H; right; exact Hv).
    destruct (H u (or_introl eq_refl)) as [E | E]; rewrite E.
    + change (0 =? 1) with false. lia.
    + change (1 =? 1) with true. cbn [length]. lia.
Qed.

Lemma sum_expr_counts :
  forall data sol d s,
    solved_by data sol -> (d < num_days data)%nat ->
    eval sol (sum_expr data d s) = assigned_count data sol d s.
Proof.
  intros data sol d s Hsol Hd. unfold sum_expr, assigned_count.
  rewrite eval_esum, map_map. cbn [eval].
  apply (sum_of_indicators (fun u => sol (X u d s))).
  intros u Hu. apply in_range in Hu. apply (x_is_bool data sol u d s Hsol Hu Hd).
Qed.

Lemma pinned_count_nonneg : forall data d s, 0 <= pinned_count data d s.
Proof. intros. unfold pinned_count, count_if. lia. Qed.

Lemma day_requirements_value :
  forall data d s,
    is_work s = true ->
    day_requirements data d s
    = if after_cutoff data d then pinned_count data d s
      else Z.max (required_per_shift data s) (pinned_count data d s).
Proof.
  intros data d s Hs. unfold day_requirements. rewrite (fixed_is_pinned_count data d s Hs).
  pose proof (pinned_count_nonneg data d s).
  destruct (after_cutoff data d); [lia | reflexivity].
Qed.

Lemma day_target_bounds :
  forall data d,
    after_cutoff data d = false ->
    day_requirements data d DAY <= day_target data d
    <= Z.max (desired_day_headcount data) (day_requirements data d DAY).
Proof.
  intros data d Hgen.
  assert (Hother : 0 <= required_other data d).
  { unfold required_other. cbn [filter WORK_SHIFT_CODES shift_eqb negb map].
    rewrite !zsum_cons, zsum_nil.
    rewrite !day_requirements_value by reflexivity. rewrite Hgen.
    pose proof (pinned_count_nonneg data d EARLY).
    pose proof (pinned_count_nonneg data d LATE).
    pose proof (pinned_count_nonneg data d NIGHT). lia. }
  unfold day_target, remaining_capacity, max_day_capacity.
  destruct (Z.of_nat (num_members data) - required_other data d <? day_requirements data d DAY)
    eqn:E.
  - lia.
  - apply Z.ltb_ge in E. lia.
Qed.

Lemma day_in_allowed_set :
  forall data u,
    mem_shift DAY (allowed_shift_sets data u)
    = match allowed_shift_codes (member_at data u) with
      | None => true
      | Some codes => mem_shift DAY codes
      end.
Proof.
  intros data u. unfold allowed_shift_sets.
  destruct (allowed_shift_codes (member_at data u)) as [codes|]; [|reflexivity].
  unfold mem_shift. rewrite existsb_app.
  change (existsb (shift_eqb DAY) [OFF; NIGHT_AFTER]) with false.
  rewrite orb_false_r.
  induction codes as [|c codes IH]; [reflexivity|].
  cbn [filter]. replace (existsb (shift_eqb c) SHIFT_CODES) with true
    by (destruct c; reflexivity).
  cbn [existsb]. rewrite IH. reflexivity.
Qed.

Lemma required_other_value :
  forall data d,
    after_cutoff data d = false ->
    required_other data d = other_codes_required data d.
Proof.
  intros data d Hgen. unfold required_other, other_codes_required.
  cbn [filter WORK_SHIFT_CODES shift_eqb negb map].
  rewrite !zsum_cons, zsum_nil.
  rewrite !day_requirements_value by reflexivity. rewrite Hgen. lia.
Qed.

Lemma other_codes_required_nonneg : forall data d, 0 <= other_codes_required data d.
Proof.
  intros data d. unfold other_codes_required.
  pose proof (pinned_count_nonneg data d EARLY).
  pose proof (pinned_count_nonneg data d LATE).
  pose proof (pinned_count_nonneg data d NIGHT). lia.
Qed.

(** On a generation day the DAY target is the requirement raised toward the
    desired headcount, as far as the members left over by the other codes and
    the members who can take DAY allow. *)
Lemma day_target_value :
  forall data d,
    after_cutoff data d = false ->
    day_target data d
    = Z.max (Z.max (required_per_shift data DAY) (pinned_count data d DAY))
            (Z.min (Z.min (desired_day_headcount data)
                          (Z.of_nat (num_members data) - other_codes_required data d))
                   (pinned_count data d DAY + free_for_day data d)).
Proof.
  intros data d Hgen.
  pose proof (other_codes_required_nonneg data d) as Hother.
  assert (Hflex : flexible_day_capacity data d = free_for_day data d).
  { unfold flexible_day_capacity, free_for_day. apply count_if_ext. intros u _.
    destruct (pinned data u d); [reflexivity | apply day_in_allowed_set]. }
  unfold day_target, remaining_capacity, max_day_capacity.
  rewrite (required_other_value data d Hgen), Hflex.
  rewrite day_requirements_value, Hgen by reflexivity.
  change (fixed_day_assignments data d) with (pinned_count data d DAY).
  destruct (Z.of_nat (num_members data) - other_codes_required data d
            <? Z.max (required_per_shift data DAY) (pinned_count data d DAY)) eqn:E.
  - apply Z.ltb_lt in E. lia.
  - apply Z.ltb_ge in E. lia.
Qed.

Lemma per_day_requirement_cases :
  forall data d s,
    is_work s = true ->
    (after_cutoff data d = true ->
       per_day_requirements data d s = pinned_count data d s)
    /\ (after_cutoff data d = false -> s <> DAY ->
          per_day_requirements data d s
          = Z.max (required_per_shift data s) (pinned_count data d s))
    /\ (after_cutoff data d = false -> s = DAY ->
          per_day_requirements data d s
          = Z.max (Z.max (required_per_shift data DAY) (pinned_count data d DAY))
                  (Z.min (Z.min (desired_day_headcount data)
                                (Z.of_nat (num_members data) - other_codes_required data d))
                         (pinned_count data d DAY + free_for_day data d))).
Proof.
  intros data d s Hs. unfold per_day_requirements. split; [|split].
  - intros Hc. rewrite Hc, andb_false_r. rewrite day_requirements_value, Hc by exact Hs.
    reflexivity.
  - intros Hc Hne. apply shift_eqb_neq in Hne. rewrite Hne. simpl.
    rewrite day_requirements_value, Hc by exact Hs. reflexivity.
  - intros Hc ->. rewrite Hc. simpl. apply day_target_value. exact Hc.
Qed.

Lemma desired_day_headcount_value :
  forall data,
    required_per_shift data DAY <= desired_day_headcount data
    /\ forall z,
         desired_day_headcount_raw (constraints_of data) = RInt z ->
         desired_day_headcount data
         = Z.max (required_per_shift data DAY) (Z.min z (Z.of_nat (num_members data))).
Proof.
  intros data. unfold desired_day_headcount, base_day_required. split; [lia|].
  intros z Hz. rewrite Hz. reflexivity.
Qed.

(** C3. For every solved output, every day [d] and every work code [s], the
    number of members whose [(d, s)] indicator solved to 1 plus the shortage
    recorded for [(d, s)] equals the effective requirement; a positive
    shortage is the one the summary reports.  On a carry-over day the
    requirement is the number of pinned assignments of [s] on [d]; on a
    generation day it is the larger of the base target and that number, and
    for DAY it is raised from there to the desired headcount, as far as the
    members left over by the other codes' requirements and the members who can
    take DAY (pinned to it, or unpinned with DAY allowed) reach.  The desired
    headcount is the configured one, kept between the base DAY target and the
    number of members. *)
Theorem coverage_plus_shortage_is_requirement :
  forall data sol status d s,
    solved_by data sol ->
    (d < num_days data)%nat ->
    is_work s = true ->
    assigned_count data sol d s + recorded_shortage data sol d s
    = per_day_requirements data d s
    /\ 0 <= recorded_shortage data sol d s
    /\ (0 < recorded_shortage data sol d s ->
          In {| shortage_date := day_at data d; shortage_code := s;
                missing := recorded_shortage data sol d s |}
             (shortages (summary (solved_output data sol status))))
    /\ (after_cutoff data d = true ->
          per_day_requirements data d s = pinned_count data d s)
    /\ (after_cutoff data d = false -> s <> DAY ->
          per_day_requirements data d s
          = Z.max (required_per_shift data s) (pinned_count data d s))
    /\ (after_cutoff data d = false -> s = DAY ->
          per_day_requirements data d s
          = Z.max (Z.max (required_per_shift data DAY) (pinned_count data d DAY))
                  (Z.min (Z.min (desired_day_headcount data)
                                (Z.of_nat (num_members data) - other_codes_required data d))
                         (pinned_count data d DAY + free_for_day data d)))
    /\ required_per_shift data DAY <= desired_day_headcount data
    /\ (forall z,
          desired_day_headcount_raw (constraints_of data) = RInt z ->
          desired_day_headcount data
          = Z.max (required_per_shift data DAY) (Z.min z (Z.of_nat (num_members data)))).
Proof.
  intros data sol status d s Hsol Hd Hs.
  pose proof (feasible_holds _ _ _ Hsol (coverage_in_model data d s Hd Hs)) as Hcov.
  pose proof (recorded_shortage_value data sol d s Hd Hs) as Hrec.
  destruct (per_day_requirement_cases data d s Hs) as [Hcarry [Hother Hday]].
  destruct (desired_day_headcount_value data) as [Hdes Hdesz].
  assert (Hsum : assigned_count data sol d s + recorded_shortage data sol d s
                 = per_day_requirements data d s
                 /\ 0 <= recorded_shortage data sol d s
                 /\ (0 < recorded_shortage data sol d s ->
                     In {| shortage_date := day_at data d; shortage_code := s;
                           missing := recorded_shortage data sol d s |}
                        (shortages (summary (solved_output data sol status))))).
  { destruct (0 <? per_day_requirements data d s) eqn:Epos.
    - apply Z.ltb_lt in Epos.
      destruct (shortage_declared data d s Hd Hs Epos) as [Hvar Hdecl].
      pose proof (feasible_domain _ _ _ _ _ Hsol Hdecl) as Hdom.
      cbn [holds eval] in Hcov. apply Z.eqb_eq in Hcov.
      rewrite (sum_expr_counts data sol d s Hsol Hd) in Hcov.
      rewrite Hrec. split; [exact Hcov|]. split; [lia|].
      intros Hpositive. simpl. unfold reported_shortages. apply in_flat_map.
      exists ((d, s), Shortage d s). split; [exact Hvar|]. simpl.
      apply Z.ltb_lt in Hpositive. rewrite Hpositive. left. reflexivity.
    - apply Z.ltb_ge in Epos.
      cbn [holds eval] in Hcov. apply Z.eqb_eq in Hcov.
      rewrite (sum_expr_counts data sol d s Hsol Hd) in Hcov.
      rewrite Hrec.
      assert (Hnonneg : 0 <= per_day_requirements data d s).
      { destruct (after_cutoff data d) eqn:Ecut.
        - rewrite (Hcarry eq_refl). apply pinned_count_nonneg.
        - pose proof (pinned_count_nonneg data d s).
          destruct (shift_eqb s DAY) eqn:Es.
          + apply shift_eqb_eq in Es. rewrite (Hday eq_refl Es). subst s. lia.
          + apply shift_eqb_neq in Es. rewrite (Hother eq_refl Es). lia. }
      split; [lia|]. split; lia. }
  destruct Hsum as [H1 [H2 H3]].
  repeat split; auto; try lia.
Qed.

Lemma coverage_plus_shortage_is_requirement_witness :
  assigned_count request_desired_headcount answer_desired_headcount 0 DAY
  + recorded_shortage request_desired_headcount answer_desired_headcount 0 DAY
  = per_day_requirements request_desired_headcount 0 DAY
  /\ 0 <= recorded_shortage request_desired_headcount answer_desired_headcount 0 DAY
  /\ (0 < recorded_shortage request_desired_headcount answer_desired_headcount 0 DAY ->
        In {| shortage_date := day_at request_desired_headcount 0; shortage_code := DAY;
              missing := recorded_shortage request_desired_headcount
                           answer_desired_headcount 0 DAY |}
           (shortages (summary (solved_output request_desired_headcount
                                  answer_desired_headcount OPTIMAL))))
  /\ (after_cutoff request_desired_headcount 0 = true ->
        per_day_requirements request_desired_headcount 0 DAY
        = pinned_count request_desired_headcount 0 DAY)
  /\ (after_cutoff request_desired_headcount 0 = false -> DAY <> DAY ->
        per_day_requirements request_desired_headcount 0 DAY
        = Z.max (required_per_shift request_desired_headcount DAY)
                (pinned_count request_desired_headcount 0 DAY))
  /\ (after_cutoff request_desired_headcount 0 = false -> DAY = DAY ->
        per_day_requirements request_desired_headcount 0 DAY
        = Z.max (Z.max (required_per_shift request_desired_headcount DAY)
                       (pinned_count request_desired_headcount 0 DAY))
                (Z.min (Z.min (desired_day_headcount request_desired_headcount)
                              (Z.of_nat (num_members request_desired_headcount)
                               - other_codes_required request_desired_headcount 0))
                       (pinned_count request_desired_headcount 0 DAY
                        + free_for_day request_desired_headcount 0)))
  /\ required_per_shift request_desired_headcount DAY
     <= desired_day_headcount request_desired_headcount
  /\ (forall z,
        desired_day_headcount_raw (constraints_of request_desired_headcount) = RInt z ->
        desired_day_headcount request_desired_headcount
        = Z.max (required_per_shift request_desired_headcount DAY)
                (Z.min z (Z.of_nat (num_members request_desired_headcount)))).
Proof.
  apply (coverage_plus_shortage_is_requirement request_desired_headcount
           answer_desired_headcount OPTIMAL 0%nat DAY).
  - vm_compute. reflexivity.
  - vm_compute. lia.
  - reflexivity.
Defined.

(** On that request the base DAY target is 1, the desired headcount 2, and
    both members can take DAY: the requirement is raised to 2, and the answer
    with one member on DAY is one short of it. *)
Example day_requirement_is_raised :
  required_per_shift request_desired_headcount DAY = 1
  /\ desired_day_headcount request_desired_headcount = 2
  /\ per_day_requirements request_desired_headcount 0 DAY = 2
  /\ assigned_count request_desired_headcount answer_desired_headcount 0 DAY = 1
  /\ shortages (summary (solved_output request_desired_headcount
                           answer_desired_headcount OPTIMAL))
     = [{| shortage_date := sep01; shortage_code := DAY; missing := 1 |}].
Proof. repeat split; vm_compute; reflexivity. Qed.

(** ** A recorded run over the cap leaves no solution *)

Lemma scan_pinned_run_finds :
  forall data u cap n a run0,
    (run0 <= a)%nat ->
    (forall i, (a - run0 <= i < a)%nat ->
               exists c, pinned data u i = Some c /\ is_work c = true) ->
    scan_pinned_run data u cap (seq a n) run0 <> [] ->
    exists d run,
      (a <= d < a + n)%nat /\ cap < Z.of_nat run /\ (run <= d + 1)%nat
      /\ forall i, (d + 1 - run <= i <= d)%nat ->
                   exists c, pinned data u i = Some c /\ is_work c = true.
Proof.
  intros data u cap n. induction n as [|n IH]; intros a run0 Hle Hrun H; simpl in H;
    [contradiction|].
  set (run := match pinned data u a with
              | Some pinned_code => if is_work pinned_code then S run0 else 0%nat
              | None => 0%nat
              end) in *.
  assert (Hrun' : (run <= a + 1)%nat
                  /\ forall i, (a + 1 - run <= i <= a)%nat ->
                               exists c, pinned data u i = Some c /\ is_work c = true).
  { unfold run. destruct (pinned data u a) as [c|] eqn:Ea.
    - destruct (is_work c) eqn:Ew.
      + split; [lia|]. intros i Hi. destruct (Nat.eq_dec i a) as [-> | Hne].
        * exists c. auto.
        * apply Hrun. lia.
      + split; [lia|]. intros i Hi. lia.
    - split; [lia|]. intros i Hi. lia. }
  destruct Hrun' as [Hle' Hwork'].
  destruct (cap <? Z.of_nat run) eqn:Ecap.
  - exists a, run. apply Z.ltb_lt in Ecap. repeat split; try lia. exact Hwork'.
  - destruct (IH (S a) run) as [d [r [Hd [Hc [Hr Hw]]]]].
    + lia.
    + intros i Hi. apply Hwork'. lia.
    + exact H.
    + exists d, r. repeat split; try lia. exact Hw.
Qed.

Lemma zsum_at_least :
  forall (A : Type) (f : A -> Z) l,
    (forall a, In a l -> 1 <= f a) -> Z.of_nat (length l) <= zsum (map f l).
Proof.
  intros A f l. induction l as [|a l IH]; intros H.
  - reflexivity.
  - cbn [map length]. rewrite zsum_cons.
    pose proof (H a (or_introl eq_refl)).
    assert (Z.of_nat (length l) <= zsum (map f l)) by (apply IH; intros; apply H; right; auto).
    lia.
Qed.

Lemma work_flag_counts_pinned_work :
  forall data sol u d c cap,
    solved_by data sol ->
    (u < num_members data)%nat -> (d < num_days data)%nat ->
    max_consecutive_workdays data = Some cap ->
    pinned data u d = Some c -> is_work c = true ->
    1 <= sol (WorkFlag u d).
Proof.
  intros data sol u d c cap Hsol Hu Hd Hcap Hpin Hwork.
  assert (Hin : In (CEq (EVar (WorkFlag u d)) (x_over_codes u d WORK_SHIFT_CODES))
                   (constraints (model data))).
  { apply (member_constraint_in_model data u); [exact Hu|].
    rewrite fst_member_rules, !in_app_iff. right. right. left.
    unfold consecutive_rule. rewrite Hcap. simpl. apply in_or_app. left.
    unfold work_flag_definitions. apply in_map_iff. exists d.
    split; [reflexivity | apply in_range; exact Hd]. }
  pose proof (feasible_holds _ _ _ Hsol Hin) as E. cbn in E. apply Z.eqb_eq in E.
  pose proof (pinned_enforced data sol u d c Hsol Hpin) as Hone.
  pose proof (x_is_bool data sol u d EARLY Hsol Hu Hd).
  pose proof (x_is_bool data sol u d DAY Hsol Hu Hd).
  pose proof (x_is_bool data sol u d LATE Hsol Hu Hd).
  pose proof (x_is_bool data sol u d NIGHT Hsol Hu Hd).
  destruct c; try discriminate Hwork; lia.
Qed.

Lemma firstn_seq_prefix :
  forall w a n, (w <= n)%nat -> firstn w (seq a n) = seq a w.
Proof.
  induction w as [|w IH]; intros a n H; [reflexivity|].
  destruct n as [|n]; [lia|]. simpl. f_equal. apply IH. lia.
Qed.

Lemma slice_of_seq :
  forall s w a n,
    (s + w <= n)%nat -> firstn w (skipn s (seq a n)) = seq (a + s) w.
Proof.
  induction s as [|s IH]; intros w a n H.
  - simpl. rewrite Nat.add_0_r. apply firstn_seq_prefix. lia.
  - destruct n as [|n]; [lia|]. simpl. rewrite IH by lia. f_equal. lia.
Qed.

(** Whenever the scan records a max_consecutive_workdays_conflict for a
    member, the window constraint over the pinned run is in the model as well,
    and the model has no solution. *)
Lemma recorded_run_conflict_unsolvable :
  forall data u cap,
    (u < num_members data)%nat ->
    max_consecutive_workdays data = Some cap ->
    scan_pinned_run data u cap (range (num_days data)) 0 <> [] ->
    forall sol, feasibleb (model data) sol = false.
Proof.
  intros data u cap Hu Hcap Hscan sol.
  destruct (feasibleb (model data) sol) eqn:Hsol; [exfalso | reflexivity].
  destruct (scan_pinned_run_finds data u cap (num_days data) 0 0) as [d [run [Hd [Hc [Hr Hw]]]]].
  - lia.
  - intros i Hi. lia.
  - exact Hscan.
  - assert (Hcap0 : 0 <= cap).
    { unfold max_consecutive_workdays, resolve_max_consecutive in Hcap.
      destruct (max_consecutive_workdays_raw (constraints_of data)) as [|z|];
        try discriminate.
      destruct (0 <? z) eqn:Ez; [|discriminate].
      apply Z.ltb_lt in Ez. inversion Hcap. lia. }
    set (window := Z.to_nat (cap + 1)).
    set (start := (d - Z.to_nat cap)%nat).
    assert (Hwin : (window <= num_days data)%nat) by (unfold window; lia).
    assert (Hstart : (start + window <= num_days data)%nat) by (unfold start, window; lia).
    assert (Hin : In (CLe (esum (map EVar (firstn window (skipn start (work_day_flags data u)))))
                          (EConst cap))
                     (constraints (model data))).
    { apply (member_constraint_in_model data u); [exact Hu|].
      rewrite fst_member_rules, !in_app_iff. right. right. left.
      unfold consecutive_rule. rewrite Hcap. simpl. apply in_or_app. right.
      unfold window_constraints. fold window.
      apply Nat.leb_le in Hwin. rewrite Hwin.
      apply in_map_iff. exists start. split; [reflexivity|].
      apply in_range. unfold start. lia. }
    pose proof (feasible_holds _ _ _ Hsol Hin) as Hle. cbn [holds eval] in Hle.
    apply Z.leb_le in Hle. rewrite eval_esum, map_map in Hle. cbn [eval] in Hle.
    assert (Hslice : firstn window (skipn start (work_day_flags data u))
                     = map (WorkFlag u) (seq start window)).
    { unfold work_day_flags, range. rewrite skipn_map, firstn_map.
      rewrite slice_of_seq by exact Hstart. reflexivity. }
    rewrite Hslice in Hle.
    assert (Hsum : Z.of_nat (length (map (WorkFlag u) (seq start window)))
                   <= zsum (map (fun v => sol v) (map (WorkFlag u) (seq start window)))).
    { apply zsum_at_least. intros v Hv. apply in_map_iff in Hv.
      destruct Hv as [i [<- Hi]]. apply in_seq in Hi.
      destruct (Hw i) as [c [Hpin Hwork]]; [unfold start, window in *; lia|].
      apply (work_flag_counts_pinned_work data sol u i c cap); auto.
      lia. }
    rewrite length_map, length_seq in Hsum. unfold window in Hsum, Hle. lia.
Qed.


(** ** The builder and the formatter on whole requests *)

(** Scenario A: one DAY assignment for the member, no conflict, status optimal. *)
Example scenario_a_output :
  solved_by request_single_day answer_single_day
  /\ build_model (answers answer_single_day) request_single_day
     = Printed
         {| assignments := [{| entry_date := sep01; shifts := [(DAY, One 10)] |}];
            summary :=
              {| status_label := "optimal";
                 work_days := [(10, 1)];
                 off_days := [(10, 0)];
                 nights := [(10, 0)];
                 shift_breakdown := [(EARLY, 0); (DAY, 1); (LATE, 0); (NIGHT, 0)];
                 shortages := [];
                 day_capacity_shortfalls := [];
                 constraint_conflicts := [] |} |}.
Proof. split; vm_compute; reflexivity. Qed.

(** Past the cutoff the schedule keeps NIGHT_AFTER and OFF only where they
    complete the rest of a NIGHT: member 11's OFF on the second day is dropped. *)
Example carry_over_output :
  solved_by request_carry_over answer_carry_over
  /\ answer_carry_over (X 1 1 OFF) = 1
  /\ assignments (solved_output request_carry_over answer_carry_over OPTIMAL)
     = [{| entry_date := sep01; shifts := [(NIGHT, One 10); (OFF, One 11)] |};
        {| entry_date := sep02; shifts := [(NIGHT_AFTER, One 10)] |};
        {| entry_date := sep03; shifts := [(OFF, One 10)] |}].
Proof. repeat split; vm_compute; reflexivity. Qed.

(** An empty roster or horizon is the one fatal outcome of [build_model]. *)
Lemma empty_request_is_fatal :
  forall solve data,
    members data = [] \/ days data = [] ->
    build_model solve data = SystemExit "Members or days are empty".
Proof.
  intros solve data H. unfold build_model, num_members, num_days.
  destruct H as [-> | ->]; simpl; [reflexivity|].
  rewrite orb_true_r. reflexivity.
Qed.

(** ** One shift code per member and day *)

Lemma single_assignment_in_model :
  forall data u d,
    (u < num_members data)%nat -> (d < num_days data)%nat ->
    In (if after_cutoff data d
        then CLe (x_over_codes u d SHIFT_CODES) (EConst 1)
        else CEq (x_over_codes u d SHIFT_CODES) (EConst 1))
       (constraints (model data)).
Proof.
  intros data u d Hu Hd. simpl. apply in_or_app. left.
  unfold single_assignment. apply in_flat_map. exists u.
  split; [apply in_range; exact Hu|].
  apply in_map_iff. exists d. split; [reflexivity | apply in_range; exact Hd].
Qed.

Lemma codes_sum_at_most_one :
  forall data sol u d,
    solved_by data sol ->
    (u < num_members data)%nat -> (d < num_days data)%nat ->
    sol (X u d EARLY) + sol (X u d DAY) + sol (X u d LATE) + sol (X u d NIGHT)
    + sol (X u d NIGHT_AFTER) + sol (X u d OFF) <= 1
    /\ (after_cutoff data d = false ->
        sol (X u d EARLY) + sol (X u d DAY) + sol (X u d LATE) + sol (X u d NIGHT)
        + sol (X u d NIGHT_AFTER) + sol (X u d OFF) = 1).
Proof.
  intros data sol u d Hsol Hu Hd.
  pose proof (feasible_holds _ _ _ Hsol (single_assignment_in_model data u d Hu Hd)) as H.
  destruct (after_cutoff data d); cbn in H.
  - apply Z.leb_le in H. split; [lia | discriminate].
  - apply Z.eqb_eq in H. split; [lia | intros _; lia].
Qed.

(** X1. In every solved output each member holds exactly one shift code on
    every generation day and at most one on every carry-over day. *)
Theorem one_code_per_member_and_day :
  forall data sol u d,
    solved_by data sol ->
    (u < num_members data)%nat ->
    (d < num_days data)%nat ->
    (forall s s', sol (X u d s) = 1 -> sol (X u d s') = 1 -> s = s')
    /\ (after_cutoff data d = false -> exists s, sol (X u d s) = 1).
Proof.
  intros data sol u d Hsol Hu Hd.
  destruct (codes_sum_at_most_one data sol u d Hsol Hu Hd) as [Hle Heq].
  pose proof (x_is_bool data sol u d EARLY Hsol Hu Hd) as B1.
  pose proof (x_is_bool data sol u d DAY Hsol Hu Hd) as B2.
  pose proof (x_is_bool data sol u d LATE Hsol Hu Hd) as B3.
  pose proof (x_is_bool data sol u d NIGHT Hsol Hu Hd) as B4.
  pose proof (x_is_bool data sol u d NIGHT_AFTER Hsol Hu Hd) as B5.
  pose proof (x_is_bool data sol u d OFF Hsol Hu Hd) as B6.
  split.
  - intros s s' Hs Hs'. destruct s, s'; try reflexivity; lia.
  - intros Hgen. specialize (Heq Hgen).
    destruct B1 as [B1 | B1]; [|exists EARLY; exact B1].
    destruct B2 as [B2 | B2]; [|exists DAY; exact B2].
    destruct B3 as [B3 | B3]; [|exists LATE; exact B3].
    destruct B4 as [B4 | B4]; [|exists NIGHT; exact B4].
    destruct B5 as [B5 | B5]; [|exists NIGHT_AFTER; exact B5].
    destruct B6 as [B6 | B6]; [|exists OFF; exact B6].
    lia.
Qed.

Lemma one_code_per_member_and_day_witness :
  (forall s s', answer_carry_over (X 1 0 s) = 1 -> answer_carry_over (X 1 0 s') = 1 -> s = s')
  /\ (after_cutoff request_carry_over 0 = false ->
      exists s, answer_carry_over (X 1 0 s) = 1).
Proof.
  apply (one_code_per_member_and_day request_carry_over answer_carry_over 1%nat 0%nat).
  - vm_compute. reflexivity.
  - vm_compute. lia.
  - vm_compute. lia.
Defined.

(** ** Which entry pins a member on a day *)

Lemma pin_step_get :
  forall data st a u d,
    dict_get pair_eqb (pinned_assignments (pin_step data st a)) (u, d)
    = match dict_get pair_eqb (pinned_assignments st) (u, d) with
      | Some code => Some code
      | None => pins data u d a
      end.
Proof.
  intros data st a u d. unfold pin_step, pins.
  destruct (dict_get Z.eqb (member_index data) (user_id a)) as [u'|];
    [|destruct (dict_get pair_eqb (pinned_assignments st) (u, d)); reflexivity].
  destruct (dict_get Z.eqb (day_index data) (date a)) as [d'|];
    [|destruct (dict_get pair_eqb (pinned_assignments st) (u, d)); reflexivity].
  assert (Hkey : pair_eqb (u, d) (u', d') = (Nat.eqb u' u && Nat.eqb d' d)%bool).
  { unfold pair_eqb. simpl. rewrite (Nat.eqb_sym u u'), (Nat.eqb_sym d d'). reflexivity. }
  destruct (shift_of_string (upper (shift_code a))) as [code|].
  - destruct (dict_get pair_eqb (pinned_assignments st) (u', d')) as [held|] eqn:Eheld; simpl.
    + destruct (dict_get pair_eqb (pinned_assignments st) (u, d)) eqn:Ecur; [reflexivity|].
      rewrite <- Hkey. destruct (pair_eqb (u, d) (u', d')) eqn:Ek; [|reflexivity].
      apply pair_eqb_eq in Ek. inversion Ek; subst. congruence.
    + rewrite (dict_get_set _ _ pair_eqb pair_eqb_eq), <- Hkey.
      destruct (pair_eqb (u, d) (u', d')) eqn:Ek.
      * apply pair_eqb_eq in Ek. inversion Ek; subst. rewrite Eheld. reflexivity.
      * destruct (dict_get pair_eqb (pinned_assignments st) (u, d)); reflexivity.
  - destruct (dict_get pair_eqb (pinned_assignments st) (u, d)); [reflexivity|].
    destruct (Nat.eqb u' u && Nat.eqb d' d); reflexivity.
Qed.

Lemma pinned_first_pin :
  forall data u d,
    pinned data u d = first_pin data u d (existing_assignments data).
Proof.
  intros data u d. unfold pinned, pin_existing.
  set (init := {| pinned_assignments := []; fixed_requirements := []; pin_conflicts := [] |}).
  assert (Hgen : forall l st,
             dict_get pair_eqb (pinned_assignments (fold_left (pin_step data) l st)) (u, d)
             = match dict_get pair_eqb (pinned_assignments st) (u, d) with
               | Some code => Some code
               | None => first_pin data u d l
               end).
  { induction l as [|a l IH]; intros st; simpl.
    - destruct (dict_get pair_eqb (pinned_assignments st) (u, d)); reflexivity.
    - rewrite IH, pin_step_get.
      destruct (dict_get pair_eqb (pinned_assignments st) (u, d)); [reflexivity|].
      destruct (pins data u d a); reflexivity. }
  rewrite Hgen. reflexivity.
Qed.

Lemma pins_valid :
  forall data u d a code,
    pins data u d a = Some code ->
    (u < num_members data)%nat /\ (d < num_days data)%nat
    /\ id (member_at data u) = user_id a /\ day_at data d = date a.
Proof.
  intros data u d a code H. unfold pins in H.
  destruct (dict_get Z.eqb (member_index data) (user_id a)) as [u'|] eqn:Eu; [|discriminate].
  destruct (dict_get Z.eqb (day_index data) (date a)) as [d'|] eqn:Ed; [|discriminate].
  destruct (Nat.eqb u' u && Nat.eqb d' d) eqn:E; [|discriminate].
  apply andb_true_iff in E. destruct E as [E1 E2].
  apply Nat.eqb_eq in E1, E2. subst u' d'.
  destruct (member_index_sound data _ _ Eu). destruct (day_index_sound data _ _ Ed). auto.
Qed.

Lemma first_pin_entry :
  forall data u d l code,
    first_pin data u d l = Some code ->
    exists a, In a l /\ pins data u d a = Some code.
Proof.
  intros data u d l code. induction l as [|a l IH]; simpl; [discriminate|].
  destruct (pins data u d a) as [c|] eqn:E.
  - intros H. inversion H; subst. exists a. auto.
  - intros H. destruct (IH H) as [b [Hb Hp]]. exists b. auto.
Qed.

Lemma pinned_valid :
  forall data u d code,
    pinned data u d = Some code ->
    (u < num_members data)%nat /\ (d < num_days data)%nat.
Proof.
  intros data u d code H. rewrite pinned_first_pin in H.
  apply first_pin_entry in H. destruct H as [a [_ H]].
  apply pins_valid in H. tauto.
Qed.

(** X2. The code pinned for a member on a day is the code of the first entry
    of existing_assignments that names a known member, a day of the horizon
    and a valid shift code (in any letter case): later entries never replace
    it, and entries with an unknown member, date or code pin nothing.  A
    pinned code therefore always belongs to a member of the roster and a day
    of the horizon, and to an entry of the request with that member id, date
    and code. *)
Theorem pinned_is_first_valid_entry :
  forall data u d,
    pinned data u d = first_pin data u d (existing_assignments data)
    /\ forall code,
         pinned data u d = Some code ->
         (u < num_members data)%nat /\ (d < num_days data)%nat
         /\ exists a,
              In a (existing_assignments data)
              /\ user_id a = id (member_at data u)
              /\ date a = day_at data d
              /\ shift_of_string (upper (shift_code a)) = Some code.
Proof.
  intros data u d. split; [apply pinned_first_pin|].
  intros code H. rewrite pinned_first_pin in H.
  apply first_pin_entry in H. destruct H as [a [Hin Hp]].
  destruct (pins_valid data u d a code Hp) as [Hu [Hd [Eu Ed]]].
  split; [exact Hu|]. split; [exact Hd|].
  exists a. split; [exact Hin|]. split; [auto|]. split; [auto|].
  unfold pins in Hp.
  destruct (dict_get Z.eqb (member_index data) (user_id a)); [|discriminate].
  destruct (dict_get Z.eqb (day_index data) (date a)); [|discriminate].
  destruct (Nat.eqb n u && Nat.eqb n0 d); [exact Hp | discriminate].
Qed.

(** X3. A pinned assignment is kept in every solved output: the member holds
    the pinned code on that day and no other code. *)
Theorem pinned_assignment_kept :
  forall data sol u d code,
    solved_by data sol ->
    pinned data u d = Some code ->
    sol (X u d code) = 1 /\ forall s, s <> code -> sol (X u d s) = 0.
Proof.
  intros data sol u d code Hsol Hpin.
  destruct (pinned_valid data u d code Hpin) as [Hu Hd].
  pose proof (pinned_enforced data sol u d code Hsol Hpin) as Hone.
  split; [exact Hone|].
  intros s Hne.
  destruct (codes_sum_at_most_one data sol u d Hsol Hu Hd) as [Hle _].
  pose proof (x_is_bool data sol u d EARLY Hsol Hu Hd).
  pose proof (x_is_bool data sol u d DAY Hsol Hu Hd).
  pose proof (x_is_bool data sol u d LATE Hsol Hu Hd).
  pose proof (x_is_bool data sol u d NIGHT Hsol Hu Hd).
  pose proof (x_is_bool data sol u d NIGHT_AFTER Hsol Hu Hd).
  pose proof (x_is_bool data sol u d OFF Hsol Hu Hd).
  destruct code, s; try contradiction; lia.
Qed.

Lemma pinned_assignment_kept_witness :
  answer_double_pin (X 0 0 OFF) = 1
  /\ forall s, s <> OFF -> answer_double_pin (X 0 0 s) = 0.
Proof.
  apply (pinned_assignment_kept request_double_pin answer_double_pin 0%nat 0%nat OFF).
  - vm_compute. reflexivity.
  - reflexivity.
Defined.

(** ** The eligibility filter in solved outputs *)

Lemma filter_all :
  forall (A : Type) (p : A -> bool) l,
    (forall a, p a = true) -> filter p l = l.
Proof.
  intros A p l H. induction l as [|a l IH]; [reflexivity|].
  cbn [filter]. rewrite H, IH. reflexivity.
Qed.

Lemma mem_shift_allowed_set :
  forall data u codes s,
    allowed_shift_codes (member_at data u) = Some codes ->
    is_work s = true ->
    mem_shift s (allowed_shift_sets data u) = mem_shift s codes.
Proof.
  intros data u codes s Hcodes Hs. unfold allowed_shift_sets. rewrite Hcodes.
  rewrite filter_all by (intros c; destruct c; reflexivity).
  unfold mem_shift. rewrite existsb_app.
  assert (Htail : existsb (shift_eqb s) [OFF; NIGHT_AFTER] = false)
    by (destruct s; try discriminate Hs; reflexivity).
  rewrite Htail, orb_false_r. reflexivity.
Qed.

Lemma eligibility_rule_at :
  forall data u d s,
    (d < num_days data)%nat ->
    is_work s = true ->
    mem_shift s (allowed_shift_sets data u) = false ->
    if pinned_is data u d s
    then In (allowed_shift_conflict (id (member_at data u)) (day_at data d) s)
            (snd (eligibility_rule data u))
    else In (CEq (EVar (X u d s)) (EConst 0)) (fst (eligibility_rule data u)).
Proof.
  intros data u d s Hd Hs Hmem.
  assert (Hdis : In s (disallowed_codes data u)).
  { unfold disallowed_codes. apply filter_In. split; [apply is_work_in; exact Hs|].
    rewrite Hmem. reflexivity. }
  assert (Hin : In d (range (num_days data))) by (apply in_range; exact Hd).
  unfold eligibility_rule. destruct (pinned_is data u d s) eqn:E.
  - apply in_snd_for_each. exists d. split; [exact Hin|].
    apply in_snd_for_each. exists s. split; [exact Hdis|]. rewrite E. simpl. auto.
  - apply in_fst_for_each. exists d. split; [exact Hin|].
    apply in_fst_for_each. exists s. split; [exact Hdis|]. rewrite E. simpl. auto.
Qed.

(** X4. In every solved output a member with an explicit allow-list holds a
    work code that the list omits only on days where that code is pinned for
    the member, and for each such day an allowed_shift_conflict naming the
    member, the date and the code is recorded. *)
Theorem work_code_outside_allow_list :
  forall data sol status u d s codes,
    solved_by data sol ->
    (u < num_members data)%nat ->
    (d < num_days data)%nat ->
    allowed_shift_codes (member_at data u) = Some codes ->
    is_work s = true ->
    mem_shift s codes = false ->
    sol (X u d s) = 0
    \/ (pinned data u d = Some s
        /\ In (allowed_shift_conflict (id (member_at data u)) (day_at data d) s)
              (constraint_conflicts (summary (solved_output data sol status)))).
Proof.
  intros data sol status u d s codes Hsol Hu Hd Hcodes Hs Hmem.
  assert (Hset : mem_shift s (allowed_shift_sets data u) = false).
  { rewrite (mem_shift_allowed_set data u codes s Hcodes Hs). exact Hmem. }
  pose proof (eligibility_rule_at data u d s Hd Hs Hset) as Hrule.
  destruct (pinned_is data u d s) eqn:E.
  - right. split; [apply pinned_is_true; exact E|].
    apply recorded_in_solved_output. apply (member_conflict_recorded data u); [exact Hu|].
    rewrite snd_member_rules, !in_app_iff. tauto.
  - left.
    assert (Hin : In (CEq (EVar (X u d s)) (EConst 0)) (constraints (model data))).
    { apply (member_constraint_in_model data u); [exact Hu|].
      rewrite fst_member_rules, !in_app_iff. tauto. }
    pose proof (feasible_holds _ _ _ Hsol Hin) as H0. simpl in H0.
    apply Z.eqb_eq in H0. exact H0.
Qed.

Lemma work_code_outside_allow_list_witness :
  answer_pinned_off_outside_allow_list (X 0 0 EARLY) = 0
  \/ (pinned request_pinned_off_outside_allow_list 0 0 = Some EARLY
      /\ In (allowed_shift_conflict (id (member_at request_pinned_off_outside_allow_list 0))
               (day_at request_pinned_off_outside_allow_list 0) EARLY)
            (constraint_conflicts
               (summary (solved_output request_pinned_off_outside_allow_list
                           answer_pinned_off_outside_allow_list OPTIMAL)))).
Proof.
  apply (work_code_outside_allow_list request_pinned_off_outside_allow_list
           answer_pinned_off_outside_allow_list OPTIMAL 0%nat 0%nat EARLY [DAY]).
  - vm_compute. reflexivity.
  - vm_compute. lia.
  - vm_compute. lia.
  - reflexivity.
  - reflexivity.
  - reflexivity.
Defined.

(** ** Forced days off *)

Lemma fixed_day_off_rule_at :
  forall data u d,
    (d < num_days data)%nat ->
    is_forced_off data u d = true ->
    match pinned data u d with
    | Some code =>
        if shift_eqb code OFF
        then forall c,
               In c (CEq (EVar (X u d OFF)) (EConst 1)
                     :: map (fun code => CEq (EVar (X u d code)) (EConst 0))
                            (filter (fun code => negb (shift_eqb code OFF)) SHIFT_CODES)) ->
               In c (fst (fixed_day_off_rule data u))
        else In (fixed_day_off_conflict (id (member_at data u)) (day_at data d) code)
                (snd (fixed_day_off_rule data u))
    | None =>
        forall c,
          In c (CEq (EVar (X u d OFF)) (EConst 1)
                :: map (fun code => CEq (EVar (X u d code)) (EConst 0))
                       (filter (fun code => negb (shift_eqb code OFF)) SHIFT_CODES)) ->
          In c (fst (fixed_day_off_rule data u))
    end.
Proof.
  intros data u d Hd Hforced.
  assert (Hin : In d (forced_off_days_by_member data u)).
  { unfold forced_off_days_by_member. apply filter_In.
    split; [apply in_range; exact Hd | exact Hforced]. }
  unfold fixed_day_off_rule.
  destruct (pinned data u d) as [code|] eqn:E.
  - destruct (shift_eqb code OFF) eqn:Eoff.
    + intros c Hc. apply in_fst_for_each. exists d. split; [exact Hin|].
      rewrite E, Eoff. exact Hc.
    + apply in_snd_for_each. exists d. split; [exact Hin|].
      rewrite E, Eoff. simpl. auto.
  - intros c Hc. apply in_fst_for_each. exists d. split; [exact Hin|].
    rewrite E. exact Hc.
Qed.

(** X5. On a forced day off of a member (a weekday of the fixed pattern, a
    holiday when holidays are off, or a custom date) every solved output has
    the member on OFF and on no other code, unless another code is pinned for
    that member and day; in that case a fixed_day_off_conflict naming the
    member, the date and the pinned code is recorded and the pinned code is
    the one the member holds. *)
Theorem forced_day_off_respected :
  forall data sol status u d,
    solved_by data sol ->
    (u < num_members data)%nat ->
    (d < num_days data)%nat ->
    is_forced_off data u d = true ->
    (sol (X u d OFF) = 1 /\ forall s, s <> OFF -> sol (X u d s) = 0)
    \/ exists code,
         code <> OFF /\ pinned data u d = Some code /\ sol (X u d code) = 1
         /\ In (fixed_day_off_conflict (id (member_at data u)) (day_at data d) code)
               (constraint_conflicts (summary (solved_output data sol status))).
Proof.
  intros data sol status u d Hsol Hu Hd Hforced.
  pose proof (fixed_day_off_rule_at data u d Hd Hforced) as Hrule.
  assert (Hall : (forall c,
             In c (CEq (EVar (X u d OFF)) (EConst 1)
                   :: map (fun code => CEq (EVar (X u d code)) (EConst 0))
                          (filter (fun code => negb (shift_eqb code OFF)) SHIFT_CODES)) ->
             In c (fst (fixed_day_off_rule data u))) ->
          sol (X u d OFF) = 1 /\ forall s, s <> OFF -> sol (X u d s) = 0).
  { intros Hemit.
    assert (Hholds : forall c,
               In c (CEq (EVar (X u d OFF)) (EConst 1)
                     :: map (fun code => CEq (EVar (X u d code)) (EConst 0))
                            (filter (fun code => negb (shift_eqb code OFF)) SHIFT_CODES)) ->
               holds sol c = true).
    { intros c Hc. apply (feasible_holds _ _ _ Hsol).
      apply (member_constraint_in_model data u); [exact Hu|].
      rewrite fst_member_rules, !in_app_iff. right. left. apply Hemit. exact Hc. }
    split.
    - pose proof (Hholds _ (or_introl eq_refl)) as H1. simpl in H1.
      apply Z.eqb_eq in H1. exact H1.
    - intros s Hs.
      assert (Hin : In (CEq (EVar (X u d s)) (EConst 0))
                       (map (fun code => CEq (EVar (X u d code)) (EConst 0))
                            (filter (fun code => negb (shift_eqb code OFF)) SHIFT_CODES))).
      { apply in_map_iff. exists s. split; [reflexivity|].
        destruct s; try contradiction; simpl; auto 10. }
      pose proof (Hholds _ (or_intror Hin)) as H0. simpl in H0.
      apply Z.eqb_eq in H0. exact H0. }
  destruct (pinned data u d) as [code|] eqn:E.
  - destruct (shift_eqb code OFF) eqn:Eoff.
    + left. apply Hall. exact Hrule.
    + right. exists code. apply shift_eqb_neq in Eoff.
      split; [exact Eoff|]. split; [reflexivity|].
      split; [apply (pinned_enforced data sol u d code Hsol E)|].
      apply recorded_in_solved_output. apply (member_conflict_recorded data u); [exact Hu|].
      rewrite snd_member_rules, !in_app_iff. tauto.
  - left. apply Hall. exact Hrule.
Qed.

Lemma forced_day_off_respected_witness :
  (answer_monday_off (X 0 0 OFF) = 1 /\ forall s, s <> OFF -> answer_monday_off (X 0 0 s) = 0)
  \/ exists code,
       code <> OFF /\ pinned request_monday_off 0 0 = Some code
       /\ answer_monday_off (X 0 0 code) = 1
       /\ In (fixed_day_off_conflict (id (member_at request_monday_off 0))
                (day_at request_monday_off 0) code)
             (constraint_conflicts
                (summary (solved_output request_monday_off answer_monday_off OPTIMAL))).
Proof.
  apply (forced_day_off_respected request_monday_off answer_monday_off OPTIMAL 0%nat 0%nat).
  - vm_compute. reflexivity.
  - vm_compute. lia.
  - vm_compute. lia.
  - reflexivity.
Defined.

(** ** The cap on consecutive workdays in solved outputs *)

Lemma max_consecutive_nonneg :
  forall data cap, max_consecutive_workdays data = Some cap -> 0 <= cap.
Proof.
  intros data cap H. unfold max_consecutive_workdays, resolve_max_consecutive in H.
  destruct (max_consecutive_workdays_raw (constraints_of data)) as [|z|]; try discriminate.
  destruct (0 <? z) eqn:Ez; [|discriminate].
  apply Z.ltb_lt in Ez. inversion H. lia.
Qed.

Lemma work_flag_is_works :
  forall data sol u d cap,
    solved_by data sol ->
    (u < num_members data)%nat -> (d < num_days data)%nat ->
    max_consecutive_workdays data = Some cap ->
    sol (WorkFlag u d) = works sol u d.
Proof.
  intros data sol u d cap Hsol Hu Hd Hcap.
  assert (Hin : In (CEq (EVar (WorkFlag u d)) (x_over_codes u d WORK_SHIFT_CODES))
                   (constraints (model data))).
  { apply (member_constraint_in_model data u); [exact Hu|].
    rewrite fst_member_rules, !in_app_iff. right. right. left.
    unfold consecutive_rule. rewrite Hcap. simpl. apply in_or_app. left.
    unfold work_flag_definitions. apply in_map_iff. exists d.
    split; [reflexivity | apply in_range; exact Hd]. }
  pose proof (feasible_holds _ _ _ Hsol Hin) as E. cbn in E. apply Z.eqb_eq in E.
  unfold works. lia.
Qed.

Lemma works_is_bool :
  forall data sol u d,
    solved_by data sol ->
    (u < num_members data)%nat -> (d < num_days data)%nat ->
    works sol u d = 0 \/ works sol u d = 1.
Proof.
  intros data sol u d Hsol Hu Hd.
  destruct (codes_sum_at_most_one data sol u d Hsol Hu Hd) as [Hle _].
  pose proof (x_is_bool data sol u d EARLY Hsol Hu Hd).
  pose proof (x_is_bool data sol u d DAY Hsol Hu Hd).
  pose proof (x_is_bool data sol u d LATE Hsol Hu Hd).
  pose proof (x_is_bool data sol u d NIGHT Hsol Hu Hd).
  pose proof (x_is_bool data sol u d NIGHT_AFTER Hsol Hu Hd).
  pose proof (x_is_bool data sol u d OFF Hsol Hu Hd).
  unfold works. lia.
Qed.

(** X6. With max_consecutive_workdays resolved to a cap, every solved output
    gives every member at most [cap] workdays in each window of [cap + 1]
    consecutive days of the horizon; a day counts as a workday when the member
    holds EARLY, DAY, LATE or NIGHT. *)
Theorem consecutive_workdays_capped :
  forall data sol u cap start,
    solved_by data sol ->
    (u < num_members data)%nat ->
    max_consecutive_workdays data = Some cap ->
    (start + Z.to_nat (cap + 1) <= num_days data)%nat ->
    zsum (map (works sol u) (seq start (Z.to_nat (cap + 1)))) <= cap
    /\ forall d, In d (seq start (Z.to_nat (cap + 1))) ->
                 works sol u d = 0 \/ works sol u d = 1.
Proof.
  intros data sol u cap start Hsol Hu Hcap Hfit.
  pose proof (max_consecutive_nonneg data cap Hcap) as Hcap0.
  set (window := Z.to_nat (cap + 1)) in *.
  assert (Hin : In (CLe (esum (map EVar (firstn window (skipn start (work_day_flags data u)))))
                        (EConst cap))
                   (constraints (model data))).
  { apply (member_constraint_in_model data u); [exact Hu|].
    rewrite fst_member_rules, !in_app_iff. right. right. left.
    unfold consecutive_rule. rewrite Hcap. simpl. apply in_or_app. right.
    unfold window_constraints. fold window.
    assert (Hwin : Nat.leb window (num_days data) = true) by (apply Nat.leb_le; lia).
    rewrite Hwin. apply in_map_iff. exists start. split; [reflexivity|].
    apply in_range. unfold window in Hfit. lia. }
  pose proof (feasible_holds _ _ _ Hsol Hin) as Hle. cbn [holds eval] in Hle.
  apply Z.leb_le in Hle. rewrite eval_esum, map_map in Hle. cbn [eval] in Hle.
  assert (Hslice : firstn window (skipn start (work_day_flags data u))
                   = map (WorkFlag u) (seq start window)).
  { unfold work_day_flags, range. rewrite skipn_map, firstn_map.
    rewrite slice_of_seq by exact Hfit. reflexivity. }
  rewrite Hslice, map_map in Hle.
  split.
  - rewrite (zsum_map_ext _ (works sol u) (fun d => sol (WorkFlag u d))); [exact Hle|].
    intros d Hd. apply in_seq in Hd. symmetry.
    apply (work_flag_is_works data sol u d cap Hsol Hu); [lia | exact Hcap].
  - intros d Hd. apply in_seq in Hd.
    apply (works_is_bool data sol u d Hsol Hu). lia.
Qed.

Lemma consecutive_workdays_capped_witness :
  zsum (map (works answer_capped 0) (seq 0 (Z.to_nat (1 + 1)))) <= 1
  /\ forall d, In d (seq 0 (Z.to_nat (1 + 1))) ->
               works answer_capped 0 d = 0 \/ works answer_capped 0 d = 1.
Proof.
  apply (consecutive_workdays_capped request_capped answer_capped 0%nat 1 0%nat).
  - vm_compute. reflexivity.
  - vm_compute. lia.
  - reflexivity.
  - vm_compute. lia.
Defined.

(** ** Rest after a night *)

Lemma night_follow_up_cases :
  forall data u d,
    night_follow_up data u d = add (CImplication (X u d NIGHT) (X u (d + 1) NIGHT_AFTER))
    \/ exists locked,
         night_follow_up data u d
         = conflict_of (night_follow_up_conflict (id (member_at data u))
                          (day_at data d) (day_at data (d + 1)) locked).
Proof.
  intros data u d. unfold night_follow_up.
  destruct (pinned data u d) as [[]|]; auto;
    destruct (pinned data u (d + 1)) as [[]|]; simpl; eauto.
Qed.

Lemma night_rest_cases :
  forall data u d,
    night_rest data u d = add (CImplication (X u d NIGHT) (X u (d + 2) OFF))
    \/ exists locked,
         night_rest data u d
         = conflict_of (night_rest_conflict (id (member_at data u))
                          (day_at data d) (day_at data (d + 2)) locked).
Proof.
  intros data u d. unfold night_rest.
  destruct (pinned data u d) as [[]|]; auto;
    destruct (pinned data u (d + 2)) as [[]|]; simpl; eauto.
Qed.

(** X7. With enforce_night_after_rest on, a member on NIGHT on day [d] of a
    solved output is on NIGHT_AFTER on day [d + 1], unless a
    night_follow_up_conflict is recorded for that member and day, and on OFF
    on day [d + 2], unless a night_rest_conflict is recorded for that member
    and day (each for the days that exist in the horizon). *)
Theorem night_is_followed_by_rest :
  forall data sol status u d,
    solved_by data sol ->
    (u < num_members data)%nat ->
    enforce_night_after_rest (constraints_of data) = true ->
    sol (X u d NIGHT) = 1 ->
    ((d + 1 < num_days data)%nat ->
       sol (X u (d + 1) NIGHT_AFTER) = 1
       \/ exists locked,
            In (night_follow_up_conflict (id (member_at data u))
                  (day_at data d) (day_at data (d + 1)) locked)
               (constraint_conflicts (summary (solved_output data sol status))))
    /\ ((d + 2 < num_days data)%nat ->
          sol (X u (d + 2) OFF) = 1
          \/ exists locked,
               In (night_rest_conflict (id (member_at data u))
                     (day_at data d) (day_at data (d + 2)) locked)
                  (constraint_conflicts (summary (solved_output data sol status)))).
Proof.
  intros data sol status u d Hsol Hu Hrest Hnight.
  assert (Himp : forall b, In (CImplication (X u d NIGHT) b) (fst (night_rest_rule data u)) ->
                           sol b = 1).
  { intros b Hb.
    assert (Hin : In (CImplication (X u d NIGHT) b) (constraints (model data))).
    { apply (member_constraint_in_model data u); [exact Hu|].
      rewrite fst_member_rules, !in_app_iff. tauto. }
    pose proof (feasible_holds _ _ _ Hsol Hin) as H. simpl in H.
    rewrite Hnight in H. simpl in H. apply Z.eqb_eq in H. exact H. }
  assert (Hrec : forall k, In k (snd (night_rest_rule data u)) ->
                           In k (constraint_conflicts (summary (solved_output data sol status)))).
  { intros k Hk. apply recorded_in_solved_output.
    apply (member_conflict_recorded data u); [exact Hu|].
    rewrite snd_member_rules, !in_app_iff. tauto. }
  unfold night_rest_rule in Himp, Hrec. rewrite Hrest in Himp, Hrec.
  rewrite fst_andthen in Himp. rewrite snd_andthen in Hrec.
  split.
  - intros Hd.
    assert (Hin : In d (range (num_days data - 1))) by (apply in_range; lia).
    destruct (night_follow_up_cases data u d) as [E | [locked E]].
    + left. apply Himp. apply in_or_app. left.
      apply in_fst_for_each. exists d. split; [exact Hin|]. rewrite E. simpl. auto.
    + right. exists locked. apply Hrec. apply in_or_app. left.
      apply in_snd_for_each. exists d. split; [exact Hin|]. rewrite E. simpl. auto.
  - intros Hd.
    assert (Hin : In d (range (num_days data - 2))) by (apply in_range; lia).
    destruct (night_rest_cases data u d) as [E | [locked E]].
    + left. apply Himp. apply in_or_app. right.
      apply in_fst_for_each. exists d. split; [exact Hin|]. rewrite E. simpl. auto.
    + right. exists locked. apply Hrec. apply in_or_app. right.
      apply in_snd_for_each. exists d. split; [exact Hin|]. rewrite E. simpl. auto.
Qed.

Lemma night_is_followed_by_rest_witness :
  ((0 + 1 < num_days request_night_cycle)%nat ->
     answer_night_cycle (X 0 (0 + 1) NIGHT_AFTER) = 1
     \/ exists locked,
          In (night_follow_up_conflict (id (member_at request_night_cycle 0))
                (day_at request_night_cycle 0) (day_at request_night_cycle (0 + 1)) locked)
             (constraint_conflicts
                (summary (solved_output request_night_cycle answer_night_cycle OPTIMAL))))
  /\ ((0 + 2 < num_days request_night_cycle)%nat ->
        answer_night_cycle (X 0 (0 + 2) OFF) = 1
        \/ exists locked,
             In (night_rest_conflict (id (member_at request_night_cycle 0))
                   (day_at request_night_cycle 0) (day_at request_night_cycle (0 + 2)) locked)
                (constraint_conflicts
                   (summary (solved_output request_night_cycle answer_night_cycle OPTIMAL)))).
Proof.
  apply (night_is_followed_by_rest request_night_cycle answer_night_cycle OPTIMAL 0%nat 0%nat).
  - vm_compute. reflexivity.
  - vm_compute. lia.
  - reflexivity.
  - reflexivity.
Defined.

(** ** Adjacency and repetition *)

(** X8. With forbid_late_to_early on, no member of a solved output is on
    LATE one day and on EARLY the next, except where exactly that pair is
    pinned for the member; the pair is then reported as a
    late_to_early_conflict naming the member and both dates. *)
Theorem late_is_not_followed_by_early :
  forall data sol status u d,
    solved_by data sol ->
    (u < num_members data)%nat ->
    (d + 1 < num_days data)%nat ->
    forbid_late_to_early (constraints_of data) = true ->
    sol (X u d LATE) + sol (X u (d + 1) EARLY) <= 1
    \/ (pinned data u d = Some LATE /\ pinned data u (d + 1) = Some EARLY
        /\ In (late_to_early_conflict (id (member_at data u))
                 (day_at data d) (day_at data (d + 1)))
              (constraint_conflicts (summary (solved_output data sol status)))).
Proof.
  intros data sol status u d Hsol Hu Hd Hforbid.
  assert (Hin : In d (range (num_days data - 1))) by (apply in_range; lia).
  destruct (pinned_is data u d LATE && pinned_is data u (d + 1) EARLY) eqn:E.
  - right. apply andb_true_iff in E. destruct E as [E1 E2].
    split; [apply pinned_is_true; exact E1|]. split; [apply pinned_is_true; exact E2|].
    apply recorded_in_solved_output. apply (member_conflict_recorded data u); [exact Hu|].
    rewrite snd_member_rules, !in_app_iff. do 6 right. left.
    unfold late_to_early_rule. rewrite Hforbid.
    apply in_snd_for_each. exists d. split; [exact Hin|].
    rewrite E1, E2. simpl. auto.
  - left.
    assert (Hc : In (CLe (EAdd (EVar (X u d LATE)) (EVar (X u (d + 1) EARLY))) (EConst 1))
                    (constraints (model data))).
    { apply (member_constraint_in_model data u); [exact Hu|].
      rewrite fst_member_rules, !in_app_iff. do 6 right. left.
      unfold late_to_early_rule. rewrite Hforbid.
      apply in_fst_for_each. exists d. split; [exact Hin|].
      rewrite E. simpl. auto. }
    pose proof (feasible_holds _ _ _ Hsol Hc) as H. simpl in H.
    apply Z.leb_le in H. exact H.
Qed.

Lemma late_is_not_followed_by_early_witness :
  answer_night_cycle (X 0 0 LATE) + answer_night_cycle (X 0 (0 + 1) EARLY) <= 1
  \/ (pinned request_night_cycle 0 0 = Some LATE
      /\ pinned request_night_cycle 0 (0 + 1) = Some EARLY
      /\ In (late_to_early_conflict (id (member_at request_night_cycle 0))
               (day_at request_night_cycle 0) (day_at request_night_cycle (0 + 1)))
            (constraint_conflicts
               (summary (solved_output request_night_cycle answer_night_cycle OPTIMAL)))).
Proof.
  apply (late_is_not_followed_by_early request_night_cycle answer_night_cycle
           OPTIMAL 0%nat 0%nat).
  - vm_compute. reflexivity.
  - vm_compute. lia.
  - vm_compute. lia.
  - reflexivity.
Defined.

(** X9. With limit_fulltime_repeat on, a full-time member of a solved output
    holds the same work code on at most two of any three consecutive days,
    except where that code is pinned for the member on all three; the run is
    then reported as a repeat_limit_conflict naming the member, the first
    date and the code. *)
Theorem full_time_repeat_limited :
  forall data sol status u d s,
    solved_by data sol ->
    (u < num_members data)%nat ->
    (d + 2 < num_days data)%nat ->
    limit_fulltime_repeat (constraints_of data) = true ->
    employment_type (member_at data u) = "full_time"%string ->
    is_work s = true ->
    sol (X u d s) + sol (X u (d + 1) s) + sol (X u (d + 2) s) <= 2
    \/ (pinned data u d = Some s /\ pinned data u (d + 1) = Some s
        /\ pinned data u (d + 2) = Some s
        /\ In (repeat_limit_conflict (id (member_at data u)) (day_at data d) s)
              (constraint_conflicts (summary (solved_output data sol status)))).
Proof.
  intros data sol status u d s Hsol Hu Hd Hlimit Hfull Hs.
  assert (Hin : In d (range (num_days data - 2))) by (apply in_range; lia).
  assert (Hcode : In s WORK_SHIFT_CODES) by (apply is_work_in; exact Hs).
  destruct (pinned_is data u d s && pinned_is data u (d + 1) s && pinned_is data u (d + 2) s)
    eqn:E.
  - right. pose proof E as E'.
    apply andb_true_iff in E'. destruct E' as [E12 E3].
    apply andb_true_iff in E12. destruct E12 as [E1 E2].
    split; [apply pinned_is_true; exact E1|]. split; [apply pinned_is_true; exact E2|].
    split; [apply pinned_is_true; exact E3|].
    apply recorded_in_solved_output. apply (member_conflict_recorded data u); [exact Hu|].
    rewrite snd_member_rules, !in_app_iff. do 7 right. left.
    unfold repeat_rule. rewrite Hlimit, Hfull, String.eqb_refl. cbn [andb].
    apply in_snd_for_each. exists s. split; [exact Hcode|].
    apply in_snd_for_each. exists d. split; [exact Hin|].
    rewrite E. simpl. auto.
  - left.
    assert (Hc : In (CLe (EAdd (EAdd (EVar (X u d s)) (EVar (X u (d + 1) s)))
                               (EVar (X u (d + 2) s)))
                         (EConst 2))
                    (constraints (model data))).
    { apply (member_constraint_in_model data u); [exact Hu|].
      rewrite fst_member_rules, !in_app_iff. do 7 right. left.
      unfold repeat_rule. rewrite Hlimit, Hfull, String.eqb_refl. cbn [andb].
      apply in_fst_for_each. exists s. split; [exact Hcode|].
      apply in_fst_for_each. exists d. split; [exact Hin|].
      rewrite E. simpl. auto. }
    pose proof (feasible_holds _ _ _ Hsol Hc) as H. simpl in H.
    apply Z.leb_le in H. exact H.
Qed.

Lemma full_time_repeat_limited_witness :
  answer_night_cycle (X 0 0 NIGHT) + answer_night_cycle (X 0 (0 + 1) NIGHT)
  + answer_night_cycle (X 0 (0 + 2) NIGHT) <= 2
  \/ (pinned request_night_cycle 0 0 = Some NIGHT
      /\ pinned request_night_cycle 0 (0 + 1) = Some NIGHT
      /\ pinned request_night_cycle 0 (0 + 2) = Some NIGHT
      /\ In (repeat_limit_conflict (id (member_at request_night_cycle 0))
               (day_at request_night_cycle 0) NIGHT)
            (constraint_conflicts
               (summary (solved_output request_night_cycle answer_night_cycle OPTIMAL)))).
Proof.
  apply (full_time_repeat_limited request_night_cycle answer_night_cycle
           OPTIMAL 0%nat 0%nat NIGHT).
  - vm_compute. reflexivity.
  - vm_compute. lia.
  - vm_compute. lia.
  - reflexivity.
  - reflexivity.
  - reflexivity.
Defined.

(** ** Night quota and days off *)



Lemma zsum_nonneg :
  forall (A : Type) (f : A -> Z) l,
    (forall a, In a l -> 0 <= f a) -> 0 <= zsum (map f l).
Proof.
  intros A f l. induction l as [|a l IH]; intros H.
  - cbn [map]. rewrite zsum_nil. lia.
  - cbn [map]. rewrite zsum_cons.
    pose proof (H a (or_introl eq_refl)).
    assert (0 <= zsum (map f l)) by (apply IH; intros; apply H; right; auto). lia.
Qed.

Lemma off_day_count_bounds :
  forall data sol u,
    solved_by data sol -> (u < num_members data)%nat ->
    off_day_count data sol u
    = zsum (map (fun d => sol (X u d OFF)) (range (num_days data)))
    /\ 0 <= off_day_count data sol u.
Proof.
  intros data sol u Hsol Hu. unfold off_day_count, off_count_expr.
  rewrite eval_esum, map_map. cbn [eval]. split; [reflexivity|].
  apply zsum_nonneg. intros d Hd. apply in_range in Hd.
  destruct (x_is_bool data sol u d OFF Hsol Hu Hd); lia.
Qed.

(** X11. In every solved output a member's number of OFF days reaches the
    minimum resolved for the member's employment type, or the output carries
    an off_requirement_shortfall for that member with the required minimum
    and a positive shortfall that covers the missing days. *)
Theorem min_off_days_met_or_reported :
  forall data sol status u,
    solved_by data sol ->
    (u < num_members data)%nat ->
    member_off_requirements data u <= off_day_count data sol u
    \/ exists amount,
         0 < amount
         /\ member_off_requirements data u <= off_day_count data sol u + amount
         /\ In (off_requirement_shortfall (id (member_at data u)) amount
                  (member_off_requirements data u))
               (constraint_conflicts (summary (solved_output data sol status))).
Proof.
  intros data sol status u Hsol Hu.
  destruct (off_day_count_bounds data sol u Hsol Hu) as [_ Hnonneg].
  destruct (0 <? member_off_requirements data u) eqn:Ereq.
  - assert (Hc : In (CGe (EAdd (off_count_expr data u) (EVar (OffSlack u)))
                         (EConst (member_off_requirements data u)))
                    (constraints (model data))).
    { apply (counter_constraint_in_model data u); [exact Hu|].
      unfold counter_constraints. rewrite Ereq. simpl. auto. }
    pose proof (feasible_holds _ _ _ Hsol Hc) as H. cbn [holds eval] in H.
    apply Z.leb_le in H. fold (off_day_count data sol u) in H.
    assert (Hdecl : In (OffSlack u, (0, Z.of_nat (num_days data))) (variables (model data))).
    { simpl. rewrite !in_app_iff. do 3 right.
      apply in_flat_map. exists u. split; [apply in_range; exact Hu|].
      unfold counter_variables. rewrite Ereq. simpl. auto. }
    pose proof (feasible_domain _ _ _ _ _ Hsol Hdecl) as Hdom.
    destruct (0 <? sol (OffSlack u)) eqn:Eslack.
    + right. exists (sol (OffSlack u)). apply Z.ltb_lt in Eslack.
      split; [exact Eslack|]. split; [lia|].
      simpl. apply in_or_app. right.
      unfold off_shortfall_conflicts. apply in_flat_map. exists u.
      split; [apply in_range; exact Hu|].
      apply Z.ltb_lt in Ereq.
      assert (Ele : (member_off_requirements data u <=? 0) = false) by (apply Z.leb_gt; lia).
      rewrite Ele. unfold off_slack_vars.
      assert (Ereq' : (0 <? member_off_requirements data u) = true) by (apply Z.ltb_lt; lia).
      rewrite Ereq'. cbn [eval].
      apply Z.ltb_lt in Eslack. rewrite Eslack. simpl. auto.
    + left. apply Z.ltb_ge in Eslack. lia.
  - left. apply Z.ltb_ge in Ereq. lia.
Qed.

Lemma min_off_days_met_or_reported_witness :
  member_off_requirements request_min_off 0 <= off_day_count request_min_off answer_min_off 0
  \/ exists amount,
       0 < amount
       /\ member_off_requirements request_min_off 0
          <= off_day_count request_min_off answer_min_off 0 + amount
       /\ In (off_requirement_shortfall (id (member_at request_min_off 0)) amount
                (member_off_requirements request_min_off 0))
             (constraint_conflicts
                (summary (solved_output request_min_off answer_min_off OPTIMAL))).
Proof.
  apply (min_off_days_met_or_reported request_min_off answer_min_off OPTIMAL 0%nat).
  - vm_compute. reflexivity.
  - vm_compute. lia.
Defined.

(** ** Staffing never exceeds the requirement *)

Lemma per_day_requirements_nonneg :
  forall data d s, is_work s = true -> 0 <= per_day_requirements data d s.
Proof.
  intros data d s Hs. unfold per_day_requirements.
  destruct (shift_eqb s DAY && negb (after_cutoff data d)) eqn:E.
  - apply andb_true_iff in E. destruct E as [_ E2]. apply negb_true_iff in E2.
    pose proof (day_target_bounds data d E2) as Hb.
    rewrite day_requirements_value, E2 in Hb by reflexivity.
    pose proof (pinned_count_nonneg data d DAY). lia.
  - rewrite day_requirements_value by exact Hs.
    pose proof (pinned_count_nonneg data d s).
    destruct (after_cutoff data d); lia.
Qed.

Lemma carry_over_requirement :
  forall data d s,
    is_work s = true -> after_cutoff data d = true ->
    per_day_requirements data d s = pinned_count data d s.
Proof.
  intros data d s Hs Hc. unfold per_day_requirements.
  rewrite Hc, andb_false_r, day_requirements_value, Hc by exact Hs. reflexivity.
Qed.

Lemma assigned_count_le_requirement :
  forall data sol d s,
    solved_by data sol -> (d < num_days data)%nat -> is_work s = true ->
    assigned_count data sol d s <= per_day_requirements data d s.
Proof.
  intros data sol d s Hsol Hd Hs.
  pose proof (feasible_holds _ _ _ Hsol (coverage_in_model data d s Hd Hs)) as Hcov.
  destruct (0 <? per_day_requirements data d s) eqn:Epos.
  - apply Z.ltb_lt in Epos.
    destruct (shortage_declared data d s Hd Hs Epos) as [_ Hdecl].
    pose proof (feasible_domain _ _ _ _ _ Hsol Hdecl) as Hdom.
    cbn [holds eval] in Hcov. apply Z.eqb_eq in Hcov.
    rewrite (sum_expr_counts data sol d s Hsol Hd) in Hcov. lia.
  - cbn [holds eval] in Hcov. apply Z.eqb_eq in Hcov.
    rewrite (sum_expr_counts data sol d s Hsol Hd) in Hcov.
    pose proof (per_day_requirements_nonneg data d s Hs). lia.
Qed.

Lemma count_if_monotone :
  forall (A : Type) (p q : A -> bool) l,
    (forall a, In a l -> p a = true -> q a = true) -> count_if p l <= count_if q l.
Proof.
  intros A p q l. unfold count_if. induction l as [|a l IH]; intros H; [simpl; lia|].
  assert (IH' : Z.of_nat (length (filter p l)) <= Z.of_nat (length (filter q l))).
  { apply IH. intros b Hb. apply H. right. exact Hb. }
  cbn [filter]. pose proof (H a (or_introl eq_refl)) as Ha.
  destruct (p a); destruct (q a); cbn [length];
    try lia; specialize (Ha eq_refl); discriminate.
Qed.

Lemma count_if_squeeze :
  forall (A : Type) (p q : A -> bool) l,
    (forall a, In a l -> p a = true -> q a = true) ->
    count_if q l <= count_if p l ->
    forall a, In a l -> q a = true -> p a = true.
Proof.
  intros A p q l. induction l as [|b l IH]; intros Hsub Hle a Ha Hq; [destruct Ha|].
  assert (Hsub' : forall c, In c l -> p c = true -> q c = true).
  { intros c Hc. apply Hsub. right. exact Hc. }
  pose proof (count_if_monotone A p q l Hsub') as Hmono.
  pose proof (Hsub b (or_introl eq_refl)) as Hb.
  unfold count_if in *. cbn [filter] in Hle.
  destruct (p b) eqn:Epb; destruct (q b) eqn:Eqb; cbn [length] in Hle.
  - destruct Ha as [<- | Ha]; [exact Epb|]. apply IH; auto. lia.
  - specialize (Hb eq_refl). discriminate.
  - lia.
  - destruct Ha as [<- | Ha]; [congruence|]. apply IH; auto.
Qed.

(** X12. A solved output never staffs a work code beyond its effective
    requirement: on every day the number of members on a work code is at most
    the requirement of that day and code.  On a carry-over day the members on
    a work code are therefore exactly those for whom that code is pinned. *)
Theorem staffing_within_requirement :
  forall data sol d s,
    solved_by data sol ->
    (d < num_days data)%nat ->
    is_work s = true ->
    assigned_count data sol d s <= per_day_requirements data d s
    /\ (after_cutoff data d = true ->
        forall u, (u < num_members data)%nat ->
                  (sol (X u d s) = 1 <-> pinned data u d = Some s)).
Proof.
  intros data sol d s Hsol Hd Hs.
  pose proof (assigned_count_le_requirement data sol d s Hsol Hd Hs) as Hle.
  split; [exact Hle|].
  intros Hcarry u Hu. split.
  - intros Hone. apply pinned_is_true.
    apply (count_if_squeeze nat (fun u => pinned_is data u d s)
             (fun u => sol (X u d s) =? 1) (range (num_members data))).
    + intros v _ Hv. apply pinned_is_true in Hv.
      rewrite (pinned_enforced data sol v d s Hsol Hv). reflexivity.
    + rewrite (carry_over_requirement data d s Hs Hcarry) in Hle. exact Hle.
    + apply in_range. exact Hu.
    + rewrite Hone. reflexivity.
  - intros Hpin. apply (pinned_enforced data sol u d s Hsol Hpin).
Qed.

Lemma staffing_within_requirement_witness :
  assigned_count request_carry_over answer_carry_over 1 NIGHT
  <= per_day_requirements request_carry_over 1 NIGHT
  /\ (after_cutoff request_carry_over 1 = true ->
      forall u, (u < num_members request_carry_over)%nat ->
                (answer_carry_over (X u 1 NIGHT) = 1
                 <-> pinned request_carry_over u 1 = Some NIGHT)).
Proof.
  apply (staffing_within_requirement request_carry_over answer_carry_over 1%nat NIGHT).
  - vm_compute. reflexivity.
  - vm_compute. lia.
  - reflexivity.
Defined.

(** ** The per-member counts of the summary *)

Lemma distinct_ids :
  forall data u v,
    NoDup (map id (members data)) ->
    (u < num_members data)%nat -> (v < num_members data)%nat ->
    id (member_at data u) = id (member_at data v) -> u = v.
Proof.
  intros data u v Hnd Hu Hv E. unfold member_at in E.
  rewrite <- !(map_nth id) in E.
  apply (proj1 (NoDup_nth (map id (members data)) (id default_member)) Hnd);
    try (rewrite length_map; assumption).
  exact E.
Qed.

Lemma per_member_get :
  forall data (value : nat -> Z) u,
    NoDup (map id (members data)) ->
    (u < num_members data)%nat ->
    dict_get Z.eqb (per_member data value) (id (member_at data u)) = Some (value u).
Proof.
  intros data value u Hnd Hu. unfold per_member, range.
  assert (Hgen : forall k, (k <= num_members data)%nat ->
             forall v, (v < k)%nat ->
               dict_get Z.eqb
                 (fold_left (fun m w => dict_set Z.eqb m (id (member_at data w)) (value w))
                            (seq 0 k) [])
                 (id (member_at data v)) = Some (value v)).
  { induction k as [|k IH]; intros Hk v Hv; [lia|].
    rewrite seq_S, fold_left_app. simpl.
    rewrite (dict_get_set _ _ Z.eqb Z.eqb_eq).
    destruct (Z.eqb (id (member_at data v)) (id (member_at data k))) eqn:E.
    - apply Z.eqb_eq in E. apply (distinct_ids data v k Hnd) in E; try lia.
      subst v. reflexivity.
    - apply IH; [lia|].
      destruct (Nat.eq_dec v k) as [-> | Hne]; [rewrite Z.eqb_refl in E; discriminate | lia]. }
  apply (Hgen (num_members data)); [lia | exact Hu].
Qed.

Lemma zsum_le :
  forall (A : Type) (f g : A -> Z) l,
    (forall a, In a l -> f a <= g a) -> zsum (map f l) <= zsum (map g l).
Proof.
  intros A f g l. induction l as [|a l IH]; intros H.
  - cbn [map]. lia.
  - cbn [map]. rewrite !zsum_cons.
    pose proof (H a (or_introl eq_refl)).
    assert (zsum (map f l) <= zsum (map g l)) by (apply IH; intros; apply H; right; auto).
    lia.
Qed.

Lemma zsum_plus :
  forall (A : Type) (f g : A -> Z) l,
    zsum (map (fun a => f a + g a) l) = zsum (map f l) + zsum (map g l).
Proof.
  intros A f g l. induction l as [|a l IH].
  - reflexivity.
  - cbn [map]. rewrite !zsum_cons, IH. lia.
Qed.

Lemma zsum_ones :
  forall (A : Type) (l : list A), zsum (map (fun _ => 1) l) = Z.of_nat (length l).
Proof.
  intros A l. induction l as [|a l IH].
  - reflexivity.
  - cbn [map length]. rewrite zsum_cons, IH. lia.
Qed.

(** X13. For a roster with distinct member ids, the summary of a solved
    output lists for every member a work-day count, an off-day count and a
    night count that are the counts of the solution: off days are the days on
    OFF, nights the days on NIGHT, work days all the other days of the horizon
    (work_days + off_days is the number of days), and the nights are among
    the work days. *)
Theorem summary_counts_add_up :
  forall data sol status u,
    solved_by data sol ->
    NoDup (map id (members data)) ->
    (u < num_members data)%nat ->
    exists work off night,
      dict_get Z.eqb (work_days (summary (solved_output data sol status)))
               (id (member_at data u)) = Some work
      /\ dict_get Z.eqb (off_days (summary (solved_output data sol status)))
                  (id (member_at data u)) = Some off
      /\ dict_get Z.eqb (nights (summary (solved_output data sol status)))
                  (id (member_at data u)) = Some night
      /\ off = count_if (fun d => sol (X u d OFF) =? 1) (range (num_days data))
      /\ night = count_if (fun d => sol (X u d NIGHT) =? 1) (range (num_days data))
      /\ work + off = Z.of_nat (num_days data)
      /\ 0 <= night <= work.
Proof.
  intros data sol status u Hsol Hnd Hu.
  exists (sol (WorkCount u)), (eval sol (off_count_expr data u)),
         (zsum (map (fun d => sol (X u d NIGHT)) (range (num_days data)))).
  simpl. rewrite !per_member_get by assumption.
  destruct (counters_solved data sol u Hsol Hu) as [Hwork _].
  destruct (off_day_count_bounds data sol u Hsol Hu) as [Hoff Hoff0].
  unfold work_day_count in Hwork. unfold off_day_count in *.
  assert (Hbool : forall s d, In d (range (num_days data)) ->
                              sol (X u d s) = 0 \/ sol (X u d s) = 1).
  { intros s d Hd. apply in_range in Hd. apply (x_is_bool data sol u d s Hsol Hu Hd). }
  assert (Hnight0 : 0 <= zsum (map (fun d => sol (X u d NIGHT)) (range (num_days data)))).
  { apply zsum_nonneg. intros d Hd. destruct (Hbool NIGHT d Hd); lia. }
  assert (Hboth : zsum (map (fun d => sol (X u d NIGHT)) (range (num_days data)))
                  + zsum (map (fun d => sol (X u d OFF)) (range (num_days data)))
                  <= Z.of_nat (num_days data)).
  { rewrite <- zsum_plus.
    replace (Z.of_nat (num_days data))
      with (zsum (map (fun _ : nat => 1) (range (num_days data)))).
    - apply zsum_le. intros d Hd. apply in_range in Hd.
      destruct (codes_sum_at_most_one data sol u d Hsol Hu Hd) as [Hle _].
      pose proof (x_is_bool data sol u d EARLY Hsol Hu Hd).
      pose proof (x_is_bool data sol u d DAY Hsol Hu Hd).
      pose proof (x_is_bool data sol u d LATE Hsol Hu Hd).
      pose proof (x_is_bool data sol u d NIGHT_AFTER Hsol Hu Hd). lia.
    - rewrite zsum_ones. unfold range. rewrite length_seq. reflexivity. }
  repeat split; try reflexivity.
  - rewrite Hoff. apply sum_of_indicators. intros d Hd. apply (Hbool OFF d Hd).
  - apply sum_of_indicators. intros d Hd. apply (Hbool NIGHT d Hd).
  - lia.
  - exact Hnight0.
  - lia.
Qed.

Lemma summary_counts_add_up_witness :
  exists work off night,
    dict_get Z.eqb (work_days (summary (solved_output request_carry_over answer_carry_over
                                          OPTIMAL)))
             (id (member_at request_carry_over 1)) = Some work
    /\ dict_get Z.eqb (off_days (summary (solved_output request_carry_over answer_carry_over
                                            OPTIMAL)))
                (id (member_at request_carry_over 1)) = Some off
    /\ dict_get Z.eqb (nights (summary (solved_output request_carry_over answer_carry_over
                                          OPTIMAL)))
                (id (member_at request_carry_over 1)) = Some night
    /\ off = count_if (fun d => answer_carry_over (X 1 d OFF) =? 1)
                      (range (num_days request_carry_over))
    /\ night = count_if (fun d => answer_carry_over (X 1 d NIGHT) =? 1)
                        (range (num_days request_carry_over))
    /\ work + off = Z.of_nat (num_days request_carry_over)
    /\ 0 <= night <= work.
Proof.
  apply (summary_counts_add_up request_carry_over answer_carry_over OPTIMAL 1%nat).
  - vm_compute. reflexivity.
  - simpl. repeat constructor; simpl; intuition discriminate.
  - vm_compute. lia.
Defined.

(** ** Whom the conflict records name *)

Lemma pin_step_conflict_members :
  forall data st a,
    (forall k, In k (pin_conflicts st) ->
               exists u, (u < num_members data)%nat /\ conflict_member k = id (member_at data u)) ->
    forall k, In k (pin_conflicts (pin_step data st a)) ->
              exists u, (u < num_members data)%nat /\ conflict_member k = id (member_at data u).
Proof.
  intros data st a Hst k. unfold pin_step.
  destruct (dict_get Z.eqb (member_index data) (user_id a)) as [u|] eqn:Eu; [|apply Hst].
  destruct (dict_get Z.eqb (day_index data) (date a)) as [d|]; [|apply Hst].
  destruct (shift_of_string (upper (shift_code a))) as [code|]; [|apply Hst].
  destruct (member_index_sound data _ _ Eu) as [Hu _].
  assert (Hconf : forall k',
             In k' match allowed_shift_codes (member_at data u) with
                   | Some allowed_codes =>
                       if mem_shift code allowed_codes then pin_conflicts st
                       else pin_conflicts st
                            ++ [allowed_shift_conflict (id (member_at data u)) (day_at data d) code]
                   | None => pin_conflicts st
                   end ->
             exists v, (v < num_members data)%nat
                       /\ conflict_member k' = id (member_at data v)).
  { intros k' Hk'.
    destruct (allowed_shift_codes (member_at data u)) as [allowed|]; [|apply Hst; exact Hk'].
    destruct (mem_shift code allowed); [apply Hst; exact Hk'|].
    apply in_app_or in Hk'. destruct Hk' as [Hk' | [<- | []]]; [apply Hst; exact Hk'|].
    exists u. auto. }
  destruct (dict_get pair_eqb (pinned_assignments st) (u, d)) as [held|]; simpl.
  - destruct (shift_eqb held code); [apply Hconf|].
    intros Hk. apply in_app_or in Hk. destruct Hk as [Hk | [<- | []]]; [apply Hconf; exact Hk|].
    exists u. auto.
  - apply Hconf.
Qed.

Lemma pin_conflict_members :
  forall data k,
    In k (pin_conflicts (pin_existing data)) ->
    exists u, (u < num_members data)%nat /\ conflict_member k = id (member_at data u).
Proof.
  intros data. unfold pin_existing.
  set (init := {| pinned_assignments := []; fixed_requirements := []; pin_conflicts := [] |}).
  assert (Hgen : forall l st,
             (forall k, In k (pin_conflicts st) ->
                        exists u, (u < num_members data)%nat
                                  /\ conflict_member k = id (member_at data u)) ->
             forall k, In k (pin_conflicts (fold_left (pin_step data) l st)) ->
                       exists u, (u < num_members data)%nat
                                 /\ conflict_member k = id (member_at data u)).
  { induction l as [|a l IH]; intros st Hst; simpl; [exact Hst|].
    apply IH. apply pin_step_conflict_members. exact Hst. }
  apply Hgen. intros k H. destruct H.
Qed.

Lemma member_rules_conflict_member :
  forall data u k,
    In k (snd (member_rules data u)) -> conflict_member k = id (member_at data u).
Proof.
  intros data u k H. rewrite snd_member_rules, !in_app_iff in H.
  destruct H as [H | [H | [H | [H | [H | [H | [H | [H | H]]]]]]]].
  - unfold eligibility_rule in H. open_rule H. reflexivity.
  - unfold fixed_day_off_rule in H. open_rule H; reflexivity.
  - unfold consecutive_rule in H.
    destruct (max_consecutive_workdays data) as [cap|]; [|destruct H].
    simpl in H. apply scan_pinned_run_shape in H. destruct H as [s [e ->]]. reflexivity.
  - unfold night_after_rule in H. open_rule H; reflexivity.
  - unfold night_rest_rule, night_follow_up, night_rest in H. open_rule H; reflexivity.
  - unfold night_eligibility_rule in H. open_rule H. reflexivity.
  - unfold late_to_early_rule in H. open_rule H. reflexivity.
  - unfold repeat_rule in H. open_rule H. reflexivity.
  - unfold night_quota_rule in H. open_rule H. reflexivity.
Qed.

(** X14. Every conflict record of an output, from a solved or an unsolved
    run, names a member of the roster: its member_id is the id of one of the
    request's members. *)
Theorem conflicts_name_roster_members :
  forall data sol status k,
    In k (constraint_conflicts (summary (solved_output data sol status)))
    \/ In k (constraint_conflicts (summary (unsolved_output data status))) ->
    exists u, (u < num_members data)%nat /\ conflict_member k = id (member_at data u).
Proof.
  intros data sol status k H.
  assert (Hbefore : In k (conflicts_before_solve data) ->
                    exists u, (u < num_members data)%nat
                              /\ conflict_member k = id (member_at data u)).
  { intros Hk. unfold conflicts_before_solve in Hk. apply in_app_or in Hk.
    destruct Hk as [Hk | Hk]; [apply pin_conflict_members; exact Hk|].
    unfold all_member_rules in Hk. apply in_snd_for_each in Hk.
    destruct Hk as [u [Hu Hk]]. exists u. split; [apply in_range; exact Hu|].
    apply member_rules_conflict_member. exact Hk. }
  destruct H as [H | H]; [|apply Hbefore; exact H].
  simpl in H. apply in_app_or in H. destruct H as [H | H]; [apply Hbefore; exact H|].
  unfold off_shortfall_conflicts in H. apply in_flat_map in H.
  destruct H as [u [Hu H]]. exists u. split; [apply in_range; exact Hu|].
  destruct (member_off_requirements data u <=? 0); [destruct H|].
  destruct (0 <? eval sol (off_slack_vars data u)); [|destruct H].
  destruct H as [<- | []]. reflexivity.
Qed.

Lemma conflicts_name_roster_members_witness :
  exists u, (u < num_members request_min_off)%nat
            /\ conflict_member (off_requirement_shortfall 10 1 2)
               = id (member_at request_min_off u).
Proof.
  apply (conflicts_name_roster_members request_min_off answer_min_off OPTIMAL
           (off_requirement_shortfall 10 1 2)).
  left. vm_compute. auto.
Defined.

(** ** The printed schedule *)

Lemma map_nth_range :
  forall (l : list Z) (default : Z),
    map (fun d => nth d l default) (range (length l)) = l.
Proof.
  intros l default. unfold range. induction l as [|a l IH]; [reflexivity|].
  cbn [length seq map nth]. rewrite <- seq_shift, map_map. rewrite IH. reflexivity.
Qed.

Lemma nth_error_map_seq :
  forall (A : Type) (f : nat -> A) n a d,
    nth_error (map f (seq a n)) d = if Nat.ltb d n then Some (f (a + d)%nat) else None.
Proof.
  intros A f n. induction n as [|n IH]; intros a d.
  - destruct d; reflexivity.
  - destruct d as [|d]; cbn [seq map nth_error].
    + rewrite Nat.add_0_r. reflexivity.
    + rewrite IH. replace (S a + d)%nat with (a + S d)%nat by lia.
      change (Nat.ltb (S d) (S n)) with (Nat.ltb d n). reflexivity.
Qed.

Lemma schedule_entry :
  forall data sol d entry,
    nth_error (schedule data sol) d = Some entry ->
    (d < num_days data)%nat
    /\ entry = {| entry_date := day_at data d; shifts := day_shifts data sol d |}.
Proof.
  intros data sol d entry H. unfold schedule, range in H.
  rewrite nth_error_map_seq in H.
  destruct (Nat.ltb d (num_days data)) eqn:E; [|discriminate].
  apply Nat.ltb_lt in E. inversion H. auto.
Qed.

Lemma slot_in_day_shifts :
  forall data sol d s slot,
    In (s, slot) (day_shifts data sol d) ->
    slot_users slot = listed_users data sol d s /\ listed_users data sol d s <> [].
Proof.
  intros data sol d s slot H. unfold day_shifts in H. apply in_flat_map in H.
  destruct H as [s' [_ H]].
  destruct (listed_users data sol d s') as [|user [|user' rest]] eqn:E.
  - destruct H.
  - destruct H as [H | []]. inversion H; subst. rewrite E. split; [reflexivity | discriminate].
  - destruct H as [H | []]. inversion H; subst. rewrite E. split; [reflexivity | discriminate].
Qed.

Lemma listed_has_slot :
  forall data sol d s,
    listed_users data sol d s <> [] ->
    exists slot,
      In (s, slot) (day_shifts data sol d) /\ slot_users slot = listed_users data sol d s.
Proof.
  intros data sol d s Hne.
  assert (Hcode : In s output_shift_codes) by (destruct s; simpl; auto 10).
  destruct (listed_users data sol d s) as [|user [|user' rest]] eqn:E.
  - contradiction.
  - exists (One user). split; [|reflexivity].
    unfold day_shifts. apply in_flat_map. exists s. split; [exact Hcode|].
    rewrite E. left. reflexivity.
  - exists (Many (user :: user' :: rest)). split; [|reflexivity].
    unfold day_shifts. apply in_flat_map. exists s. split; [exact Hcode|].
    rewrite E. left. reflexivity.
Qed.

Lemma assigned_user_is_member :
  forall data sol d s user,
    In user (assigned_users data sol d s) <->
    exists u, (u < num_members data)%nat /\ id (member_at data u) = user
              /\ sol (X u d s) = 1.
Proof.
  intros data sol d s user. unfold assigned_users. rewrite in_map_iff. split.
  - intros [u [E H]]. apply filter_In in H. destruct H as [Hu H1].
    exists u. apply in_range in Hu. apply Z.eqb_eq in H1. auto.
  - intros [u [Hu [E H1]]]. exists u. split; [exact E|].
    apply filter_In. split; [apply in_range; exact Hu | apply Z.eqb_eq; exact H1].
Qed.

Lemma listed_is_assigned :
  forall data sol d s user,
    In user (listed_users data sol d s) -> In user (assigned_users data sol d s).
Proof.
  intros data sol d s user H. unfold listed_users in H.
  destruct (after_cutoff data d); [|exact H].
  destruct s; try destruct H; apply filter_In in H; tauto.
Qed.

(** X15. The schedule of a solved output has one entry per day of the
    request, in the order of the request.  A member id listed in the slot of
    a code on a day belongs to a roster member whose indicator for that day
    and code is 1, and on a generation day every member whose indicator is 1
    is listed in the slot of that code. *)
Theorem schedule_lists_the_solution :
  forall data sol status,
    map entry_date (assignments (solved_output data sol status)) = days data
    /\ (forall d entry s slot user,
          nth_error (assignments (solved_output data sol status)) d = Some entry ->
          In (s, slot) (shifts entry) ->
          In user (slot_users slot) ->
          exists u, (u < num_members data)%nat /\ id (member_at data u) = user
                    /\ sol (X u d s) = 1)
    /\ (forall d u s,
          (d < num_days data)%nat ->
          (u < num_members data)%nat ->
          after_cutoff data d = false ->
          sol (X u d s) = 1 ->
          exists entry slot,
            nth_error (assignments (solved_output data sol status)) d = Some entry
            /\ entry_date entry = day_at data d
            /\ In (s, slot) (shifts entry)
            /\ In (id (member_at data u)) (slot_users slot)).
Proof.
  intros data sol status. simpl assignments. split; [|split].
  - unfold schedule. rewrite map_map. simpl. apply map_nth_range.
  - intros d entry s slot user Hentry Hslot Huser.
    apply schedule_entry in Hentry. destruct Hentry as [_ ->]. simpl in Hslot.
    apply slot_in_day_shifts in Hslot. destruct Hslot as [E _].
    rewrite E in Huser. apply listed_is_assigned in Huser.
    apply assigned_user_is_member. exact Huser.
  - intros d u s Hd Hu Hgen Hone.
    assert (Hlisted : In (id (member_at data u)) (listed_users data sol d s)).
    { unfold listed_users. rewrite Hgen. apply assigned_user_is_member.
      exists u. auto. }
    destruct (listed_has_slot data sol d s) as [slot [Hin E]].
    { intros Hnil. rewrite Hnil in Hlisted. destruct Hlisted. }
    exists {| entry_date := day_at data d; shifts := day_shifts data sol d |}, slot.
    split; [|split; [reflexivity | split; [exact Hin | rewrite E; exact Hlisted]]].
    unfold schedule, range. rewrite nth_error_map_seq.
    apply Nat.ltb_lt in Hd. rewrite Hd. reflexivity.
Qed.

(** X16. Past the generation cutoff the schedule shows rest only: a member
    id is listed on a carry-over day under NIGHT_AFTER only if a member with
    that id is on NIGHT the day before, under OFF only if a member with that
    id is on NIGHT two days before, and under no other code. *)
Theorem carry_over_shows_rest_only :
  forall data sol d s user,
    after_cutoff data d = true ->
    In user (listed_users data sol d s) ->
    (s = NIGHT_AFTER /\ (0 < d)%nat
     /\ exists u, (u < num_members data)%nat /\ id (member_at data u) = user
                  /\ sol (X u (d - 1) NIGHT) = 1)
    \/ (s = OFF /\ (1 < d)%nat
        /\ exists u, (u < num_members data)%nat /\ id (member_at data u) = user
                     /\ sol (X u (d - 2) NIGHT) = 1).
Proof.
  intros data sol d s user Hc H. unfold listed_users in H. rewrite Hc in H.
  destruct s; try destruct H; apply filter_In in H; destruct H as [_ H];
    apply andb_true_iff in H; destruct H as [Hd Hin]; apply Nat.ltb_lt in Hd;
    unfold in_ids in Hin; apply existsb_exists in Hin; destruct Hin as [v [Hv E]];
    apply Z.eqb_eq in E; subst v; unfold night_users_by_day in Hv;
    apply assigned_user_is_member in Hv; auto.
Qed.

Lemma carry_over_shows_rest_only_witness :
  (NIGHT_AFTER = NIGHT_AFTER /\ (0 < 1)%nat
   /\ exists u, (u < num_members request_carry_over)%nat
                /\ id (member_at request_carry_over u) = 10
                /\ answer_carry_over (X u (1 - 1) NIGHT) = 1)
  \/ (NIGHT_AFTER = OFF /\ (1 < 1)%nat
      /\ exists u, (u < num_members request_carry_over)%nat
                   /\ id (member_at request_carry_over u) = 10
                   /\ answer_carry_over (X u (1 - 2) NIGHT) = 1).
Proof.
  apply (carry_over_shows_rest_only request_carry_over answer_carry_over 1%nat
           NIGHT_AFTER 10).
  - reflexivity.
  - vm_compute. auto.
Defined.

(** ** Looking members and days up *)

Lemma fold_set_keeps :
  forall (ps : list (nat * Z)) (m : list (Z * nat)) k,
    dict_get Z.eqb m k <> None ->
    dict_get Z.eqb (fold_left (fun m p => dict_set Z.eqb m (snd p) (fst p)) ps m) k <> None.
Proof.
  induction ps as [|[i0 k0] ps IH]; intros m k H; simpl; [exact H|].
  apply IH. rewrite (dict_get_set _ _ Z.eqb Z.eqb_eq).
  destruct (Z.eqb k k0); [discriminate | exact H].
Qed.

Lemma fold_set_adds :
  forall (ps : list (nat * Z)) (m : list (Z * nat)) i k,
    In (i, k) ps ->
    dict_get Z.eqb (fold_left (fun m p => dict_set Z.eqb m (snd p) (fst p)) ps m) k <> None.
Proof.
  induction ps as [|[i0 k0] ps IH]; intros m i k H; [destruct H|].
  simpl. destruct H as [H | H].
  - inversion H; subst. apply fold_set_keeps.
    rewrite (dict_get_set _ _ Z.eqb Z.eqb_eq), Z.eqb_refl. discriminate.
  - apply (IH _ i). exact H.
Qed.

Lemma in_combine_seq :
  forall (l : list Z) a k,
    In k l -> exists i, In (i, k) (combine (seq a (length l)) l).
Proof.
  induction l as [|x l IH]; intros a k H; [destruct H|].
  simpl. destruct H as [-> | H].
  - exists a. left. reflexivity.
  - destruct (IH (S a) k H) as [i Hi]. exists i. right. exact Hi.
Qed.

Lemma index_dict_complete :
  forall l i k,
    NoDup l -> nth_error l i = Some k -> dict_get Z.eqb (index_dict l) k = Some i.
Proof.
  intros l i k Hnd Hnth.
  assert (Hin : In k l) by (eapply nth_error_In; exact Hnth).
  destruct (in_combine_seq l 0 k Hin) as [j Hj].
  pose proof (fold_set_adds (combine (range (length l)) l) [] j k Hj) as Hsome.
  fold (index_dict l) in Hsome.
  destruct (dict_get Z.eqb (index_dict l) k) as [i'|] eqn:E; [|contradiction].
  pose proof (index_dict_sound l k i' E) as Hnth'.
  f_equal. apply (proj1 (NoDup_nth_error l) Hnd).
  - apply nth_error_Some. rewrite Hnth'. discriminate.
  - rewrite Hnth', Hnth. reflexivity.
Qed.

(** X17. Looking an id up in member_index, or a date in day_index, returns
    only positions that hold that id or date: an unknown id or date is not
    found.  With distinct member ids every member's id is found at the
    member's own position, and with distinct days every date at its own. *)
Theorem index_lookup_round_trip :
  forall data,
    (forall m u, dict_get Z.eqb (member_index data) m = Some u ->
                 (u < num_members data)%nat /\ id (member_at data u) = m)
    /\ (forall dt d, dict_get Z.eqb (day_index data) dt = Some d ->
                     (d < num_days data)%nat /\ day_at data d = dt)
    /\ (NoDup (map id (members data)) ->
        forall u, (u < num_members data)%nat ->
                  dict_get Z.eqb (member_index data) (id (member_at data u)) = Some u)
    /\ (NoDup (days data) ->
        forall d, (d < num_days data)%nat ->
                  dict_get Z.eqb (day_index data) (day_at data d) = Some d).
Proof.
  intros data. split; [|split; [|split]].
  - apply member_index_sound.
  - apply day_index_sound.
  - intros Hnd u Hu. unfold member_index. apply index_dict_complete; [exact Hnd|].
    unfold member_at. rewrite <- (map_nth id).
    apply nth_error_nth'. rewrite length_map. exact Hu.
  - intros Hnd d Hd. unfold day_index. apply index_dict_complete; [exact Hnd|].
    unfold day_at. apply nth_error_nth'. exact Hd.
Qed.

Lemma index_lookup_round_trip_witness :
  dict_get Z.eqb (member_index request_carry_over) (id (member_at request_carry_over 1))
  = Some 1%nat
  /\ dict_get Z.eqb (day_index request_carry_over) (day_at request_carry_over 2)
     = Some 2%nat.
Proof.
  destruct (index_lookup_round_trip request_carry_over) as [_ [_ [Hm Hd]]].
  split.
  - apply Hm; [simpl; repeat constructor; simpl; intuition discriminate | vm_compute; lia].
  - apply Hd; [simpl; repeat constructor; simpl; intuition discriminate | vm_compute; lia].
Defined.

Lemma schedule_lists_the_solution_witness :
  exists entry slot,
    nth_error (assignments (solved_output request_carry_over answer_carry_over OPTIMAL)) 0
    = Some entry
    /\ entry_date entry = day_at request_carry_over 0
    /\ In (NIGHT, slot) (shifts entry)
    /\ In (id (member_at request_carry_over 0)) (slot_users slot).
Proof.
  destruct (schedule_lists_the_solution request_carry_over answer_carry_over OPTIMAL)
    as [_ [_ H]].
  apply H.
  - vm_compute. lia.
  - vm_compute. lia.
  - reflexivity.
  - reflexivity.
Defined.

Lemma pinned_is_first_valid_entry_witness :
  (0 < num_members request_double_pin)%nat /\ (0 < num_days request_double_pin)%nat
  /\ exists a,
       In a (existing_assignments request_double_pin)
       /\ user_id a = id (member_at request_double_pin 0)
       /\ date a = day_at request_double_pin 0
       /\ shift_of_string (upper (shift_code a)) = Some OFF.
Proof.
  destruct (pinned_is_first_valid_entry request_double_pin 0 0) as [_ H].
  apply H. reflexivity.
Defined.

(** ** The shortage records of the summary *)

Lemma shortage_vars_entry :
  forall data entry,
    In entry (shortage_vars data) ->
    exists d s,
      entry = ((d, s), Shortage d s)
      /\ (d < num_days data)%nat /\ is_work s = true
      /\ 0 < per_day_requirements data d s.
Proof.
  intros data entry H. unfold shortage_vars in H. apply in_flat_map in H.
  destruct H as [[d s] [Hpair H]]. simpl in H.
  destruct (0 <? per_day_requirements data d s) eqn:E; [|destruct H].
  destruct H as [<- | []]. exists d, s.
  apply in_day_code_pairs in Hpair. apply Z.ltb_lt in E. tauto.
Qed.

Lemma shortage_is_the_gap :
  forall data sol d s,
    solved_by data sol -> (d < num_days data)%nat -> is_work s = true ->
    0 < per_day_requirements data d s ->
    sol (Shortage d s) = per_day_requirements data d s - assigned_count data sol d s.
Proof.
  intros data sol d s Hsol Hd Hs Hpos.
  pose proof (feasible_holds _ _ _ Hsol (coverage_in_model data d s Hd Hs)) as Hcov.
  apply Z.ltb_lt in Hpos. rewrite Hpos in Hcov.
  cbn [holds eval] in Hcov. apply Z.eqb_eq in Hcov.
  rewrite (sum_expr_counts data sol d s Hsol Hd) in Hcov. lia.
Qed.

Lemma desired_is_day_requirement :
  forall data d, desired_day_per_day data d = per_day_requirements data d DAY.
Proof.
  intros data d. unfold desired_day_per_day, per_day_requirements.
  destruct (after_cutoff data d); reflexivity.
Qed.

(** X18. Every record of the summary's shortages list is justified by the
    solution: it names a day of the horizon and a work code, and its missing
    count is positive and equal to the effective requirement of that day and
    code minus the number of members the solution puts on the code. *)
Theorem shortage_records_are_exact :
  forall data sol status record,
    solved_by data sol ->
    In record (shortages (summary (solved_output data sol status))) ->
    exists d,
      (d < num_days data)%nat
      /\ shortage_date record = day_at data d
      /\ is_work (shortage_code record) = true
      /\ 0 < missing record
      /\ missing record
         = per_day_requirements data d (shortage_code record)
           - assigned_count data sol d (shortage_code record).
Proof.
  intros data sol status record Hsol H. simpl in H.
  unfold reported_shortages in H. apply in_flat_map in H.
  destruct H as [entry [Hentry H]].
  destruct (shortage_vars_entry data entry Hentry) as [d [s [-> [Hd [Hs Hpos]]]]].
  simpl in H. destruct (0 <? sol (Shortage d s)) eqn:E; [|destruct H].
  destruct H as [<- | []]. simpl. exists d. apply Z.ltb_lt in E.
  repeat split; try assumption.
  apply shortage_is_the_gap; assumption.
Qed.

Lemma shortage_records_are_exact_witness :
  exists d,
    (d < num_days request_min_off)%nat
    /\ sep02 = day_at request_min_off d
    /\ is_work DAY = true
    /\ 0 < 1
    /\ 1 = per_day_requirements request_min_off d DAY
           - assigned_count request_min_off answer_min_off d DAY.
Proof.
  apply (shortage_records_are_exact request_min_off answer_min_off OPTIMAL
           {| shortage_date := sep02; shortage_code := DAY; missing := 1 |}).
  - vm_compute. reflexivity.
  - vm_compute. auto.
Defined.

(** X19. The day_capacity_shortfalls of the summary repeat the DAY shortages:
    every record names a day of the horizon and the code DAY, carries the same
    positive amount as shortfall and as unused_capacity, has the day's DAY
    requirement as desired, falls short of it by exactly that amount, and has
    a shortages record for the same date with the same amount. *)
Theorem day_shortfalls_repeat_day_shortages :
  forall data sol status record,
    solved_by data sol ->
    In record (day_capacity_shortfalls (summary (solved_output data sol status))) ->
    exists d,
      (d < num_days data)%nat
      /\ shortfall_date record = day_at data d
      /\ shortfall_code record = DAY
      /\ unused_capacity record = shortfall record
      /\ 0 < shortfall record
      /\ desired record = per_day_requirements data d DAY
      /\ shortfall record = desired record - assigned_count data sol d DAY
      /\ In {| shortage_date := day_at data d; shortage_code := DAY;
               missing := shortfall record |}
            (shortages (summary (solved_output data sol status))).
Proof.
  intros data sol status record Hsol H. simpl in H.
  unfold reported_day_shortfalls in H. apply in_flat_map in H.
  destruct H as [d [Hd H]]. apply in_range in Hd.
  unfold day_shortfall_vars in H.
  destruct (0 <? per_day_requirements data d DAY) eqn:Ereq.
  - cbn [eval] in H. destruct (0 <? sol (Shortage d DAY)) eqn:E; [|destruct H].
    destruct H as [<- | []]. simpl. exists d.
    apply Z.ltb_lt in E. apply Z.ltb_lt in Ereq.
    rewrite desired_is_day_requirement.
    repeat split; try assumption.
    + apply shortage_is_the_gap; auto.
    + unfold reported_shortages. apply in_flat_map.
      exists ((d, DAY), Shortage d DAY).
      split; [apply (shortage_declared data d DAY Hd eq_refl Ereq)|].
      simpl. apply Z.ltb_lt in E. rewrite E. left. reflexivity.
  - cbn [eval] in H. destruct H.
Qed.

Lemma day_shortfalls_repeat_day_shortages_witness :
  exists d,
    (d < num_days request_min_off)%nat
    /\ sep02 = day_at request_min_off d
    /\ DAY = DAY
    /\ 1 = 1
    /\ 0 < 1
    /\ 1 = per_day_requirements request_min_off d DAY
    /\ 1 = 1 - assigned_count request_min_off answer_min_off d DAY
    /\ In {| shortage_date := day_at request_min_off d; shortage_code := DAY; missing := 1 |}
          (shortages (summary (solved_output request_min_off answer_min_off OPTIMAL))).
Proof.
  apply (day_shortfalls_repeat_day_shortages request_min_off answer_min_off OPTIMAL
           {| shortfall_date := sep02; shortfall_code := DAY; shortfall := 1;
              unused_capacity := 1; desired := 1 |}).
  - vm_compute. reflexivity.
  - vm_compute. auto.
Defined.

(** ** Normalizing the allow-list *)

Lemma mem_shift_in : forall c l, mem_shift c l = true <-> In c l.
Proof.
  intros c l. unfold mem_shift. rewrite existsb_exists. split.
  - intros [x [Hx E]]. apply shift_eqb_eq in E. subst x. exact Hx.
  - intros H. exists c. split; [exact H | apply shift_eqb_refl].
Qed.

Lemma normalize_items_nodup :
  forall items acc, NoDup acc -> NoDup (normalize_items items acc).
Proof.
  induction items as [|[s|] items IH]; intros acc Hacc; simpl; auto.
  destruct (shift_of_string (upper (strip s))) as [code|]; auto.
  destruct (mem_shift code acc) eqn:E; auto.
  apply IH. apply NoDup_app; [exact Hacc | repeat constructor; simpl; tauto|].
  intros x Hx [<- | []]. apply mem_shift_in in Hx. congruence.
Qed.

Lemma normalize_items_in :
  forall items acc c,
    In c (normalize_items items acc)
    <-> In c acc
        \/ exists s, In (IStr s) items /\ shift_of_string (upper (strip s)) = Some c.
Proof.
  induction items as [|[s|] items IH]; intros acc c; simpl.
  - split; [auto | intros [H | [s [[] _]]]; exact H].
  - destruct (shift_of_string (upper (strip s))) as [code|] eqn:Ecode.
    + destruct (mem_shift code acc) eqn:E.
      * rewrite IH. split.
        -- intros [H | [s' [H1 H2]]]; [auto | right; exists s'; auto].
        -- intros [H | [s' [[H1 | H1] H2]]]; [auto | | right; exists s'; auto].
           inversion H1; subst s'. left. apply mem_shift_in.
           rewrite H2 in Ecode. inversion Ecode; subst. exact E.
      * rewrite IH, in_app_iff. simpl. split.
        -- intros [[H | [<- | []]] | [s' [H1 H2]]];
             [auto | right; exists s; auto | right; exists s'; auto].
        -- intros [H | [s' [[H1 | H1] H2]]]; [auto | | right; exists s'; auto].
           inversion H1; subst s'. rewrite H2 in Ecode. inversion Ecode; subst. auto.
    + rewrite IH. split.
      * intros [H | [s' [H1 H2]]]; [auto | right; exists s'; auto].
      * intros [H | [s' [[H1 | H1] H2]]]; [auto | | right; exists s'; auto].
        inversion H1; subst s'. congruence.
  - rewrite IH. split.
    + intros [H | [s' [H1 H2]]]; [auto | right; exists s'; auto].
    + intros [H | [s' [[H1 | H1] H2]]]; [auto | discriminate | right; exists s'; auto].
Qed.

Lemma normalize_items_names :
  forall l acc,
    NoDup (acc ++ l) ->
    normalize_items (map (fun c => IStr (shift_name c)) l) acc = acc ++ l.
Proof.
  induction l as [|c l IH]; intros acc Hnd; simpl.
  - rewrite app_nil_r. reflexivity.
  - assert (Hname : shift_of_string (upper (strip (shift_name c))) = Some c)
      by (destruct c; reflexivity).
    rewrite Hname.
    assert (Hfresh : mem_shift c acc = false).
    { destruct (mem_shift c acc) eqn:E; [|reflexivity].
      apply mem_shift_in in E. apply NoDup_remove_2 in Hnd.
      exfalso. apply Hnd. apply in_or_app. left. exact E. }
    rewrite Hfresh, IH.
    + rewrite <- app_assoc. reflexivity.
    + rewrite <- app_assoc. exact Hnd.
Qed.

(** X20. [normalize_allowed_codes] returns None for a raw value that is
    absent or not a list.  For a list it returns the valid shift codes named
    by its string items, compared after stripping white space and in upper
    case, each code once; normalizing the names of the result again returns
    the same list. *)
Theorem normalize_allowed_codes_canonical :
  normalize_allowed_codes None = None
  /\ forall items,
       exists codes,
         normalize_allowed_codes (Some items) = Some codes
         /\ NoDup codes
         /\ (forall c, In c codes <->
                       exists s, In (IStr s) items
                                 /\ shift_of_string (upper (strip s)) = Some c)
         /\ normalize_allowed_codes (Some (map (fun c => IStr (shift_name c)) codes))
            = Some codes.
Proof.
  split; [reflexivity|].
  intros items. exists (normalize_items items []). split; [reflexivity|].
  assert (Hnd : NoDup (normalize_items items [])) by (apply normalize_items_nodup; constructor).
  split; [exact Hnd|]. split.
  - intros c. rewrite normalize_items_in. simpl. tauto.
  - unfold normalize_allowed_codes. f_equal.
    apply (normalize_items_names (normalize_items items []) []). exact Hnd.
Qed.

(** ** The range of the inferred category *)

Lemma by_times_is_work : forall s e, is_work (by_times s e) = true.
Proof.
  intros s e. unfold by_times.
  repeat match goal with
         | |- context [if ?b then _ else _] => destruct b
         end; reflexivity.
Qed.

(** X21. [infer_shift_category] never answers NIGHT_AFTER or OFF: its result
    is a work code or nothing.  A non-empty explicit code that is one of the
    six shift codes decides alone, whatever the times are; without such a
    code, a start or end time that cannot be read as minutes gives nothing. *)
Theorem infer_shift_category_range :
  forall py_int shift_code start_at end_at,
    (forall c, infer_shift_category py_int shift_code start_at end_at = Some c ->
               is_work c = true)
    /\ (usable_code shift_code = true ->
        forall start_at' end_at',
          infer_shift_category py_int shift_code start_at' end_at'
          = infer_shift_category py_int shift_code start_at end_at)
    /\ (usable_code shift_code = false ->
        to_minutes py_int start_at = None \/ to_minutes py_int end_at = None ->
        infer_shift_category py_int shift_code start_at end_at = None).
Proof.
  intros py_int shift_code start_at end_at.
  assert (Htimes : forall c, infer_from_times py_int start_at end_at = Some c ->
                             is_work c = true).
  { intros c H. unfold infer_from_times in H.
    destruct (to_minutes py_int start_at); [|discriminate].
    destruct (to_minutes py_int end_at); [|discriminate].
    inversion H. apply by_times_is_work. }
  split; [|split].
  - intros c H. unfold infer_shift_category in H.
    destruct shift_code as [[|ch rest]|]; try (apply Htimes; exact H).
    unfold direct_map in H.
    destruct (shift_of_string (String ch rest)) as [[]|];
      try (inversion H; reflexivity); try discriminate.
    apply Htimes. exact H.
  - intros Husable s' e'. unfold infer_shift_category, usable_code in *.
    destruct shift_code as [[|ch rest]|]; try discriminate.
    destruct (direct_map (String ch rest)); [reflexivity | discriminate].
  - intros Hunusable Hnone. rewrite infer_without_code by exact Hunusable.
    unfold infer_from_times. destruct Hnone as [-> | ->]; [reflexivity|].
    destruct (to_minutes py_int start_at); reflexivity.
Qed.

Lemma infer_shift_category_range_witness :
  (forall c, infer_shift_category decimal_int (Some "NIGHT_AFTER"%string) None None = Some c ->
             is_work c = true)
  /\ (usable_code (Some "NIGHT_AFTER"%string) = true ->
      forall start_at' end_at',
        infer_shift_category decimal_int (Some "NIGHT_AFTER"%string) start_at' end_at'
        = infer_shift_category decimal_int (Some "NIGHT_AFTER"%string) None None)
  /\ (usable_code (Some "NIGHT_AFTER"%string) = false ->
      to_minutes decimal_int None = None \/ to_minutes decimal_int None = None ->
      infer_shift_category decimal_int (Some "NIGHT_AFTER"%string) None None = None).
Proof.
  apply (infer_shift_category_range decimal_int (Some "NIGHT_AFTER"%string) None None).
Defined.

(** ** Required keys *)

Lemma has_all_keys_found :
  forall (V : Type) (payload : list (string * V)),
    find (fun key => negb (has_key payload key)) required_keys = None
    <-> forall key, In key required_keys -> has_key payload key = true.
Proof.
  intros V payload. split.
  - intros H key Hkey.
    pose proof (find_none _ _ H key Hkey) as Hn. simpl in Hn.
    apply negb_false_iff in Hn. exact Hn.
  - intros H. destruct (find (fun key => negb (has_key payload key)) required_keys)
      as [key|] eqn:E; [|reflexivity].
    apply find_some in E. destruct E as [Hkey Hn].
    rewrite (H key Hkey) in Hn. discriminate.
Qed.

Lemma find_first :
  forall (A : Type) (p : A -> bool) l a,
    find p l = Some a ->
    exists before after, l = before ++ a :: after /\ p a = true
                         /\ forall b, In b before -> p b = false.
Proof.
  intros A p l a. induction l as [|x l IH]; simpl; [discriminate|].
  destruct (p x) eqn:E.
  - intros H. inversion H; subst. exists [], l. split; [reflexivity|].
    split; [exact E|]. intros b [].
  - intros H. destruct (IH H) as [before [after [-> [Ha Hb]]]].
    exists (x :: before), after. split; [reflexivity|]. split; [exact Ha|].
    intros b [<- | Hin]; [exact E | apply Hb; exact Hin].
Qed.

(** X22. [parse_input] accepts a decoded JSON object exactly when it has the
    keys unit, month, days, members and coverage_requirements, and then hands
    it back unchanged.  Otherwise it exits with the error "Missing key: k",
    where k is the first of these keys, in that order, that the object
    lacks; undecodable input exits with "Invalid JSON input: ...". *)
Theorem parse_input_requires_keys :
  forall (V : Type) (payload : list (string * V)),
    ((forall key, In key required_keys -> has_key payload key = true) ->
       parse_input (inr payload) = Parsed payload)
    /\ (forall result, parse_input (inr payload) = Parsed result ->
          result = payload
          /\ forall key, In key required_keys -> has_key payload key = true)
    /\ (forall error, parse_input (inr payload) = Exit error ->
          exists before key after,
            required_keys = before ++ key :: after
            /\ error = ("Missing key: " ++ key)%string
            /\ has_key payload key = false
            /\ forall earlier, In earlier before -> has_key payload earlier = true)
    /\ forall exc, parse_input (@inl string (list (string * V)) exc)
                   = Exit ("Invalid JSON input: " ++ exc)%string.
Proof.
  intros V payload. unfold parse_input. split; [|split; [|split]].
  - intros H. apply has_all_keys_found in H. rewrite H. reflexivity.
  - intros result H.
    destruct (find (fun key => negb (has_key payload key)) required_keys) as [key|] eqn:E;
      [discriminate|].
    inversion H; subst result. split; [reflexivity|]. apply has_all_keys_found. exact E.
  - intros error H.
    destruct (find (fun key => negb (has_key payload key)) required_keys) as [key|] eqn:E;
      [|discriminate].
    inversion H; subst error.
    destruct (find_first _ _ _ _ E) as [before [after [Hsplit [Hkey Hbefore]]]].
    exists before, key, after. split; [exact Hsplit|]. split; [reflexivity|].
    split; [apply negb_true_iff; exact Hkey|].
    intros earlier Hin. apply negb_false_iff. apply Hbefore. exact Hin.
  - reflexivity.
Qed.

Lemma parse_input_requires_keys_witness :
  exists before key after,
    required_keys = before ++ key :: after
    /\ ("Missing key: days" = "Missing key: " ++ key)%string
    /\ has_key [("unit", 1); ("month", 2)]%string key = false
    /\ forall earlier, In earlier before ->
                       has_key [("unit", 1); ("month", 2)]%string earlier = true.
Proof.
  destruct (parse_input_requires_keys Z [("unit", 1); ("month", 2)]%string)
    as [_ [_ [H _]]].
  apply H. reflexivity.
Defined.

(** ** Boolean options *)

Lemma lower_upper_ascii : forall c, lower_ascii (upper_ascii c) = lower_ascii c.
Proof.
  intros c. destruct c as [[] [] [] [] [] [] [] []]; reflexivity.
Qed.

Lemma lower_upper : forall s, lower (upper s) = lower s.
Proof.
  induction s as [|c s IH]; simpl; [reflexivity|].
  rewrite lower_upper_ascii, IH. reflexivity.
Qed.

(** X23. [to_bool] uses the default only for a missing value, and reads a
    string without regard to letter case.  A string is read as false only
    when it is empty or, in lower case, one of "0", "false" and "no"; every
    other string, also "off" or "n", is read as true. *)
Theorem to_bool_reading :
  (forall default, to_bool JNull default = default)
  /\ (forall value default default',
        value <> JNull -> to_bool value default = to_bool value default')
  /\ (forall s default, to_bool (JString (upper s)) default = to_bool (JString s) default)
  /\ (forall s default,
        to_bool (JString s) default = false <->
        s = EmptyString \/ In (lower s) ["0"; "false"; "no"]%string).
Proof.
  split; [reflexivity|]. split; [|split].
  - intros value default default' H. destruct value; try reflexivity. contradiction.
  - intros s default. unfold to_bool. rewrite lower_upper.
    destruct (in_strings (lower s) ["1"; "true"; "yes"]%string); [reflexivity|].
    destruct (in_strings (lower s) ["0"; "false"; "no"]%string); [reflexivity|].
    destruct s; reflexivity.
  - intros s default. unfold to_bool.
    assert (Hin : forall l, in_strings (lower s) l = true <-> In (lower s) l).
    { intros l. unfold in_strings. rewrite existsb_exists. split.
      - intros [x [Hx E]]. apply String.eqb_eq in E. subst x. exact Hx.
      - intros H. exists (lower s). split; [exact H | apply String.eqb_refl]. }
    destruct (in_strings (lower s) ["1"; "true"; "yes"]%string) eqn:Eyes.
    + apply Hin in Eyes. split; [discriminate|].
      intros [-> | Hno]; [simpl in Eyes; intuition discriminate|].
      simpl in Eyes, Hno.
      destruct Eyes as [E | [E | [E | []]]]; rewrite <- E in Hno;
        intuition discriminate.
    + destruct (in_strings (lower s) ["0"; "false"; "no"]%string) eqn:Eno.
      * apply Hin in Eno. split; auto.
      * split.
        -- destruct s; [auto | discriminate].
        -- intros [-> | Hno]; [reflexivity|].
           apply Hin in Hno. congruence.
Qed.

Lemma to_bool_reading_witness :
  to_bool (JString "Off") true = to_bool (JString "Off") false.
Proof.
  destruct to_bool_reading as [_ [H _]]. apply H. discriminate.
Defined.

(** ** Balance targets *)

(** X24. With a non-empty roster the work target is the total of the
    requirements divided by the number of members, rounded down, and the off
    target the rest of the member-days divided likewise.  The two targets add
    up to the number of days when the total divides evenly and to one day
    less otherwise, while a member's work days and off days always add up to
    the number of days: with an uneven total no member of a solved output
    meets both targets. *)
Theorem balance_targets_round_down :
  forall data sol u,
    solved_by data sol ->
    (u < num_members data)%nat ->
    target_work data * Z.of_nat (num_members data) <= total_assignments data
      < (target_work data + 1) * Z.of_nat (num_members data)
    /\ (total_assignments data mod Z.of_nat (num_members data) = 0 ->
        target_work data + target_off data = Z.of_nat (num_days data))
    /\ (total_assignments data mod Z.of_nat (num_members data) <> 0 ->
        target_work data + target_off data = Z.of_nat (num_days data) - 1
        /\ (work_day_count data sol u <> target_work data
            \/ off_day_count data sol u <> target_off data)).
Proof.
  intros data sol u Hsol Hu.
  assert (Hn : 0 < Z.of_nat (num_members data)) by lia.
  set (n := Z.of_nat (num_members data)) in *.
  set (t := total_assignments data).
  assert (Hw : target_work data = t / n).
  { unfold target_work. destruct (num_members data); [lia | reflexivity]. }
  assert (Ho : target_off data = (Z.of_nat (num_days data) * n - t) / n).
  { unfold target_off, total_off_available. destruct (num_members data); [lia | reflexivity]. }
  pose proof (Z.div_mod t n ltac:(lia)) as Hdm.
  pose proof (Z.mod_pos_bound t n Hn) as Hmod.
  set (q := t / n) in *. set (r := t mod n) in *.
  split; [rewrite Hw; lia|].
  split.
  - intros Hzero. rewrite Hw, Ho.
    replace (Z.of_nat (num_days data) * n - t)
      with ((Z.of_nat (num_days data) - q) * n) by lia.
    rewrite Z.div_mul by lia. lia.
  - intros Hnz.
    assert (Hsum : target_work data + target_off data = Z.of_nat (num_days data) - 1).
    { rewrite Hw, Ho.
      replace (Z.of_nat (num_days data) * n - t)
        with ((Z.of_nat (num_days data) - q - 1) * n + (n - r)) by lia.
      rewrite Z.div_add_l by lia. rewrite Z.div_small by lia. lia. }
    split; [exact Hsum|].
    unfold work_day_count.
    destruct (Z.eq_dec (off_day_count data sol u) (target_off data)) as [E | E];
      [left; lia | right; exact E].
Qed.

Lemma balance_targets_round_down_witness :
  target_work request_carry_over * Z.of_nat (num_members request_carry_over)
    <= total_assignments request_carry_over
    < (target_work request_carry_over + 1) * Z.of_nat (num_members request_carry_over)
  /\ (total_assignments request_carry_over mod Z.of_nat (num_members request_carry_over) = 0 ->
      target_work request_carry_over + target_off request_carry_over
      = Z.of_nat (num_days request_carry_over))
  /\ (total_assignments request_carry_over mod Z.of_nat (num_members request_carry_over) <> 0 ->
      target_work request_carry_over + target_off request_carry_over
      = Z.of_nat (num_days request_carry_over) - 1
      /\ (work_day_count request_carry_over answer_carry_over 0
          <> target_work request_carry_over
          \/ off_day_count request_carry_over answer_carry_over 0
             <> target_off request_carry_over)).
Proof.
  apply (balance_targets_round_down request_carry_over answer_carry_over 0%nat).
  - vm_compute. reflexivity.
  - vm_compute. lia.
Defined.

(** ** Bounds of the resolved options *)

(** X25. The resolved minimum days off are never negative and never above
    the larger of the horizon length and 10.  The general and the full-time
    value always lie within the horizon; the part-time and the contract value
    do so whenever the general min_off_days is given or the horizon has at
    least ten days. *)
Theorem min_off_values_bounded :
  forall data,
    let n := Z.of_nat (num_days data) in
    let t := min_off data in
    0 <= base_min_off t <= n
    /\ 0 <= min_off_full_time t <= n
    /\ 0 <= min_off_part_time t <= Z.max n 10
    /\ 0 <= min_off_contract t <= Z.max n 10
    /\ (min_off_days (constraints_of data) <> RNone \/ 10 <= n ->
        0 <= min_off_part_time t <= n /\ 0 <= min_off_contract t <= n).
Proof.
  intros data n t. unfold t, min_off, resolve_min_off. fold n. simpl.
  assert (Hn : 0 <= n) by (unfold n; lia).
  unfold clamp_min_off_days.
  destruct (min_off_days (constraints_of data));
    destruct (min_off_days_full_time (constraints_of data));
    destruct (min_off_days_part_time (constraints_of data));
    destruct (min_off_days_contract (constraints_of data));
    repeat split; try lia;
    try (intros [H | H]; [try contradiction; try lia | lia]);
    try (destruct H as [H | H]; [contradiction | lia]).
Qed.

(** X26. An absent, unreadable or non-positive max_consecutive_workdays
    disables the rule: it adds no constraint and no conflict.  A cap of the
    horizon length or more is clamped to the horizon length, emits no window
    constraint and never records a conflict. *)
Theorem consecutive_rule_off_or_vacuous :
  forall data u,
    (match max_consecutive_workdays_raw (constraints_of data) with
     | RInt z => z <= 0
     | _ => True
     end -> consecutive_rule data u = nothing)
    /\ (forall z,
          max_consecutive_workdays_raw (constraints_of data) = RInt z ->
          Z.of_nat (num_days data) <= z ->
          0 < z ->
          consecutive_rule data u = (work_flag_definitions data u, [])).
Proof.
  intros data u. unfold consecutive_rule, max_consecutive_workdays, resolve_max_consecutive.
  split.
  - destruct (max_consecutive_workdays_raw (constraints_of data)) as [|z|]; try reflexivity.
    intros Hz. assert (E : (0 <? z) = false) by (apply Z.ltb_ge; exact Hz).
    rewrite E. reflexivity.
  - intros z Hraw Hbig Hpos. rewrite Hraw.
    assert (E : (0 <? z) = true) by (apply Z.ltb_lt; exact Hpos). rewrite E.
    rewrite Z.min_r by exact Hbig.
    assert (Hwin : window_constraints data u (Z.of_nat (num_days data)) = []).
    { unfold window_constraints.
      assert (El : Nat.leb (Z.to_nat (Z.of_nat (num_days data) + 1)) (num_days data) = false)
        by (apply Nat.leb_gt; lia).
      rewrite El. reflexivity. }
    rewrite Hwin, app_nil_r. f_equal.
    destruct (scan_pinned_run data u (Z.of_nat (num_days data)) (range (num_days data)) 0)
      as [|k rest] eqn:Escan; [reflexivity|].
    destruct (scan_pinned_run_finds data u (Z.of_nat (num_days data)) (num_days data) 0 0)
      as [d [run [Hd [Hc [Hr _]]]]].
    + lia.
    + intros i Hi. lia.
    + unfold range in Escan. rewrite Escan. discriminate.
    + lia.
Qed.

Lemma consecutive_rule_off_or_vacuous_witness :
  consecutive_rule request_night_cycle 0 = nothing.
Proof.
  destruct (consecutive_rule_off_or_vacuous request_night_cycle 0) as [H _].
  apply H. exact I.
Defined.

Lemma min_off_values_bounded_witness :
  0 <= min_off_part_time (min_off request_general_min_off)
    <= Z.of_nat (num_days request_general_min_off)
  /\ 0 <= min_off_contract (min_off request_general_min_off)
       <= Z.of_nat (num_days request_general_min_off).
Proof.
  destruct (min_off_values_bounded request_general_min_off) as [_ [_ [_ [_ H]]]].
  apply H. left. discriminate.
Defined.

(** ** The cost of one unit in the objective *)





















